(** * zoomexport: Zoom report import, poll aggregation and chart rendering

    A shallow embedding of [zoomexport.py].  Files are lists of text lines,
    Python exceptions are values of [exn], dictionaries are association
    lists in insertion order, Python integers are [Z] and Python floats are
    IEEE 754 binary64 numbers ([spec_float] at precision 53, [emax] 1024).
    The interpreter and library routines the module calls without defining
    ([csv.reader], [int], [float], [pd.to_datetime], [strftime], [str] of a
    list, [sort_values]) are fields of the class [Runtime]. *)

From Stdlib Require Import ZArith List String Ascii Bool Lia.
From Stdlib Require Import QArith Qabs Qpower Lqa.
From Stdlib Require Import Permutation Sorted.
From Stdlib Require Import SpecFloat.
Import ListNotations.

Local Open Scope string_scope.
Local Open Scope list_scope.
Local Open Scope Z_scope.

(** ** Exceptions and the result monad *)

Inductive exn : Type :=
| IndexError
| KeyError (key : string)
| ValueError (msg : string)
| OverflowError
| ZeroDivisionError.

Inductive result (A : Type) : Type :=
| Ok (a : A)
| Raise (e : exn).

Arguments Ok {A} a.
Arguments Raise {A} e.

Definition bind {A B : Type} (m : result A) (k : A -> result B) : result B :=
  match m with
  | Ok a => k a
  | Raise e => Raise e
  end.

Notation "x <- m ;; k" := (bind m (fun x => k))
  (at level 61, m at next level, right associativity).

Definition of_option {A : Type} (o : option A) (e : exn) : result A :=
  match o with
  | Some a => Ok a
  | None => Raise e
  end.

(** A [for] loop whose body may raise: the state is threaded from left to
    right and the first exception ends the loop. *)
Fixpoint for_each {A S : Type} (body : S -> A -> result S) (l : list A) (s : S)
  : result S :=
  match l with
  | [] => Ok s
  | x :: l' => s' <- body s x ;; for_each body l' s'
  end.

(** [ [f(x) for x in l] ] where [f] may raise. *)
Fixpoint map_result {A B : Type} (f : A -> result B) (l : list A)
  : result (list B) :=
  match l with
  | [] => Ok []
  | x :: l' => y <- f x ;; ys <- map_result f l' ;; Ok (y :: ys)
  end.

(** ** Python built-ins *)

(** [l[i]], with Python's negative indices. *)
Definition getitem {A : Type} (l : list A) (i : Z) : result A :=
  let n := Z.of_nat (List.length l) in
  let j := if i <? 0 then i + n else i in
  if (0 <=? j) && (j <? n)
  then of_option (nth_error l (Z.to_nat j)) IndexError
  else Raise IndexError.

(** [list(range(start, stop, step))] for a positive [step]. *)
Definition py_range (start stop step : Z) : list Z :=
  map (fun k => start + step * Z.of_nat k)
      (seq 0 (Z.to_nat ((stop - start + step - 1) / step))).

(** [len(l)]. *)
Definition len {A : Type} (l : list A) : Z := Z.of_nat (List.length l).

(** [s.replace(c, '')] for a one-character [c]. *)
Fixpoint remove_char (c : ascii) (s : string) : string :=
  match s with
  | EmptyString => EmptyString
  | String a s' =>
      if Ascii.eqb a c then remove_char c s' else String a (remove_char c s')
  end.

(** [s.split(c)] for a one-character separator: the fields between the
    occurrences of [c]; there is always at least one field. *)
Fixpoint split_char (c : ascii) (s : string) : list string :=
  match s with
  | EmptyString => [EmptyString]
  | String a s' =>
      if Ascii.eqb a c then EmptyString :: split_char c s'
      else match split_char c s' with
           | [] => [String a EmptyString]
           | f :: fs => String a f :: fs
           end
  end.

(** ** Dictionaries: association lists in insertion order *)

Definition dict (V : Type) : Type := list (string * V).

Fixpoint dict_get {V : Type} (d : dict V) (k : string) : option V :=
  match d with
  | [] => None
  | (k', v) :: d' => if String.eqb k' k then Some v else dict_get d' k
  end.

(** [k in d.keys()]. *)
Definition dict_mem {V : Type} (d : dict V) (k : string) : bool :=
  match dict_get d k with
  | Some _ => true
  | None => false
  end.

(** [d[k]]. *)
Definition dict_getitem {V : Type} (d : dict V) (k : string) : result V :=
  of_option (dict_get d k) (KeyError k).

(** [d[k] = v]: an existing key keeps its position, a new key goes last. *)
Fixpoint dict_set {V : Type} (d : dict V) (k : string) (v : V) : dict V :=
  match d with
  | [] => [(k, v)]
  | (k', v') :: d' =>
      if String.eqb k' k then (k', v) :: d' else (k', v') :: dict_set d' k v
  end.

Definition dict_keys {V : Type} (d : dict V) : list string := map fst d.

(** ** Tables *)

(** A pandas [DataFrame]: the column labels and the rows, in order. *)
Record DataFrame (R : Type) : Type := mkDataFrame {
  columns : list string;
  rows : list R
}.

Arguments mkDataFrame {R} columns rows.
Arguments columns {R} d.
Arguments rows {R} d.

Definition mem_string (s : string) (l : list string) : bool :=
  existsb (String.eqb s) l.

(** [data.append(other, ignore_index=True, sort=False)]: the rows of [other]
    follow those of [data]; labels of [other] that [data] lacks are added
    after the labels of [data]. *)
Definition df_append {R : Type} (data other : DataFrame R) : DataFrame R :=
  mkDataFrame
    (columns data
     ++ filter (fun c => negb (mem_string c (columns data))) (columns other))
    (rows data ++ rows other).

(** ** Binary64 *)

Definition prec : Z := 53.
Definition emax : Z := 1024.

Definition float : Type := spec_float.

(** [float(n)] for a Python integer: the nearest binary64 number, ties to
    even; [OverflowError] when that would be infinite. *)
Definition float_of_int (n : Z) : result float :=
  match binary_normalize prec emax n 0 false with
  | S754_infinity _ => Raise OverflowError
  | f => Ok f
  end.

(** [x / y] on floats. *)
Definition truediv (x y : float) : result float :=
  match y with
  | S754_zero _ => Raise ZeroDivisionError
  | _ => Ok (SFdiv prec emax x y)
  end.

(** ** The runtime the module runs on *)

Class Runtime : Type := {
  (** [csv.reader(lines)] with the comma as delimiter, read to the end. *)
  csv_reader : list string -> list (list string);
  (** [int(s)]; [None] stands for [ValueError]. *)
  py_int : string -> option Z;
  (** [float(s)]; [None] stands for [ValueError]. *)
  py_float : string -> option float;
  (** [pd.to_datetime(s, format=fmt)] as nanoseconds since the epoch;
      [None] stands for [ValueError]. *)
  to_datetime : string -> string -> option Z;
  (** [t.strftime(fmt)]. *)
  strftime : string -> Z -> string;
  (** [str(l)] for a list of strings. *)
  str_of_list : list string -> string;
  (** [sort_values]: the rows reordered by the [<=] test of the sort key;
      the test is all the routine learns of the rows. *)
  sort_rows : forall R : Type, (R -> R -> bool) -> list R -> list R;
  (** [numpy]'s mean of a non-empty column of floats. *)
  mean : list float -> float;
  (** [bokeh.palettes.Set2[8]]. *)
  Set2_8 : list string
}.

Definition int `{Runtime} (s : string) : result Z :=
  of_option (py_int s) (ValueError s).

Definition float_of_str `{Runtime} (s : string) : result float :=
  of_option (py_float s) (ValueError s).

Definition pd_to_datetime `{Runtime} (fmt s : string) : result Z :=
  of_option (to_datetime fmt s) (ValueError s).

(** ** Data import *)

(** *** Performance reports *)

Record MeetingRecord : Type := mkMeetingRecord {
  mr_topic : string;
  mr_meeting_id : string;
  mr_datetime : Z;
  mr_duration : Z;
  mr_registered : Z;
  mr_attended : Z;
  mr_attendance_rate : float;
  mr_questions : Z;
  mr_date_str : string
}.

Definition performance_columns : list string :=
  ["topic"; "meeting_id"; "datetime"; "duration"; "registered"; "attended";
   "attendance_rate"; "questions"; "date_str"].

(** [prdata[i][j]]. *)
Definition cell (prdata : list (list string)) (i j : Z) : result string :=
  line <- getitem prdata i ;; getitem line j.

Definition default_date_format : string := "%d.%m.".

Definition performance_datetime_format : string := "%b %d, %Y %I:%M %p".

(** The body of [read_performance_report] after the file has been read into
    [file], its lines. *)
Definition read_performance_report `{Runtime}
    (file : list string) (date_format : string)
  : result (DataFrame MeetingRecord) :=
  let prdata := csv_reader file in
  topic <- cell prdata 3 0 ;;
  id <- cell prdata 3 1 ;;
  let meeting_id := remove_char "-" id in
  datetime <- cell prdata 3 2 ;;
  duration <- (c <- cell prdata 3 3 ;; int c) ;;
  registered <- (c <- cell prdata 6 0 ;; int c) ;;
  attended <- (c <- cell prdata 6 1 ;; int c) ;;
  attendance_rate <-
    (c <- cell prdata 6 2 ;;
     pct <- float_of_str c ;;
     hundred <- float_of_int 100 ;;
     truediv pct hundred) ;;
  questions <- (c <- cell prdata 8 0 ;; int c) ;;
  t <- pd_to_datetime performance_datetime_format datetime ;;
  Ok (mkDataFrame performance_columns
        [mkMeetingRecord topic meeting_id t duration registered attended
           attendance_rate questions (strftime date_format t)]).

(** *** Folders *)

(** A folder: its entries by name, each with its lines, in the order the
    operating system lists them. *)
Definition folder : Type := list (string * list string).

Definition ends_with (suffix s : string) : bool :=
  let n := String.length s in
  let m := String.length suffix in
  (m <=? n)%nat && String.eqb (substring (n - m) m s) suffix.

Definition is_hidden (name : string) : bool :=
  match name with
  | String "." _ => true
  | _ => false
  end.

(** [glob.glob(folder + '/*' + suffix)]: a star matches any run of
    characters, but no leading dot. *)
Definition glob (suffix : string) (dir : folder) : list (string * list string) :=
  filter (fun f => negb (is_hidden (fst f)) && ends_with suffix (fst f)) dir.

Definition read_all_performance_reports `{Runtime} (dir : folder)
  : result (DataFrame MeetingRecord) :=
  let data := mkDataFrame performance_columns [] in
  let perfs := glob "Performance Report.csv" dir in
  data <- for_each
            (fun data perf_rep =>
               df <- read_performance_report (snd perf_rep) default_date_format ;;
               Ok (df_append data df))
            perfs data ;;
  Ok (mkDataFrame (columns data)
        (sort_rows _ (fun r1 r2 => mr_datetime r1 <=? mr_datetime r2) (rows data))).

(** *** Poll reports, one row per attendee and question *)

(** The dictionary [qdata] built for one question/answer pair. *)
Record QData : Type := mkQData {
  qd_meeting_id : string;
  qd_row_no : Z;
  qd_name : string;
  qd_email : string;
  qd_datetime : string;
  qd_question : string;
  qd_answer : string
}.

Record PollResponse : Type := mkPollResponse {
  pr_meeting_id : string;
  pr_row_no : Z;
  pr_name : string;
  pr_email : string;
  pr_datetime : Z;
  pr_question : string;
  pr_answer : string
}.

Definition poll_columns : list string :=
  ["meeting_id"; "row_no"; "name"; "email"; "datetime"; "question"; "answer"].

(** [polldata[3].split(',')[1].replace('-', '')]. *)
Definition poll_meeting_id (polldata : list string) : result string :=
  line <- getitem polldata 3 ;;
  id <- getitem (split_char "," line) 1 ;;
  Ok (remove_char "-" id).

(** The body of the inner loop of [read_poll_report]. *)
Definition poll_pair `{Runtime} (meeting_id : string) (line : list string)
    (poll : list QData) (q : Z) : result (list QData) :=
  q_text <- getitem line (4 + q) ;;
  a_text <- getitem line (4 + q + 1) ;;
  row_no <- (c <- getitem line 0 ;; int c) ;;
  name <- getitem line 1 ;;
  email <- getitem line 2 ;;
  datetime <- getitem line 3 ;;
  Ok (poll ++ [mkQData meeting_id row_no name email datetime q_text a_text]).

(** The body of the outer loop of [read_poll_report]: one line of the
    report. *)
Definition poll_line `{Runtime} (meeting_id : string)
    (poll : list QData) (line : list string) : result (list QData) :=
  let num_questions := len line - 5 in
  for_each (poll_pair meeting_id line) (py_range 0 num_questions 2) poll.

Definition poll_datetime_format : string := "%b %d, %Y %H:%M:%S".

Definition poll_response_of `{Runtime} (d : QData) : result PollResponse :=
  t <- pd_to_datetime poll_datetime_format (qd_datetime d) ;;
  Ok (mkPollResponse (qd_meeting_id d) (qd_row_no d) (qd_name d) (qd_email d)
        t (qd_question d) (qd_answer d)).

Definition read_poll_report `{Runtime} (file : list string)
  : result (DataFrame PollResponse) :=
  let polldata := file in
  meeting_id <- poll_meeting_id polldata ;;
  let polldata := skipn 6 polldata in
  let csvdata := csv_reader polldata in
  poll <- for_each (poll_line meeting_id) csvdata [] ;;
  rs <- map_result poll_response_of poll ;;
  Ok (mkDataFrame poll_columns rs).

(** The sort key of the poll tables: question, then answer. *)
Definition question_answer_leb (q1 a1 q2 a2 : string) : bool :=
  match String.compare q1 q2 with
  | Lt => true
  | Eq => String.leb a1 a2
  | Gt => false
  end.

Definition read_all_poll_reports `{Runtime} (dir : folder)
  : result (DataFrame PollResponse) :=
  let data := mkDataFrame poll_columns [] in
  let polls := glob "Poll Report.csv" dir in
  data <- for_each
            (fun data poll_rep =>
               df <- read_poll_report (snd poll_rep) ;;
               Ok (df_append data df))
            polls data ;;
  Ok (mkDataFrame (columns data)
        (sort_rows _
           (fun r1 r2 => question_answer_leb (pr_question r1) (pr_answer r1)
                           (pr_question r2) (pr_answer r2))
           (rows data))).

(** *** Poll reports, answer counts per question *)

Record PollAnswerCount : Type := mkPollAnswerCount {
  pc_meeting_id : string;
  pc_question : string;
  pc_answer : string;
  pc_count : Z;
  pc_prop : float;
  pc_responses : Z
}.

Definition count_columns : list string :=
  ["meeting_id"; "question"; "answer"; "count"; "prop"; "responses"].

(** The two dictionaries of [read_poll_report_counts]: [poll] maps a
    question to the counts of its answers, [N] maps a question to the number
    of times it was answered. *)
Record counts : Type := mkCounts {
  poll : dict (dict Z);
  N : dict Z
}.

(** The updates of the dictionaries for one question/answer pair. *)
Definition count_update (st : counts) (q_text a_text : string) : result counts :=
  let poll1 :=
    if negb (dict_mem (poll st) q_text)
    then dict_set (poll st) q_text [] else poll st in
  answers <- dict_getitem poll1 q_text ;;
  answers' <-
    (if negb (dict_mem answers a_text)
     then Ok (dict_set answers a_text 1)
     else n <- dict_getitem answers a_text ;;
          Ok (dict_set answers a_text (n + 1))) ;;
  let poll2 := dict_set poll1 q_text answers' in
  N' <-
    (if negb (dict_mem (N st) q_text)
     then Ok (dict_set (N st) q_text 1)
     else n <- dict_getitem (N st) q_text ;;
          Ok (dict_set (N st) q_text (n + 1))) ;;
  Ok (mkCounts poll2 N').

(** The body of the inner loop of [read_poll_report_counts]. *)
Definition count_pair (line : list string) (st : counts) (q : Z)
  : result counts :=
  q_text <- getitem line (4 + q) ;;
  a_text <- getitem line (4 + q + 1) ;;
  count_update st q_text a_text.

(** The body of the outer loop of [read_poll_report_counts]. *)
Definition count_line (st : counts) (line : list string) : result counts :=
  let num_questions := len line - 5 in
  for_each (count_pair line) (py_range 0 num_questions 2) st.

(** One row of [polltable]. *)
Definition polltable_row (meeting_id : string) (st : counts)
    (q a : string) : result PollAnswerCount :=
  answers <- dict_getitem (poll st) q ;;
  c <- dict_getitem answers a ;;
  x <- float_of_int c ;;
  n <- dict_getitem (N st) q ;;
  y <- float_of_int n ;;
  p <- truediv x y ;;
  Ok (mkPollAnswerCount meeting_id q a c p n).

(** The conversion of the dictionaries to [polltable]. *)
Definition polltable_of (meeting_id : string) (st : counts)
  : result (list PollAnswerCount) :=
  for_each
    (fun polltable q =>
       answers <- dict_getitem (poll st) q ;;
       for_each
         (fun polltable a =>
            r <- polltable_row meeting_id st q a ;;
            Ok (polltable ++ [r]))
         (dict_keys answers) polltable)
    (dict_keys (poll st)) [].

Definition read_poll_report_counts `{Runtime} (file : list string)
  : result (DataFrame PollAnswerCount) :=
  let polldata := file in
  meeting_id <- poll_meeting_id polldata ;;
  let polldata := skipn 6 polldata in
  let csvdata := csv_reader polldata in
  st <- for_each count_line csvdata (mkCounts [] []) ;;
  polltable <- polltable_of meeting_id st ;;
  Ok (mkDataFrame count_columns polltable).

Definition read_all_poll_report_counts `{Runtime} (dir : folder)
  : result (DataFrame PollAnswerCount) :=
  let data := mkDataFrame count_columns [] in
  let polls := glob "Poll Report.csv" dir in
  data <- for_each
            (fun data poll_rep =>
               df <- read_poll_report_counts (snd poll_rep) ;;
               Ok (df_append data df))
            polls data ;;
  Ok (mkDataFrame (columns data)
        (sort_rows _
           (fun r1 r2 => question_answer_leb (pc_question r1) (pc_answer r1)
                           (pc_question r2) (pc_answer r2))
           (rows data))).

(** ** Visualization *)

(** The calls made to the plotting library, in order. *)
Inductive render_call : Type :=
| figure (x_range : list string) (title : string)
| fig_line (x : list string) (y : list float) (color legend_label : string)
| fig_scatter (x : list string) (y : list float) (color : string)
| fig_vbar_stack (stackers x : list string) (source : list (list float))
    (color : list string)
| Legend (items : list string)
| fig_add_layout.

(** A computation that calls the plotting library: the calls made, and the
    value returned or the exception that ended it. *)
Definition rendering (A : Type) : Type := (list render_call * result A)%type.

Definition lift {A : Type} (r : result A) : rendering A := ([], r).

Definition call (c : render_call) : rendering unit := ([c], Ok tt).

Definition bind_rendering {A B : Type} (m : rendering A) (k : A -> rendering B)
  : rendering B :=
  match m with
  | (cs, Ok a) => let (cs', r) := k a in (cs ++ cs', r)
  | (cs, Raise e) => (cs, Raise e)
  end.

Notation "x <~ m ;; k" := (bind_rendering m (fun x => k))
  (at level 61, m at next level, right associativity).

Fixpoint for_each_rendering {A : Type} (body : A -> rendering unit) (l : list A)
  : rendering unit :=
  match l with
  | [] => lift (Ok tt)
  | x :: l' => _ <~ body x ;; for_each_rendering body l'
  end.

(** [enumerate(l)]. *)
Definition enumerate {A : Type} (l : list A) : list (Z * A) :=
  combine (map Z.of_nat (seq 0 (List.length l))) l.

(** The rows of the table given to the plots: the answer counts of the
    meetings, each with the date string of its meeting. *)
Record PollPlotRow : Type := mkPollPlotRow {
  pp_date_str : string;
  pp_question : string;
  pp_answer : string;
  pp_prop : float;
  pp_count : Z
}.

(** [list(column.unique())]: the values in order of first appearance. *)
Fixpoint unique (l : list string) : list string :=
  match l with
  | [] => []
  | x :: l' => x :: filter (fun y => negb (String.eqb y x)) (unique l')
  end.

(** The table after [pivot_table(...).reset_index()] and [fillna(0)]: the
    dates, the answers that label the value columns, and the value columns,
    one per answer. *)
Record Wide : Type := mkWide {
  w_date_str : list string;
  w_answers : list string;
  w_values : list (list float)
}.

Definition float_zero : float := S754_zero false.

Definition pivot_table `{Runtime} (data : list (string * string * float)) : Wide :=
  let dates := sort_rows _ String.leb (unique (map (fun r => fst (fst r)) data)) in
  let answers := sort_rows _ String.leb (unique (map (fun r => snd (fst r)) data)) in
  mkWide dates answers
    (map (fun a =>
            map (fun d =>
                   match filter (fun r => String.eqb (fst (fst r)) d
                                          && String.eqb (snd (fst r)) a) data with
                   | [] => float_zero
                   | vs => mean (map snd vs)
                   end)
                dates)
         answers).

(** [data.loc[:, ans]] for an answer [ans]. *)
Fixpoint wide_column (answers : list string) (values : list (list float))
    (ans : string) : result (list float) :=
  match answers, values with
  | a :: answers', v :: values' =>
      if String.eqb a ans then Ok v else wide_column answers' values' ans
  | _, _ => Raise (KeyError ans)
  end.

Definition float_hundred : float :=
  Eval vm_compute in binary_normalize prec emax 100 0 false.

(** The selection and pivoting both plots start with: the answers seen for
    the question, and the wide table. *)
Definition question_data `{Runtime} (polldata : DataFrame PollPlotRow)
    (question : string) (prop : bool) : list string * Wide :=
  let sel := filter (fun r => String.eqb (pp_question r) question) (rows polldata) in
  let a := unique (map pp_answer sel) in
  let data :=
    if prop
    then map (fun r => (pp_date_str r, pp_answer r,
                        SFmul prec emax (pp_prop r) float_hundred)) sel
    else map (fun r => (pp_date_str r, pp_answer r,
                        binary_normalize prec emax (pp_count r) 0 false)) sel in
  (a, pivot_table data).

Definition plot_question_bokeh `{Runtime} (polldata : DataFrame PollPlotRow)
    (question : string) (prop : bool) (answer_sort : option (list string))
  : rendering unit :=
  let (a, data) := question_data polldata question prop in
  let colors := Set2_8 in
  let colors := firstn (List.length a) colors in
  let a := match answer_sort with
           | Some s => s
           | None => a
           end in
  _ <~ call (figure (w_date_str data) question) ;;
  for_each_rendering
    (fun '(ix, ans) =>
       y <~ lift (wide_column (w_answers data) (w_values data) ans) ;;
       c <~ lift (getitem colors ix) ;;
       l <~ lift (getitem a ix) ;;
       _ <~ call (fig_line (w_date_str data) y c l) ;;
       y <~ lift (wide_column (w_answers data) (w_values data) ans) ;;
       c <~ lift (getitem colors ix) ;;
       call (fig_scatter (w_date_str data) y c))
    (enumerate a).

Definition newline : string := String (ascii_of_nat 10) EmptyString.

(** [err.format(question, str(a))]. *)
Definition answer_sort_error `{Runtime} (question : string) (a : list string)
  : string :=
  "All answers for a given question must be included in answer_sort:"
  ++ newline ++ "Question: " ++ question
  ++ newline ++ "Answers: " ++ str_of_list a.

(** [s[0:n] + '...'] when [s] has more than [limit] characters. *)
Definition shorten (limit n : nat) (s : string) : string :=
  if (limit <? String.length s)%nat then substring 0 n s ++ "..." else s.

Definition plot_question_stacked_bokeh `{Runtime}
    (polldata : DataFrame PollPlotRow)
    (question : string) (prop : bool) (answer_sort : option (list string))
  : rendering unit :=
  let (a, data) := question_data polldata question prop in
  let colors := Set2_8 in
  let colors := firstn (List.length a) colors in
  a' <~ lift
         match answer_sort with
         | Some s =>
             _ <- for_each
                    (fun _ var =>
                       if negb (mem_string var s)
                       then Raise (ValueError (answer_sort_error question a))
                       else Ok tt)
                    a tt ;;
             Ok s
         | None => Ok a
         end ;;
  let a := a' in
  let question := shorten 60 61 question in
  _ <~ call (figure (w_date_str data) question) ;;
  _ <~ call (fig_vbar_stack a (w_date_str data) (w_values data) colors) ;;
  let l_items := map (fun '(ix, ans) => shorten 35 36 ans) (enumerate a) in
  _ <~ call (Legend l_items) ;;
  call fig_add_layout.

(** *** The attendance plot *)

(** What [plot_attendance_bokeh] does to the plotting library, in order:
    the calls of [figure], [fig.line] and [fig.scatter], and the
    assignments to the axis labels, to [fig.y_range] and to the place of
    the legend. *)
Inductive attendance_call : Type :=
| attendance_figure (x_range : list string) (title : string)
| attendance_line (x : list string) (y : list Z) (color legend_label : string)
| attendance_scatter (x : list string) (y : list Z) (color : string)
| xaxis_label (label : string)
| yaxis_label (label : string)
| y_range (start : Z) (stop : option Z)
| legend_location (location : string).

(** A computation of the attendance plot: what it has done to the plotting
    library, and the value returned or the exception that ended it. *)
Definition drawing (A : Type) : Type := (list attendance_call * result A)%type.

Definition draw (c : attendance_call) : drawing unit := ([c], Ok tt).

Definition bind_drawing {A B : Type} (m : drawing A) (k : A -> drawing B)
  : drawing B :=
  match m with
  | (cs, Ok a) => let (cs', r) := k a in (cs ++ cs', r)
  | (cs, Raise e) => (cs, Raise e)
  end.

Notation "x <~~ m ;; k" := (bind_drawing m (fun x => k))
  (at level 61, m at next level, right associativity).

(** A [for] loop that draws and threads a state. *)
Fixpoint for_each_drawing {A S : Type} (body : S -> A -> drawing S)
    (l : list A) (s : S) : drawing S :=
  match l with
  | [] => ([], Ok s)
  | x :: l' => s' <~~ body s x ;; for_each_drawing body l' s'
  end.

(** [bokeh.palettes.Set1[6]]. *)
Definition Set1_6 : list string :=
  ["#e41a1c"; "#377eb8"; "#4daf4a"; "#984ea3"; "#ff7f00"; "#ffff33"].

(** The default values of [title] and [legend]. *)
Definition default_title : string := "Meeting Attendance".


(** [perf_report[d]] for a column of integers. *)
Definition performance_column (perf_report : DataFrame MeetingRecord)
    (d : string) : result (list Z) :=
  if String.eqb d "registered" then Ok (map mr_registered (rows perf_report))
  else if String.eqb d "attended" then Ok (map mr_attended (rows perf_report))
  else if String.eqb d "questions" then Ok (map mr_questions (rows perf_report))
  else if String.eqb d "duration" then Ok (map mr_duration (rows perf_report))
  else Raise (KeyError d).

(** [column.max()]: [None] stands for [nan], the maximum of a column
    without a value. *)
Definition column_max (l : list Z) : option Z :=
  match l with
  | [] => None
  | x :: l' => Some (fold_left Z.max l' x)
  end.

(** [c] counts the series drawn; it is equal to [ix] throughout. *)
Definition plot_attendance_bokeh (perf_report : DataFrame MeetingRecord)
    (questions : bool) (title : string) (legend : list string)
  : drawing unit :=
  let columns := ["registered"; "attended"] in
  let columns := if questions then columns ++ ["questions"] else columns in
  let colors := Set1_6 in
  let date_str := map mr_date_str (rows perf_report) in
  _ <~~ draw (attendance_figure date_str title) ;;
  let c := 0 in
  _ <~~ for_each_drawing
          (fun c '(ix, d) =>
             y <~~ ([], performance_column perf_report d) ;;
             color <~~ ([], getitem colors c) ;;
             legend_label <~~ ([], getitem legend ix) ;;
             _ <~~ draw (attendance_line date_str y color legend_label) ;;
             y <~~ ([], performance_column perf_report d) ;;
             color <~~ ([], getitem colors c) ;;
             _ <~~ draw (attendance_scatter date_str y color) ;;
             ([], Ok (c + 1)))
          (enumerate columns) c ;;
  _ <~~ draw (xaxis_label "Meeting Date") ;;
  _ <~~ draw (yaxis_label "Count") ;;
  _ <~~ draw (y_range 0
               (option_map (fun m => m + 10)
                  (column_max (map mr_registered (rows perf_report))))) ;;
  draw (legend_location "top_left").

(** The columns the attendance plot draws, in order. *)
Definition attendance_series (questions : bool) : list (MeetingRecord -> Z) :=
  [mr_registered; mr_attended] ++ (if questions then [mr_questions] else []).

(** The line and the markers of the series number [k], a column read
    with [f]. *)
Definition series_calls (perf_report : DataFrame MeetingRecord)
    (legend : list string) (k : nat) (f : MeetingRecord -> Z)
  : list attendance_call :=
  [attendance_line (map mr_date_str (rows perf_report))
     (map f (rows perf_report)) (nth k Set1_6 EmptyString) (nth k legend EmptyString);
   attendance_scatter (map mr_date_str (rows perf_report))
     (map f (rows perf_report)) (nth k Set1_6 EmptyString)].


(** ** The pairs a line holds *)

(** The fields in twos: a last field without a partner is left out. *)
Fixpoint chunk2 (l : list string) : list (string * string) :=
  match l with
  | q :: a :: rest => (q, a) :: chunk2 rest
  | _ => []
  end.

(** The question/answer fields of a respondent, as the report lists them. *)
Definition flatten_pairs (pairs : list (string * string)) : list string :=
  flat_map (fun p => [fst p; snd p]) pairs.

(** The pairs the loops of the poll readers visit in [line]: the fields at
    [4 + q] and [4 + q + 1] for [q] in [range(0, len(line) - 5, 2)]. *)
Definition pairs_at (p : Z) (line : list string) : list (string * string) :=
  map (fun q => (nth (Z.to_nat (p + q)) line EmptyString,
                 nth (Z.to_nat (p + q + 1)) line EmptyString))
      (py_range 0 (len line - p - 1) 2).

Definition line_pairs (line : list string) : list (string * string) :=
  pairs_at 4 line.

(** A respondent's row as the report writes it: the four fixed fields, the
    question/answer pairs, and an empty last field. *)
Record Respondent : Type := mkRespondent {
  r_row_no : string;
  r_name : string;
  r_email : string;
  r_datetime : string;
  r_pairs : list (string * string)
}.

Definition report_row (r : Respondent) : list string :=
  [r_row_no r; r_name r; r_email r; r_datetime r]
  ++ flatten_pairs (r_pairs r) ++ [EmptyString].

(** The record [read_poll_report] builds for a pair of a line that starts
    with the four fixed fields. *)
Definition qdata_of (meeting_id : string) (row_no : Z) (name email dt : string)
    (p : string * string) : QData :=
  mkQData meeting_id row_no name email dt (fst p) (snd p).

(** The rows of the table for respondent [r], whose row number reads as [n]
    and whose date reads as [t]: one per pair. *)
Definition responses_of (meeting_id : string) (r : Respondent) (nt : Z * Z)
  : list PollResponse :=
  map (fun p => mkPollResponse meeting_id (fst nt) (r_name r) (r_email r)
                  (snd nt) (fst p) (snd p))
      (r_pairs r).

(** The updates of the dictionaries for a list of pairs, in order. *)
Definition count_pairs (st : counts) (pairs : list (string * string))
  : result counts :=
  for_each (fun st p => count_update st (fst p) (snd p)) pairs st.

(** ** What the sorting routine is relied on for *)

(** The rows come back reordered, none lost and none added. *)
Definition sort_rows_permutes `{Runtime} : Prop :=
  forall (R : Type) (leb : R -> R -> bool) (l : list R),
    Permutation l (sort_rows R leb l).

Definition total_preorder {R : Type} (leb : R -> R -> bool) : Prop :=
  (forall x y, leb x y = true \/ leb y x = true)
  /\ (forall x y z, leb x y = true -> leb y z = true -> leb x z = true).

(** The rows come back in ascending order of the key. *)
Definition sort_rows_sorts `{Runtime} : Prop :=
  forall (R : Type) (leb : R -> R -> bool) (l : list R),
    total_preorder leb ->
    StronglySorted (fun x y => leb x y = true) (sort_rows R leb l).

Definition performance_leb (r1 r2 : MeetingRecord) : bool :=
  mr_datetime r1 <=? mr_datetime r2.

Definition response_leb (r1 r2 : PollResponse) : bool :=
  question_answer_leb (pr_question r1) (pr_answer r1) (pr_question r2) (pr_answer r2).

Definition count_leb (r1 r2 : PollAnswerCount) : bool :=
  question_answer_leb (pc_question r1) (pc_answer r1) (pc_question r2) (pc_answer r2).

(** The shape the three folder readers share: read the files the pattern
    matches in the listed order, append their tables to an empty table,
    sort the rows. *)
Definition read_folder `{Runtime} {R : Type} (suffix : string) (cols : list string)
    (read : list string -> result (DataFrame R)) (leb : R -> R -> bool)
    (dir : folder) : result (DataFrame R) :=
  data <- for_each
            (fun data f => df <- read (snd f) ;; Ok (df_append data df))
            (glob suffix dir) (mkDataFrame cols []) ;;
  Ok (mkDataFrame (columns data) (sort_rows _ leb (rows data))).

(** Rows that tie on the sort key are the same row. *)
Definition ties_are_equal {R : Type} (leb : R -> R -> bool) (l : list R) : Prop :=
  forall x y, In x l -> In y l -> leb x y = true -> leb y x = true -> x = y.

(** Two tables that differ at most in the order of rows that tie on the
    sort key. *)
Definition same_up_to_ties {R : Type} (leb : R -> R -> bool)
    (t t' : DataFrame R) : Prop :=
  columns t' = columns t
  /\ Permutation (rows t) (rows t')
  /\ StronglySorted (fun x y => leb x y = true) (rows t)
  /\ StronglySorted (fun x y => leb x y = true) (rows t')
  /\ (ties_are_equal leb (rows t) -> t' = t).

(** ** The value of a float *)

(** The rational a finite float stands for; the other floats are told
    apart by [is_finite]. *)
Definition SF2Q (f : float) : Q :=
  match f with
  | S754_finite s m e =>
      ((if s then -1 else 1) * inject_Z (Zpos m) * 2 ^ e)%Q
  | _ => 0%Q
  end.

Definition is_finite (f : float) : bool :=
  match f with
  | S754_finite _ _ _ | S754_zero _ => true
  | _ => false
  end.

(** The floats [0.5] and [1.0]. *)
Definition float_half : float := S754_finite false 4503599627370496 (-53).
Definition float_one : float := S754_finite false 4503599627370496 (-52).

(** ** Rounding to binary64 *)

(** [m * 2 ^ e]. *)
Definition Qval (m e : Z) : Q := (inject_Z m * 2 ^ e)%Q.

(** How far [shr_fexp] shifts a mantissa [m] at exponent [e]. *)
Definition shift_of (m e : Z) : Z :=
  Z.max 0 (fexp prec emax (Zdigits2 m + e) - e).

(** The exponent after the first shift of [binary_round_aux]. *)
Definition round_exp (mx ex : Z) : Z := ex + shift_of mx ex.

(** The mantissa after the first shift. *)
Definition round_mant (mx ex : Z) : Z := mx / 2 ^ shift_of mx ex.

(** ** Sums over the rows of a question *)

Definition Zsum (l : list Z) : Z := fold_right Z.add 0 l.

Definition Qsum (l : list Q) : Q := fold_right Qplus 0%Q l.

(** The sum of the values of a dictionary of counts. *)
Definition dict_sum (d : dict Z) : Z := Zsum (map snd d).

(** The rows of a table for one meeting and one question. *)
Definition question_rows (t : list PollAnswerCount) (meeting_id question : string)
  : list PollAnswerCount :=
  filter (fun r => String.eqb (pc_meeting_id r) meeting_id
                   && String.eqb (pc_question r) question) t.

(** For every row of the table, over the rows of its meeting and question:
    the counts add up to the responses of the row, the proportions are
    finite floats, and their values add up to 1 within [1e-9]. *)
Definition proportions_add_up (t : list PollAnswerCount) : Prop :=
  forall r, In r t ->
    let rs := question_rows t (pc_meeting_id r) (pc_question r) in
    Zsum (map pc_count rs) = pc_responses r
    /\ Forall (fun r' => is_finite (pc_prop r') = true) rs
    /\ (Qabs (Qsum (map (fun r' => SF2Q (pc_prop r')) rs) - 1)
        < 1 # 1000000000)%Q.

(** What the loop of [read_poll_report_counts] keeps true of its two
    dictionaries: no question and no answer is listed twice, every count is
    at least one, and a question has a denominator exactly when it has
    answers, their counts adding up to it. *)
Definition counts_ok (st : counts) : Prop :=
  NoDup (dict_keys (poll st))
  /\ forall q,
       match dict_get (poll st) q with
       | Some answers =>
           NoDup (dict_keys answers)
           /\ Forall (fun kv => 1 <= snd kv) answers
           /\ dict_get (N st) q = Some (dict_sum answers)
       | None => dict_get (N st) q = None
       end.

(** The row of the table for the entry [kv] of the answers of question
    [q], whose denominator is [n]. *)
Definition row_for (meeting_id q : string) (n : Z) (kv : string * Z)
    (r : PollAnswerCount) : Prop :=
  pc_meeting_id r = meeting_id
  /\ pc_question r = q
  /\ pc_answer r = fst kv
  /\ pc_count r = snd kv
  /\ pc_responses r = n
  /\ exists x y,
       float_of_int (snd kv) = Ok x /\ float_of_int n = Ok y
       /\ truediv x y = Ok (pc_prop r).

(** The rows of the table for the entry [qa] of [poll]. *)
Definition block_for (meeting_id : string) (qa : string * dict Z)
    (block : list PollAnswerCount) : Prop :=
  Forall2 (row_for meeting_id (fst qa) (dict_sum (snd qa))) (snd qa) block.

(** No two poll reports of the folder are of the same meeting. *)
Definition distinct_meetings (dir : folder) : Prop :=
  forall mids,
    map_result (fun f => poll_meeting_id (snd f)) (glob "Poll Report.csv" dir)
    = Ok mids ->
    NoDup mids.

(** ** The cells of a performance report *)

(** What the cells that [read_performance_report] reads stand for. *)
Record PerformanceFields : Type := mkPerformanceFields {
  pf_topic : string;
  pf_id : string;
  pf_datetime : Z;
  pf_duration : Z;
  pf_registered : Z;
  pf_attended : Z;
  pf_percent : float;
  pf_questions : Z
}.

(** The rows [prdata] have the cells of a performance report, and the cells
    read as [f]. *)
Definition reads_as `{Runtime} (prdata : list (list string))
    (f : PerformanceFields) : Prop :=
  cell prdata 3 0 = Ok (pf_topic f)
  /\ cell prdata 3 1 = Ok (pf_id f)
  /\ (c <- cell prdata 3 2 ;; pd_to_datetime performance_datetime_format c)
     = Ok (pf_datetime f)
  /\ (c <- cell prdata 3 3 ;; int c) = Ok (pf_duration f)
  /\ (c <- cell prdata 6 0 ;; int c) = Ok (pf_registered f)
  /\ (c <- cell prdata 6 1 ;; int c) = Ok (pf_attended f)
  /\ (c <- cell prdata 6 2 ;; float_of_str c) = Ok (pf_percent f)
  /\ (c <- cell prdata 8 0 ;; int c) = Ok (pf_questions f).

(** The row [read_performance_report] makes of the cells. *)
Definition meeting_record_of `{Runtime} (date_format : string)
    (f : PerformanceFields) : MeetingRecord :=
  mkMeetingRecord (pf_topic f) (remove_char "-" (pf_id f)) (pf_datetime f)
    (pf_duration f) (pf_registered f) (pf_attended f)
    (SFdiv prec emax (pf_percent f) float_hundred)
    (pf_questions f) (strftime date_format (pf_datetime f)).

(** ** Questions per row *)

(** The questions of the pairs read from a line. *)
Definition questions_of (line : list string) : list string :=
  map fst (line_pairs line).

(** The number of pairs with question [q] read from the lines. *)
Definition occurrences (q : string) (csvdata : list (list string)) : Z :=
  Z.of_nat (count_occ string_dec (flat_map questions_of csvdata) q).

(** The number of lines with a pair whose question is [q]. *)
Definition rows_containing (q : string) (csvdata : list (list string)) : Z :=
  len (filter (fun line => mem_string q (questions_of line)) csvdata).

(** The entry of a counter that has been incremented [k] times. *)
Definition tally (k : Z) : option Z := if k =? 0 then None else Some k.

(** A counter that held [o] and has been incremented [k] more times. *)
Definition bump (o : option Z) (k : Z) : option Z :=
  if k =? 0 then o
  else Some (match o with Some n => n | None => 0 end + k).

(** ** The header of a poll report *)

(** Whether the character [c] occurs in [s]. *)
Fixpoint has_char (c : ascii) (s : string) : bool :=
  match s with
  | EmptyString => false
  | String a s' => Ascii.eqb a c || has_char c s'
  end.

(** The text is empty or begins with a comma. *)
Definition ends_field (rest : string) : bool :=
  match rest with
  | EmptyString => true
  | String a _ => Ascii.eqb a ","
  end.

(** ** The table of counts, from the pairs *)

(** The answers given to question [q], in the order of the pairs. *)
Definition answers_of (q : string) (pairs : list (string * string)) : list string :=
  map snd (filter (fun p => String.eqb (fst p) q) pairs).

(** The questions in the order in which they are first met, each with its
    answers in the order in which they are first met. *)
Definition count_keys (pairs : list (string * string)) : list (string * string) :=
  flat_map (fun q => map (pair q) (unique (answers_of q pairs)))
           (unique (map fst pairs)).

(** The number of pairs with question [q] and answer [a]. *)
Definition pair_count (q a : string) (pairs : list (string * string)) : Z :=
  len (filter (fun p => String.eqb (fst p) q && String.eqb (snd p) a) pairs).

(** The number of pairs with question [q]. *)
Definition question_count (q : string) (pairs : list (string * string)) : Z :=
  len (filter (fun p => String.eqb (fst p) q) pairs).

(** The answers that [poll] holds for question [q]. *)
Definition answers_in (st : counts) (q : string) : dict Z :=
  match dict_get (poll st) q with
  | Some answers => answers
  | None => []
  end.

(** What the dictionary [poll] holds after the pairs [pairs]. *)
Definition poll_tallies (st : counts) (pairs : list (string * string)) : Prop :=
  dict_keys (poll st) = unique (map fst pairs)
  /\ forall q,
       dict_keys (answers_in st q) = unique (answers_of q pairs)
       /\ forall a, dict_get (answers_in st q) a = tally (pair_count q a pairs).

(** ** Reading the files of a folder *)

(** The first of the files that cannot be read raises [e]: the files
    before it are read. *)
Definition first_failure {R : Type} (read : list string -> result (DataFrame R))
    (files : list (string * list string)) (e : exn) : Prop :=
  exists before f after,
    files = before ++ f :: after
    /\ Forall (fun g => exists df, read (snd g) = Ok df) before
    /\ read (snd f) = Raise e.

(** The name matches [*suffix]. *)
Definition matches (suffix name : string) : bool :=
  negb (is_hidden name) && ends_with suffix name.

(** ** The answers of a plot *)

(** Every answer seen for the question is in the given order of the
    answers, if one is given. *)
Definition covers (answer_sort : option (list string)) (a : list string) : bool :=
  match answer_sort with
  | Some s => forallb (fun var => mem_string var s) a
  | None => true
  end.

(** The answers a plot is asked to show: the given order, or the answers
    seen for the question. *)
Definition plotted_answers (answer_sort : option (list string)) (a : list string)
  : list string :=
  match answer_sort with
  | Some s => s
  | None => a
  end.

(** ** The series of the line plot *)

(** The body of the loop of [plot_question_bokeh]: the line and the
    markers of one answer. *)
Definition line_series (data : Wide) (colors a : list string)
  : Z * string -> rendering unit :=
  fun '(ix, ans) =>
    y <~ lift (wide_column (w_answers data) (w_values data) ans) ;;
    c <~ lift (getitem colors ix) ;;
    l <~ lift (getitem a ix) ;;
    _ <~ call (fig_line (w_date_str data) y c l) ;;
    y <~ lift (wide_column (w_answers data) (w_values data) ans) ;;
    c <~ lift (getitem colors ix) ;;
    call (fig_scatter (w_date_str data) y c).

(** The column of the answer [ans], empty when there is none. *)
Definition column_of (data : Wide) (ans : string) : list float :=
  match wide_column (w_answers data) (w_values data) ans with
  | Ok y => y
  | Raise _ => []
  end.

(** The two calls that draw the answer [ans] as the series number [k]. *)
Definition series_of (data : Wide) (colors : list string)
    (kans : nat * string) : list render_call :=
  [fig_line (w_date_str data) (column_of data (snd kans))
     (nth (fst kans) colors EmptyString) (snd kans);
   fig_scatter (w_date_str data) (column_of data (snd kans))
     (nth (fst kans) colors EmptyString)].

(** ** The columns of a plot *)

(** The values a call draws are as many as the places on the axis. *)
Definition rectangular (c : render_call) : Prop :=
  match c with
  | fig_line x y _ _ => List.length y = List.length x
  | fig_scatter x y _ => List.length y = List.length x
  | fig_vbar_stack _ x source _ =>
      Forall (fun column => List.length column = List.length x) source
  | _ => True
  end.

(** ** A runtime for the examples *)

Module Example.

(** The line without its line break. *)
Fixpoint chomp (s : string) : string :=
  match s with
  | EmptyString => EmptyString
  | String a s' =>
      if Ascii.eqb a (ascii_of_nat 10) || Ascii.eqb a (ascii_of_nat 13)
      then match chomp s' with
           | EmptyString => EmptyString
           | t => String a t
           end
      else String a (chomp s')
  end.

Definition quote : ascii := ascii_of_nat 34.

Definition snoc (s : string) (a : ascii) : string :=
  (s ++ String a EmptyString)%string.

(** The fields of one line: a comma ends a field unless it stands
    between quotes; a quote opens a quoted field at the start of a field
    and closes it again, and two quotes in a quoted field stand for one. *)
Fixpoint fields (quoted : bool) (cur : string) (s : string) : list string :=
  match s with
  | EmptyString => [cur]
  | String a s' =>
      if Ascii.eqb a quote then
        if quoted then
          match s' with
          | String b s'' =>
              if Ascii.eqb b quote then fields true (snoc cur quote) s''
              else fields false cur s'
          | EmptyString => [cur]
          end
        else
          match cur with
          | EmptyString => fields true cur s'
          | _ => fields false (snoc cur a) s'
          end
      else if Ascii.eqb a "," && negb quoted then cur :: fields false EmptyString s'
      else fields quoted (snoc cur a) s'
  end.

(** [csv.reader] on lines whose fields hold no line break; an empty line
    is a row with no field. *)
Definition line_csv_reader (lines : list string) : list (list string) :=
  map (fun l => match chomp l with
                | EmptyString => []
                | t => fields false EmptyString t
                end) lines.

Definition digit (a : ascii) : option Z :=
  let n := Z.of_nat (nat_of_ascii a) in
  if (48 <=? n) && (n <=? 57) then Some (n - 48) else None.

Fixpoint digits (acc : Z) (s : string) : option Z :=
  match s with
  | EmptyString => Some acc
  | String a s' =>
      match digit a with
      | Some d => digits (10 * acc + d) s'
      | None => None
      end
  end.

(** [int] on runs of decimal digits. *)
Definition decimal (s : string) : option Z :=
  match s with
  | EmptyString => None
  | _ => digits 0 s
  end.

(** [float] on runs of decimal digits. *)
Definition decimal_float (s : string) : option float :=
  match decimal s with
  | Some n => Some (binary_normalize prec emax n 0 false)
  | None => None
  end.

(** The dates of the examples, as nanoseconds since the epoch. *)
Definition calendar : list (string * Z) :=
  [("Mar 01, 2021 10:00 AM", 1614592800000000000);
   ("Mar 08, 2021 10:00 AM", 1615197600000000000);
   ("Mar 01, 2021 10:05:00", 1614593100000000000);
   ("Mar 01, 2021 10:06:30", 1614593190000000000)].

Definition calendar_date_str : list (Z * string) :=
  [(1614592800000000000, "01.03."); (1615197600000000000, "08.03.")].

Definition lookup_date (fmt s : string) : option Z := dict_get calendar s.

Definition lookup_date_str (fmt : string) (t : Z) : string :=
  match find (fun p => fst p =? t) calendar_date_str with
  | Some p => snd p
  | None => EmptyString
  end.

Fixpoint insert {R : Type} (leb : R -> R -> bool) (x : R) (l : list R) : list R :=
  match l with
  | [] => [x]
  | y :: l' => if leb x y then x :: l else y :: insert leb x l'
  end.

(** A stable sort, as pandas uses for a key of several columns. *)
Definition stable_sort (R : Type) (leb : R -> R -> bool) (l : list R) : list R :=
  fold_right (insert leb) [] l.

Definition float_mean (l : list float) : float :=
  SFdiv prec emax
    (fold_left (SFadd prec emax) l float_zero)
    (binary_normalize prec emax (len l) 0 false).

(** [str] of a list of strings that hold no quote and no backslash. *)
Definition bracketed (l : list string) : string :=
  ("[" ++ String.concat ", " (map (fun s => "'" ++ s ++ "'") l) ++ "]")%string.

Definition palette : list string :=
  ["#66c2a5"; "#fc8d62"; "#8da0cb"; "#e78ac3"; "#a6d854"; "#ffd92f";
   "#e5c494"; "#b3b3b3"].

#[export] Instance runtime : Runtime := {
  csv_reader := line_csv_reader;
  py_int := decimal;
  py_float := decimal_float;
  to_datetime := lookup_date;
  strftime := lookup_date_str;
  str_of_list := bracketed;
  sort_rows := stable_sort;
  mean := float_mean;
  Set2_8 := palette
}.

Definition quoted (s : string) : string :=
  (String quote EmptyString ++ s ++ String quote EmptyString)%string.

(** A poll report: two respondents answer Q1, the first also Q2. *)
Definition poll_file : list string :=
  ["Poll Report"; "Report Generated:,Mar 02 2021"; "Topic,Meeting ID,Start";
   "Weekly,123-456-789,Mar 01 2021"; ""; "#,User Name,Email,Date";
   ("1,Ann,ann@example.org," ++ quoted "Mar 01, 2021 10:05:00" ++ ",Q1,Yes,Q2,X,")%string;
   ("2,Bob,bob@example.org," ++ quoted "Mar 01, 2021 10:06:30" ++ ",Q1,No,")%string].

(** A performance report: 40 registered, 30 attended, 75 per cent. *)
Definition performance_file : list string :=
  ["Attendee Report"; "Report Generated:,Mar 02 2021"; "Topic,Webinar ID,Start,Minutes";
   ("Weekly,123-456-789," ++ quoted "Mar 01, 2021 10:00 AM" ++ ",60")%string; "";
   "Registered,Attended,Rate"; "40,30,75"; "Questions"; "3"].

(** The respondents of [poll_file], and how their row numbers and dates
    read. *)
Definition respondents : list Respondent :=
  [mkRespondent "1" "Ann" "ann@example.org" "Mar 01, 2021 10:05:00"
     [("Q1", "Yes"); ("Q2", "X")];
   mkRespondent "2" "Bob" "bob@example.org" "Mar 01, 2021 10:06:30"
     [("Q1", "No")]].

Definition respondents_parsed : list (Z * Z) :=
  [(1, 1614593100000000000); (2, 1614593190000000000)].

(** Two reports of one answer each, to the same question, from two
    meetings. *)
Definition poll_file_of (id : string) : list string :=
  ["Poll Report"; "Report Generated:,Mar 02 2021"; "Topic,Meeting ID,Start";
   ("Weekly," ++ id ++ ",Mar 01 2021")%string; ""; "#,User Name,Email,Date";
   ("1,Ann,ann@example.org," ++ quoted "Mar 01, 2021 10:05:00" ++ ",Q1,Yes,")%string].

Definition folder_ab : folder :=
  [("a Poll Report.csv", poll_file_of "111-111"); ("b Poll Report.csv", poll_file_of "222-222")].

Definition folder_ba : folder :=
  [("b Poll Report.csv", poll_file_of "222-222"); ("a Poll Report.csv", poll_file_of "111-111")].

(** Two reports of the same meeting. *)
Definition folder_same_meeting : folder :=
  [("a Poll Report.csv", poll_file_of "111-111"); ("b Poll Report.csv", poll_file_of "111-111")].

(** A performance report with more attendees than registrations: 20
    registered, 30 attended, 150 per cent. *)
Definition performance_file_over : list string :=
  ["Attendee Report"; "Report Generated:,Mar 02 2021"; "Topic,Webinar ID,Start,Minutes";
   ("Weekly,123-456-789," ++ quoted "Mar 01, 2021 10:00 AM" ++ ",60")%string; "";
   "Registered,Attended,Rate"; "20,30,150"; "Questions"; "3"].

(** What the cells of [performance_file] read as. *)
Definition performance_fields : PerformanceFields :=
  mkPerformanceFields "Weekly" "123-456-789" 1614592800000000000 60 40 30
    (S754_finite false 5277655813324800 (-46)) 3.

(** A row that holds the same question twice. *)
Definition repeated_question_rows : list (list string) :=
  [["1"; "Ann"; "ann@example.org"; "Mar 01, 2021 10:05:00";
    "Q1"; "Yes"; "Q1"; "No"; ""]].

(** The answer counts of one meeting: A and B, once each. *)
Definition plot_table : DataFrame PollPlotRow :=
  mkDataFrame ["meeting_id"; "question"; "answer"; "count"; "prop"; "responses"; "date_str"]
    [mkPollPlotRow "01.03." "Q" "A" float_half 1;
     mkPollPlotRow "01.03." "Q" "B" float_half 1].

(** A folder without reports. *)
Definition folder_notes : folder :=
  [("notes.txt", ["to do"]); (".hidden Poll Report.csv", poll_file)].


(** The report [poll_file] with the respondents made unknown: the same
    pairs, no row number, no name, no email and no date. *)
Definition poll_file_anonymous : list string :=
  ["Poll Report"; "Report Generated:,Mar 02 2021"; "Topic,Meeting ID,Start";
   "Weekly,123-456-789,Mar 01 2021"; ""; "#,User Name,Email,Date";
   "-,-,-,-,Q1,Yes,Q2,X,";
   "-,-,-,-,Q1,No,"].

End Example.

(** ** Tactics *)

(** From [bind m k = Ok b], the value of [m]. *)
Ltac bind_inv H :=
  repeat match type of H with
         | bind ?m _ = Ok _ =>
             let a := fresh "a" in
             let E := fresh "E" in
             destruct m as [a|] eqn:E; cbn [bind] in H; [|discriminate H]
         end.

(** * Properties *)

(** ** The result monad *)

Lemma bind_Ok_inv {A B : Type} (m : result A) (k : A -> result B) (b : B) :
  bind m k = Ok b -> exists a, m = Ok a /\ k a = Ok b.
Proof.
  destruct m as [a|e]; simpl; intros E; [eauto | discriminate].
Qed.

Lemma for_each_app {A S : Type} (body : S -> A -> result S) (l1 l2 : list A) (s : S) :
  for_each body (l1 ++ l2) s = (s' <- for_each body l1 s ;; for_each body l2 s').
Proof.
  revert s; induction l1 as [|x l1 IH]; intros s; simpl; [reflexivity|].
  destruct (body s x) as [s'|e]; simpl; [apply IH | reflexivity].
Qed.

Lemma for_each_ext_in {A S : Type} (f g : S -> A -> result S) (l : list A) (s : S) :
  (forall x s, In x l -> f s x = g s x) -> for_each f l s = for_each g l s.
Proof.
  revert s; induction l as [|x l IH]; intros s Hfg; simpl; [reflexivity|].
  rewrite (Hfg x s (or_introl eq_refl)).
  destruct (g s x) as [s'|e]; simpl; [|reflexivity].
  apply IH. intros y t Hy. apply Hfg. right; exact Hy.
Qed.

Lemma for_each_map {A B S : Type} (f : A -> B) (body : S -> B -> result S)
    (l : list A) (s : S) :
  for_each body (map f l) s = for_each (fun s x => body s (f x)) l s.
Proof.
  revert s; induction l as [|x l IH]; intros s; simpl; [reflexivity|].
  destruct (body s (f x)); simpl; [apply IH | reflexivity].
Qed.

(** ** Indexing and ranges *)

Lemma getitem_nth {A : Type} (l : list A) (i : Z) (d : A) :
  0 <= i < len l -> getitem l i = Ok (nth (Z.to_nat i) l d).
Proof.
  intros [H0 Hn]. unfold getitem, len in *.
  destruct (Z.ltb_spec i 0) as [Hneg|_]; [lia|].
  destruct (Z.leb_spec 0 i) as [_|Hneg]; [|lia].
  destruct (Z.ltb_spec i (Z.of_nat (List.length l))) as [_|Hge]; [|lia].
  simpl. rewrite (nth_error_nth' l d) by lia. reflexivity.
Qed.

Lemma py_range_0_2_count (n : Z) :
  py_range 0 n 2 = map (fun k => 2 * Z.of_nat k) (seq 0 (Z.to_nat ((n + 1) / 2))).
Proof.
  unfold py_range. replace (n - 0 + 2 - 1) with (n + 1) by lia. reflexivity.
Qed.

Lemma py_range_0_2_nonpos (n : Z) : n <= 0 -> py_range 0 n 2 = [].
Proof.
  intros Hn. rewrite py_range_0_2_count.
  replace (Z.to_nat ((n + 1) / 2)) with 0%nat; [reflexivity|].
  assert ((n + 1) / 2 < 1) by (apply Z.div_lt_upper_bound; lia). lia.
Qed.

Lemma py_range_0_2_step (n : Z) :
  0 < n -> py_range 0 n 2 = 0 :: map (fun q => q + 2) (py_range 0 (n - 2) 2).
Proof.
  intros Hn. rewrite !py_range_0_2_count.
  replace ((n + 1) / 2) with ((n - 2 + 1) / 2 + 1)
    by (rewrite <- Z.div_add by lia; f_equal; lia).
  assert (0 <= (n - 2 + 1) / 2) by (apply Z.div_pos; lia).
  rewrite Z2Nat.inj_add by lia. change (Z.to_nat 1) with 1%nat.
  rewrite Nat.add_1_r. rewrite <- cons_seq. cbn [map].
  f_equal. rewrite <- seq_shift, !map_map. apply map_ext. intros k. lia.
Qed.

Lemma py_range_0_2_bounds (n q : Z) : In q (py_range 0 n 2) -> 0 <= q < n.
Proof.
  rewrite py_range_0_2_count. intros Hq. apply in_map_iff in Hq.
  destruct Hq as [k [<- Hk]]. apply in_seq in Hk.
  assert (Hd : 2 * ((n + 1) / 2) <= n + 1) by (apply Z.mul_div_le; lia).
  lia.
Qed.

(** ** The pairs the loops visit *)

Lemma list_pair_ind {A : Type} (P : list A -> Prop) :
  P [] -> (forall x, P [x]) -> (forall x y l, P l -> P (x :: y :: l)) ->
  forall l, P l.
Proof.
  intros H0 H1 H2.
  assert (H : forall l, P l /\ forall x, P (x :: l)).
  { induction l as [|y l [IH1 IH2]]; split; auto. }
  intros l. apply H.
Qed.

Lemma pairs_at_app (pre l : list string) :
  pairs_at (len pre) (pre ++ l) = chunk2 l.
Proof.
  revert pre. induction l as [|x|x y l IH] using list_pair_ind; intros pre.
  - unfold pairs_at. rewrite app_nil_r, py_range_0_2_nonpos by lia. reflexivity.
  - unfold pairs_at. rewrite py_range_0_2_nonpos; [reflexivity|].
    unfold len. rewrite length_app. simpl. lia.
  - unfold pairs_at.
    assert (Hlen : len (pre ++ x :: y :: l) - len pre - 1 = len l + 1).
    { unfold len. rewrite length_app. simpl. lia. }
    rewrite Hlen, py_range_0_2_step by (unfold len; lia).
    cbn [map chunk2]. f_equal.
    + replace (Z.to_nat (len pre + 0)) with (List.length pre + 0)%nat
        by (unfold len; lia).
      replace (Z.to_nat (len pre + 0 + 1)) with (List.length pre + 1)%nat
        by (unfold len; lia).
      rewrite !app_nth2_plus. reflexivity.
    + rewrite <- (IH (pre ++ [x; y])). unfold pairs_at.
      rewrite map_map.
      replace (len ((pre ++ [x; y]) ++ l) - len (pre ++ [x; y]) - 1)
        with (len l + 1 - 2)
        by (unfold len; rewrite !length_app; simpl; lia).
      rewrite <- app_assoc. simpl app.
      apply map_ext_in. intros q Hq. apply py_range_0_2_bounds in Hq.
      assert (E : len (pre ++ [x; y]) = len pre + 2)
        by (unfold len; rewrite length_app; simpl; lia).
      rewrite E. do 2 f_equal; f_equal; lia.
Qed.

Lemma line_pairs_chunk2 (line : list string) :
  line_pairs line = chunk2 (skipn 4 line).
Proof.
  unfold line_pairs.
  destruct (Nat.le_gt_cases 4 (List.length line)) as [Hge|Hlt].
  - rewrite <- (firstn_skipn 4 line) at 1.
    replace 4 with (len (firstn 4 line))
      by (unfold len; rewrite length_firstn; lia).
    apply pairs_at_app.
  - rewrite skipn_all2 by lia. unfold pairs_at.
    rewrite py_range_0_2_nonpos by (unfold len; lia). reflexivity.
Qed.

Lemma line_pairs_fixed (no name email dt : string) (rest : list string) :
  line_pairs (no :: name :: email :: dt :: rest) = chunk2 rest.
Proof. rewrite line_pairs_chunk2. reflexivity. Qed.

Lemma chunk2_flatten_pairs (pairs : list (string * string)) (tail : list string) :
  (List.length tail <= 1)%nat -> chunk2 (flatten_pairs pairs ++ tail) = pairs.
Proof.
  intros Htail. induction pairs as [|[q a] pairs IH]; simpl.
  - destruct tail as [|t [|t' tail]]; simpl in *; [reflexivity..|lia].
  - rewrite IH. reflexivity.
Qed.

Lemma getitem_in_range (line : list string) (q : Z) :
  In q (py_range 0 (len line - 5) 2) ->
  getitem line (4 + q) = Ok (nth (Z.to_nat (4 + q)) line EmptyString)
  /\ getitem line (4 + q + 1) = Ok (nth (Z.to_nat (4 + q + 1)) line EmptyString).
Proof.
  intros Hq. apply py_range_0_2_bounds in Hq.
  split; apply getitem_nth; lia.
Qed.

Lemma count_line_pairs (st : counts) (line : list string) :
  count_line st line = count_pairs st (line_pairs line).
Proof.
  unfold count_line, count_pairs, line_pairs, pairs_at.
  replace (len line - 4 - 1) with (len line - 5) by lia.
  rewrite for_each_map. apply for_each_ext_in. intros q s Hq.
  unfold count_pair. destruct (getitem_in_range line q Hq) as [-> ->].
  reflexivity.
Qed.

Lemma for_each_append_records {A B : Type} (f : A -> B) (l : list A) (acc : list B) :
  for_each (fun acc x => Ok (acc ++ [f x])) l acc = Ok (acc ++ map f l).
Proof.
  revert acc; induction l as [|x l IH]; intros acc; simpl.
  - rewrite app_nil_r. reflexivity.
  - rewrite IH, <- app_assoc. reflexivity.
Qed.

Lemma poll_line_pairs `{Runtime} (meeting_id : string) (poll : list QData)
    (no name email dt : string) (rest : list string) (n : Z) :
  py_int no = Some n ->
  poll_line meeting_id poll (no :: name :: email :: dt :: rest)
  = Ok (poll ++ map (qdata_of meeting_id n name email dt) (chunk2 rest)).
Proof.
  intros Hno. rewrite <- line_pairs_fixed with (no := no) (name := name)
    (email := email) (dt := dt).
  set (line := no :: name :: email :: dt :: rest).
  unfold poll_line, line_pairs, pairs_at.
  replace (len line - 4 - 1) with (len line - 5) by lia.
  rewrite map_map.
  rewrite <- for_each_append_records.
  apply for_each_ext_in. intros q s Hq.
  unfold poll_pair. destruct (getitem_in_range line q Hq) as [-> ->].
  assert (Hlen : 4 <= len line) by (unfold len, line; simpl List.length; lia).
  rewrite (getitem_nth line 0 EmptyString), (getitem_nth line 1 EmptyString),
    (getitem_nth line 2 EmptyString), (getitem_nth line 3 EmptyString) by lia.
  change (nth (Z.to_nat 0) line EmptyString) with no.
  change (nth (Z.to_nat 1) line EmptyString) with name.
  change (nth (Z.to_nat 2) line EmptyString) with email.
  change (nth (Z.to_nat 3) line EmptyString) with dt.
  unfold int. cbn [bind]. rewrite Hno. reflexivity.
Qed.

Lemma poll_line_no_pairs `{Runtime} (meeting_id : string) (poll : list QData)
    (line : list string) :
  len line <= 5 -> poll_line meeting_id poll line = Ok poll.
Proof.
  intros Hlen. unfold poll_line. rewrite py_range_0_2_nonpos by lia. reflexivity.
Qed.

(** ** Dictionaries *)

Lemma dict_get_set_same {V : Type} (d : dict V) (k : string) (v : V) :
  dict_get (dict_set d k v) k = Some v.
Proof.
  induction d as [|[k' v'] d IH]; simpl.
  - rewrite String.eqb_refl. reflexivity.
  - destruct (String.eqb k' k) eqn:E; simpl; rewrite E; [reflexivity | exact IH].
Qed.

Lemma dict_get_set_other {V : Type} (d : dict V) (k k' : string) (v : V) :
  k' <> k -> dict_get (dict_set d k v) k' = dict_get d k'.
Proof.
  intros Hne. induction d as [|[k0 v0] d IH]; simpl.
  - destruct (String.eqb_spec k k'); [congruence | reflexivity].
  - destruct (String.eqb_spec k0 k) as [->|Hk0]; simpl.
    + destruct (String.eqb_spec k k'); [congruence | reflexivity].
    + destruct (String.eqb_spec k0 k'); [reflexivity | exact IH].
Qed.

Lemma dict_mem_true {V : Type} (d : dict V) (k : string) :
  dict_mem d k = true -> exists v, dict_get d k = Some v.
Proof.
  unfold dict_mem. destruct (dict_get d k) as [v|]; [eauto | discriminate].
Qed.

Lemma dict_mem_false {V : Type} (d : dict V) (k : string) :
  dict_mem d k = false -> dict_get d k = None.
Proof.
  unfold dict_mem. destruct (dict_get d k) as [v|]; [discriminate | reflexivity].
Qed.

(** The dictionary updates never raise. *)
Lemma count_update_Ok (st : counts) (q a : string) :
  exists st', count_update st q a = Ok st'.
Proof.
  unfold count_update, dict_getitem.
  set (poll1 := if negb (dict_mem (poll st) q) then _ else _).
  assert (Hq : exists answers, dict_get poll1 q = Some answers).
  { subst poll1. destruct (dict_mem (poll st) q) eqn:E; simpl.
    - apply dict_mem_true; exact E.
    - rewrite dict_get_set_same. eauto. }
  destruct Hq as [answers ->]. cbn [of_option bind].
  destruct (dict_mem answers a) eqn:Ea; cbn [negb bind].
  - destruct (dict_mem_true _ _ Ea) as [n ->]. cbn [of_option bind].
    destruct (dict_mem (N st) q) eqn:En; cbn [negb bind]; [|eauto].
    destruct (dict_mem_true _ _ En) as [m ->]. cbn [of_option bind]. eauto.
  - destruct (dict_mem (N st) q) eqn:En; cbn [negb bind]; [|eauto].
    destruct (dict_mem_true _ _ En) as [m ->]. cbn [of_option bind]. eauto.
Qed.

Lemma count_pairs_Ok (pairs : list (string * string)) (st : counts) :
  exists st', count_pairs st pairs = Ok st'.
Proof.
  unfold count_pairs. revert st.
  induction pairs as [|[q a] pairs IH]; intros st; simpl; [eauto|].
  destruct (count_update_Ok st q a) as [st1 ->]. simpl. apply IH.
Qed.

Lemma count_line_Ok (st : counts) (line : list string) :
  exists st', count_line st line = Ok st'.
Proof. rewrite count_line_pairs. apply count_pairs_Ok. Qed.

Lemma count_line_no_pairs (st : counts) (line : list string) :
  len line <= 5 -> count_line st line = Ok st.
Proof.
  intros Hlen. unfold count_line. rewrite py_range_0_2_nonpos by lia. reflexivity.
Qed.

(** ** The runtime of the examples *)

Lemma insert_Permutation {R : Type} (leb : R -> R -> bool) (x : R) (l : list R) :
  Permutation (x :: l) (Example.insert leb x l).
Proof.
  induction l as [|y l IH]; simpl; [reflexivity|].
  destruct (leb x y); [reflexivity|].
  rewrite perm_swap. constructor. exact IH.
Qed.

Lemma example_sort_permutes : @sort_rows_permutes Example.runtime.
Proof.
  intros R leb l. simpl. unfold Example.stable_sort.
  induction l as [|x l IH]; simpl; [constructor|].
  rewrite <- insert_Permutation. constructor. exact IH.
Qed.

Lemma insert_sorted {R : Type} (leb : R -> R -> bool) (x : R) (l : list R) :
  total_preorder leb ->
  StronglySorted (fun x y => leb x y = true) l ->
  StronglySorted (fun x y => leb x y = true) (Example.insert leb x l).
Proof.
  intros [Htotal Htrans]. induction 1 as [|y l Hl IH Hy]; simpl.
  - constructor; constructor.
  - destruct (leb x y) eqn:E.
    + constructor; [constructor; assumption|].
      constructor; [exact E|].
      eapply Forall_impl; [|exact Hy]. intros z Hz. eapply Htrans; eassumption.
    + constructor; [exact IH|].
      assert (Hyx : leb y x = true) by (destruct (Htotal x y); congruence).
      apply (Permutation_Forall (insert_Permutation leb x l)).
      constructor; assumption.
Qed.

Lemma example_sort_sorts : @sort_rows_sorts Example.runtime.
Proof.
  intros R leb l Hleb. simpl. unfold Example.stable_sort.
  induction l as [|x l IH]; simpl; [constructor|].
  apply insert_sorted; assumption.
Qed.

(** ** Rows of the poll report *)

Lemma map_result_map {A B C : Type} (f : B -> result C) (g : A -> B) (l : list A) :
  map_result f (map g l) = map_result (fun x => f (g x)) l.
Proof.
  induction l as [|x l IH]; simpl; [reflexivity|]. rewrite IH. reflexivity.
Qed.

Lemma map_result_app {A B : Type} (f : A -> result B) (l1 l2 : list A)
    (r1 r2 : list B) :
  map_result f l1 = Ok r1 -> map_result f l2 = Ok r2 ->
  map_result f (l1 ++ l2) = Ok (r1 ++ r2).
Proof.
  revert r1; induction l1 as [|x l1 IH]; intros r1; simpl.
  - intros [= <-] E. exact E.
  - destruct (f x) as [y|e]; simpl; [|discriminate].
    destruct (map_result f l1) as [ys|e]; simpl; [|discriminate].
    intros [= <-] E. rewrite (IH ys eq_refl E). reflexivity.
Qed.

Lemma map_result_Ok_map {A B : Type} (f : A -> result B) (g : A -> B) (l : list A) :
  (forall x, In x l -> f x = Ok (g x)) -> map_result f l = Ok (map g l).
Proof.
  induction l as [|x l IH]; intros Hf; simpl; [reflexivity|].
  rewrite (Hf x (or_introl eq_refl)). simpl.
  rewrite IH by (intros y Hy; apply Hf; right; exact Hy). reflexivity.
Qed.

Lemma report_row_pairs `{Runtime} (meeting_id : string) (poll : list QData)
    (r : Respondent) (n : Z) :
  py_int (r_row_no r) = Some n ->
  poll_line meeting_id poll (report_row r)
  = Ok (poll ++ map (qdata_of meeting_id n (r_name r) (r_email r) (r_datetime r))
                  (r_pairs r)).
Proof.
  intros Hn. unfold report_row. cbn [app].
  rewrite (poll_line_pairs _ _ _ _ _ _ _ n Hn).
  rewrite chunk2_flatten_pairs by (simpl; lia). reflexivity.
Qed.

Lemma map_result_app_inv {A B : Type} (f : A -> result B) (l1 l2 : list A)
    (rs : list B) :
  map_result f (l1 ++ l2) = Ok rs ->
  exists r1 r2,
    map_result f l1 = Ok r1 /\ map_result f l2 = Ok r2 /\ rs = r1 ++ r2.
Proof.
  revert rs; induction l1 as [|x l1 IH]; intros rs; simpl.
  - intros E. exists [], rs. auto.
  - destruct (f x) as [y|e]; simpl; [|discriminate].
    destruct (map_result f (l1 ++ l2)) as [ys|e] eqn:E; simpl; [|discriminate].
    intros [= <-]. destruct (IH ys eq_refl) as (r1 & r2 & E1 & E2 & ->).
    rewrite E1. simpl. exists (y :: r1), r2. auto.
Qed.

Lemma map_result_length {A B : Type} (f : A -> result B) (l : list A)
    (rs : list B) :
  map_result f l = Ok rs -> List.length rs = List.length l.
Proof.
  revert rs; induction l as [|x l IH]; intros rs; simpl.
  - intros [= <-]. reflexivity.
  - destruct (f x) as [y|e]; simpl; [|discriminate].
    destruct (map_result f l) as [ys|e]; simpl; [|discriminate].
    intros [= <-]. simpl. rewrite (IH ys eq_refl). reflexivity.
Qed.

(** A line that starts with the four fixed fields is read without an
    exception only if it has no pair or its row number is an integer. *)
Lemma poll_line_fixed_inv `{Runtime} (meeting_id : string) (poll poll' : list QData)
    (no name email dt : string) (rest : list string) :
  poll_line meeting_id poll (no :: name :: email :: dt :: rest) = Ok poll' ->
  (chunk2 rest = [] /\ poll' = poll)
  \/ exists n, py_int no = Some n
               /\ poll' = poll ++ map (qdata_of meeting_id n name email dt)
                                      (chunk2 rest).
Proof.
  intros E. destruct (py_int no) as [n|] eqn:Hno.
  - right. exists n. rewrite (poll_line_pairs _ _ _ _ _ _ _ n Hno) in E.
    injection E as <-. auto.
  - left. destruct rest as [|x [|y rest]].
    + rewrite poll_line_no_pairs in E by (unfold len; simpl; lia).
      injection E as <-. auto.
    + rewrite poll_line_no_pairs in E by (unfold len; simpl; lia).
      injection E as <-. auto.
    + exfalso. unfold poll_line in E.
      set (line := no :: name :: email :: dt :: x :: y :: rest) in E.
      assert (Hlen : 6 <= len line) by (unfold len, line; simpl List.length; lia).
      rewrite py_range_0_2_step in E by lia.
      cbn [for_each] in E. apply bind_Ok_inv in E. destruct E as (p & E & _).
      unfold poll_pair in E.
      rewrite (getitem_nth line (4 + 0) EmptyString),
        (getitem_nth line (4 + 0 + 1) EmptyString),
        (getitem_nth line 0 EmptyString) in E by lia.
      cbn [bind] in E. unfold int in E.
      change (nth (Z.to_nat 0) line EmptyString) with no in E.
      rewrite Hno in E. discriminate E.
Qed.

(** Whatever the line, the reader only appends, one record per pair. *)
Lemma poll_line_extends `{Runtime} (meeting_id : string) (poll poll' : list QData)
    (line : list string) :
  poll_line meeting_id poll line = Ok poll' ->
  exists ext,
    poll' = poll ++ ext /\ List.length ext = List.length (line_pairs line).
Proof.
  intros E. destruct line as [|no [|name [|email [|dt rest]]]].
  1-4: rewrite poll_line_no_pairs in E by (unfold len; simpl; lia);
       injection E as <-; exists []; rewrite app_nil_r; split; [reflexivity|];
       rewrite line_pairs_chunk2; reflexivity.
  rewrite line_pairs_fixed. apply poll_line_fixed_inv in E.
  destruct E as [[E1 ->]|[n [_ ->]]].
  - exists []. rewrite app_nil_r, E1. auto.
  - eexists. split; [reflexivity|]. apply length_map.
Qed.

Lemma poll_lines_extend `{Runtime} (meeting_id : string) (lines : list (list string))
    (poll poll' : list QData) :
  for_each (poll_line meeting_id) lines poll = Ok poll' ->
  exists ext,
    poll' = poll ++ ext
    /\ List.length ext = List.length (flat_map line_pairs lines).
Proof.
  revert poll; induction lines as [|line lines IH]; intros poll.
  - simpl. intros [= <-]. exists []. rewrite app_nil_r. auto.
  - cbn [for_each flat_map]. intros E. apply bind_Ok_inv in E.
    destruct E as (p1 & E1 & E2).
    apply poll_line_extends in E1. destruct E1 as (e1 & -> & L1).
    apply IH in E2. destruct E2 as (e2 & -> & L2).
    exists (e1 ++ e2). rewrite <- app_assoc, !length_app, L1, L2. auto.
Qed.

(** C4: a row of the report that holds the four fixed fields, N
    question/answer pairs and an empty last field gives exactly the N
    records of its pairs, each with the row's number, name, email and date.
    First, a report all of whose rows are such rows and whose numbers and
    dates can be read is read into the table of these records, row after
    row.  Second, in any report that is read without an exception, such a
    row stands for the N records of its pairs, found after the records of
    the rows before it and before those of the rows after it. *)
Theorem read_poll_report_rows `{Runtime} (file : list string) (meeting_id : string) :
  poll_meeting_id file = Ok meeting_id ->
  (forall (rs : list Respondent) (parsed : list (Z * Z)),
      csv_reader (skipn 6 file) = map report_row rs ->
      Forall2 (fun r nt =>
                 r_pairs r = []
                 \/ (py_int (r_row_no r) = Some (fst nt)
                     /\ to_datetime poll_datetime_format (r_datetime r)
                        = Some (snd nt)))
              rs parsed ->
      read_poll_report file
      = Ok (mkDataFrame poll_columns
              (flat_map (fun rnt => responses_of meeting_id (fst rnt) (snd rnt))
                        (combine rs parsed))))
  /\ (forall (before after : list (list string)) (r : Respondent)
             (df : DataFrame PollResponse),
         csv_reader (skipn 6 file) = before ++ report_row r :: after ->
         read_poll_report file = Ok df ->
         exists (R1 R2 : list PollResponse) (nt : Z * Z),
           rows df = R1 ++ responses_of meeting_id r nt ++ R2
           /\ List.length (responses_of meeting_id r nt) = List.length (r_pairs r)
           /\ (r_pairs r <> [] ->
               py_int (r_row_no r) = Some (fst nt)
               /\ to_datetime poll_datetime_format (r_datetime r) = Some (snd nt))
           /\ List.length R1 = List.length (flat_map line_pairs before)
           /\ List.length R2 = List.length (flat_map line_pairs after)).
Proof.
  intros Hid. split.
  - intros rs parsed Hcsv HF. unfold read_poll_report. rewrite Hid. cbn [bind].
    rewrite Hcsv. clear Hcsv.
    assert (E : forall poll,
               for_each (poll_line meeting_id) (map report_row rs) poll
               = Ok (poll ++ flat_map
                       (fun rnt => map (qdata_of meeting_id (fst (snd rnt))
                                          (r_name (fst rnt)) (r_email (fst rnt))
                                          (r_datetime (fst rnt)))
                                       (r_pairs (fst rnt)))
                       (combine rs parsed))).
    { induction HF as [|r nt rs parsed Hr HF IH]; intros poll.
      - simpl. rewrite app_nil_r. reflexivity.
      - cbn [map for_each combine flat_map fst snd].
        destruct Hr as [Hnil|[Hn _]].
        + rewrite poll_line_no_pairs
            by (unfold report_row, len; rewrite Hnil; simpl; lia).
          cbn [bind]. rewrite IH, Hnil. reflexivity.
        + rewrite (report_row_pairs _ _ _ _ Hn). cbn [bind].
          rewrite IH, <- app_assoc. reflexivity. }
    rewrite E. cbn [bind app].
    assert (E' : map_result poll_response_of
                   (flat_map
                      (fun rnt => map (qdata_of meeting_id (fst (snd rnt))
                                         (r_name (fst rnt)) (r_email (fst rnt))
                                         (r_datetime (fst rnt)))
                                      (r_pairs (fst rnt)))
                      (combine rs parsed))
                 = Ok (flat_map
                         (fun rnt => responses_of meeting_id (fst rnt) (snd rnt))
                         (combine rs parsed))).
    { clear E. induction HF as [|r nt rs parsed Hr HF IH]; [reflexivity|].
      cbn [combine flat_map]. apply map_result_app; [|exact IH].
      cbn [fst snd]. unfold responses_of.
      destruct Hr as [Hnil|[_ Ht]]; [rewrite Hnil; reflexivity|].
      rewrite map_result_map.
      apply map_result_Ok_map. intros p _.
      unfold poll_response_of, qdata_of, pd_to_datetime. cbn [qd_datetime].
      rewrite Ht. reflexivity. }
    rewrite E'. reflexivity.
  - intros before after r df Hcsv E. unfold read_poll_report in E.
    rewrite Hid in E. cbn [bind] in E. rewrite Hcsv in E.
    apply bind_Ok_inv in E. destruct E as (poll & Epoll & E).
    apply bind_Ok_inv in E. destruct E as (rs & Ers & E).
    injection E as <-. cbn [rows].
    rewrite for_each_app in Epoll. apply bind_Ok_inv in Epoll.
    destruct Epoll as (p1 & Ep1 & Epoll).
    cbn [for_each] in Epoll. apply bind_Ok_inv in Epoll.
    destruct Epoll as (p2 & Ep2 & Ep3).
    apply poll_lines_extend in Ep1. destruct Ep1 as (e1 & Ee1 & L1).
    cbn [app] in Ee1. subst p1.
    apply poll_lines_extend in Ep3. destruct Ep3 as (e3 & -> & L3).
    unfold report_row in Ep2. cbn [app] in Ep2.
    apply poll_line_fixed_inv in Ep2.
    rewrite chunk2_flatten_pairs in Ep2 by (simpl; lia).
    destruct Ep2 as [[Hnil ->]|(n & Hn & ->)].
    + apply map_result_app_inv in Ers. destruct Ers as (r1 & r3 & E1 & E3 & ->).
      exists r1, r3, (0, 0). unfold responses_of. rewrite Hnil. cbn [map app].
      split; [reflexivity|]. split; [reflexivity|].
      split; [intros Hne; exfalso; apply Hne; reflexivity|]. split.
      * rewrite (map_result_length _ _ _ E1). exact L1.
      * rewrite (map_result_length _ _ _ E3). exact L3.
    + apply map_result_app_inv in Ers. destruct Ers as (r12 & r3 & E12 & E3 & ->).
      apply map_result_app_inv in E12. destruct E12 as (r1 & r2 & E1 & E2 & ->).
      rewrite <- app_assoc.
      assert (Hr2 : exists nt,
                 r2 = responses_of meeting_id r nt
                 /\ (r_pairs r <> [] ->
                     py_int (r_row_no r) = Some (fst nt)
                     /\ to_datetime poll_datetime_format (r_datetime r)
                        = Some (snd nt))).
      { destruct (to_datetime poll_datetime_format (r_datetime r)) as [t|] eqn:Ht.
        - exists (n, t). split; [|intros _; split; [exact Hn | reflexivity]].
          rewrite map_result_map in E2.
          rewrite (map_result_Ok_map _
                     (fun p => mkPollResponse meeting_id n (r_name r) (r_email r)
                                 t (fst p) (snd p))) in E2.
          + injection E2 as <-. reflexivity.
          + intros p _. unfold poll_response_of, qdata_of, pd_to_datetime.
            cbn [qd_datetime]. rewrite Ht. reflexivity.
        - exists (n, 0). unfold responses_of.
          destruct (r_pairs r) as [|p ps].
          + simpl in E2. injection E2 as <-.
            split; [reflexivity | intros Hne; exfalso; apply Hne; reflexivity].
          + exfalso. cbn [map map_result] in E2.
            unfold poll_response_of at 1, qdata_of at 1, pd_to_datetime in E2.
            cbn [qd_datetime] in E2. rewrite Ht in E2. discriminate E2. }
      destruct Hr2 as (nt & -> & Hnt).
      exists r1, r3, nt. split; [reflexivity|]. split; [apply length_map|].
      split; [exact Hnt|]. split.
      * rewrite (map_result_length _ _ _ E1). exact L1.
      * rewrite (map_result_length _ _ _ E3). exact L3.
Qed.

Lemma read_poll_report_rows_witness :
  @read_poll_report Example.runtime Example.poll_file
  = Ok (mkDataFrame poll_columns
          (flat_map (fun rnt => responses_of "123456789" (fst rnt) (snd rnt))
                    (combine Example.respondents Example.respondents_parsed))).
Proof.
  apply (@read_poll_report_rows Example.runtime Example.poll_file "123456789"
           eq_refl).
  - reflexivity.
  - repeat constructor; right; split; reflexivity.
Defined.

Lemma for_each_skip {A S : Type} (body : S -> A -> result S) (x : A)
    (before after : list A) (s : S) :
  (forall s, body s x = Ok s) ->
  for_each body (before ++ x :: after) s = for_each body (before ++ after) s.
Proof.
  intros Hx. rewrite !for_each_app.
  destruct (for_each body before s) as [s'|e]; cbn [bind for_each]; [|reflexivity].
  rewrite Hx. reflexivity.
Qed.

(** C5: a line with at most five fields, such as the four fixed fields and
    an empty last field, has no pair: both readers pass it over without a
    record, without a change to the counts, and without an exception, so
    that the loops over the lines go as if the line were not there. *)
Theorem line_without_pairs `{Runtime} (meeting_id : string) (poll : list QData)
    (st : counts) (line : list string) :
  len line <= 5 ->
  poll_line meeting_id poll line = Ok poll
  /\ count_line st line = Ok st
  /\ (forall before after,
        for_each (poll_line meeting_id) (before ++ line :: after) poll
        = for_each (poll_line meeting_id) (before ++ after) poll)
  /\ (forall before after,
        for_each count_line (before ++ line :: after) st
        = for_each count_line (before ++ after) st).
Proof.
  intros Hlen. split; [|split; [|split]].
  - apply poll_line_no_pairs; exact Hlen.
  - apply count_line_no_pairs; exact Hlen.
  - intros before after. apply for_each_skip.
    intros acc. apply poll_line_no_pairs; exact Hlen.
  - intros before after. apply for_each_skip.
    intros acc. apply count_line_no_pairs; exact Hlen.
Qed.

Lemma line_without_pairs_witness :
  @poll_line Example.runtime "123456789" []
     ["3"; "Cy"; "cy@example.org"; "Mar 01, 2021 10:07:00"; ""] = Ok []
  /\ count_line (mkCounts [] [])
       ["3"; "Cy"; "cy@example.org"; "Mar 01, 2021 10:07:00"; ""]
     = Ok (mkCounts [] []).
Proof.
  destruct (@line_without_pairs Example.runtime "123456789" [] (mkCounts [] [])
              ["3"; "Cy"; "cy@example.org"; "Mar 01, 2021 10:07:00"; ""])
    as [Hpoll [Hcount _]].
  - vm_compute. discriminate.
  - split; assumption.
Defined.

(** C10: a line of the four fixed fields and N complete pairs, with no empty
    last field, is read as N pairs by both readers: [read_poll_report] adds
    the N records, [read_poll_report_counts] makes the N updates, and no
    index is out of range. *)
Theorem line_without_trailing_field `{Runtime} (meeting_id : string)
    (poll : list QData) (st : counts) (no name email dt : string)
    (pairs : list (string * string)) (n : Z) :
  py_int no = Some n ->
  poll_line meeting_id poll ([no; name; email; dt] ++ flatten_pairs pairs)
  = Ok (poll ++ map (qdata_of meeting_id n name email dt) pairs)
  /\ count_line st ([no; name; email; dt] ++ flatten_pairs pairs)
     = count_pairs st pairs
  /\ exists st', count_pairs st pairs = Ok st'.
Proof.
  intros Hn. cbn [app]. split; [|split].
  - rewrite (poll_line_pairs _ _ _ _ _ _ _ n Hn).
    rewrite <- (app_nil_r (flatten_pairs pairs)).
    rewrite chunk2_flatten_pairs by (simpl; lia). reflexivity.
  - rewrite count_line_pairs, line_pairs_fixed.
    rewrite <- (app_nil_r (flatten_pairs pairs)).
    rewrite chunk2_flatten_pairs by (simpl; lia). reflexivity.
  - apply count_pairs_Ok.
Qed.

Lemma line_without_trailing_field_witness :
  @poll_line Example.runtime "123456789" []
     (["2"; "Bob"; "bob@example.org"; "Mar 01, 2021 10:06:30"]
      ++ flatten_pairs [("Q1", "No")])
  = Ok ([] ++ map (qdata_of "123456789" 2 "Bob" "bob@example.org"
                     "Mar 01, 2021 10:06:30") [("Q1", "No")])
  /\ count_line (mkCounts [] [])
       (["2"; "Bob"; "bob@example.org"; "Mar 01, 2021 10:06:30"]
        ++ flatten_pairs [("Q1", "No")])
     = count_pairs (mkCounts [] []) [("Q1", "No")]
  /\ exists st', count_pairs (mkCounts [] []) [("Q1", "No")] = Ok st'.
Proof.
  apply (@line_without_trailing_field Example.runtime). reflexivity.
Defined.

(** ** The denominators *)

Lemma for_each_count_lines (csvdata : list (list string)) (st : counts) :
  for_each count_line csvdata st = count_pairs st (flat_map line_pairs csvdata).
Proof.
  unfold count_pairs. revert st.
  induction csvdata as [|line csvdata IH]; intros st; simpl; [reflexivity|].
  rewrite for_each_app, count_line_pairs. unfold count_pairs.
  destruct (for_each _ (line_pairs line) st); simpl; [apply IH | reflexivity].
Qed.

Lemma count_update_N (st st' : counts) (q a : string) :
  count_update st q a = Ok st' ->
  forall q', dict_get (N st') q'
             = if String.eqb q' q then bump (dict_get (N st) q) 1
               else dict_get (N st) q'.
Proof.
  unfold count_update. intros E. bind_inv E.
  injection E as <-. cbn [N]. intros q'.
  destruct (dict_mem (N st) q) eqn:Em; cbn [negb] in *.
  - destruct (dict_mem_true _ _ Em) as [n Hn].
    unfold dict_getitem in E2. rewrite Hn in E2. cbn in E2.
    injection E2 as <-.
    destruct (String.eqb_spec q' q) as [->|Hne].
    + rewrite dict_get_set_same, Hn. reflexivity.
    + apply dict_get_set_other; exact Hne.
  - injection E2 as <-. rewrite (dict_mem_false _ _ Em).
    destruct (String.eqb_spec q' q) as [->|Hne].
    + rewrite dict_get_set_same. reflexivity.
    + rewrite dict_get_set_other, ?(dict_mem_false _ _ Em) by exact Hne.
      reflexivity.
Qed.

Lemma count_pairs_N (pairs : list (string * string)) (st st' : counts) :
  count_pairs st pairs = Ok st' ->
  forall q, dict_get (N st') q
            = bump (dict_get (N st) q)
                (Z.of_nat (count_occ string_dec (map fst pairs) q)).
Proof.
  unfold count_pairs. revert st.
  induction pairs as [|[q0 a0] pairs IH]; intros st; simpl.
  - intros [= <-] q. reflexivity.
  - destruct (count_update st q0 a0) as [st1|e] eqn:E1; simpl; [|discriminate].
    intros E q. rewrite (IH st1 E q), (count_update_N _ _ _ _ E1 q).
    destruct (string_dec q0 q) as [->|Hne].
    + rewrite String.eqb_refl. unfold bump.
      rewrite Nat2Z.inj_succ.
      destruct (Z.eqb_spec (Z.of_nat (count_occ string_dec (map fst pairs) q)) 0)
        as [->|Hk]; simpl.
      * reflexivity.
      * destruct (Z.eqb_spec (Z.succ (Z.of_nat (count_occ string_dec (map fst pairs) q))) 0);
          [lia|].
        f_equal. destruct (dict_get (N st) q); lia.
    + destruct (String.eqb_spec q q0); [congruence | reflexivity].
Qed.

Lemma map_fst_line_pairs (csvdata : list (list string)) :
  map fst (flat_map line_pairs csvdata) = flat_map questions_of csvdata.
Proof.
  induction csvdata as [|line csvdata IH]; simpl; [reflexivity|].
  rewrite map_app, IH. reflexivity.
Qed.

Lemma count_occ_NoDup_mem (l : list string) (q : string) :
  NoDup l -> count_occ string_dec l q = if mem_string q l then 1%nat else 0%nat.
Proof.
  induction 1 as [|x l Hx Hl IH]; simpl; [reflexivity|].
  destruct (string_dec x q) as [->|Hne].
  - rewrite String.eqb_refl. simpl.
    apply count_occ_not_In with (eq_dec := string_dec) in Hx. rewrite Hx. reflexivity.
  - destruct (String.eqb_spec q x); [congruence|]. simpl. exact IH.
Qed.

Lemma occurrences_rows_containing (q : string) (csvdata : list (list string)) :
  Forall (fun line => NoDup (questions_of line)) csvdata ->
  occurrences q csvdata = rows_containing q csvdata.
Proof.
  unfold occurrences, rows_containing, len.
  induction 1 as [|line csvdata Hline _ IH]; simpl; [reflexivity|].
  rewrite count_occ_app, Nat2Z.inj_add, IH, (count_occ_NoDup_mem _ _ Hline).
  destruct (mem_string q (questions_of line)); simpl List.length; lia.
Qed.

(** C2, as the code has it: the loop never raises, and it leaves each
    question with a denominator equal to the number of pairs read with that
    question, one increment per pair; this is the number of rows that hold
    the question when no row holds a question twice. *)
Theorem responses_count_pairs (csvdata : list (list string)) :
  exists st,
    for_each count_line csvdata (mkCounts [] []) = Ok st
    /\ forall q,
         dict_get (N st) q = tally (occurrences q csvdata)
         /\ (Forall (fun line => NoDup (questions_of line)) csvdata ->
             dict_get (N st) q = tally (rows_containing q csvdata)).
Proof.
  rewrite for_each_count_lines.
  destruct (count_pairs_Ok (flat_map line_pairs csvdata) (mkCounts [] []))
    as [st E].
  exists st. split; [exact E|]. intros q.
  assert (HN : dict_get (N st) q = tally (occurrences q csvdata)).
  { rewrite (count_pairs_N _ _ _ E q), map_fst_line_pairs. reflexivity. }
  split; [exact HN|].
  intros Hrows. rewrite HN, (occurrences_rows_containing q csvdata Hrows).
  reflexivity.
Qed.

(** C2 as stated fails: a row that holds Q1 twice counts twice towards the
    denominator of Q1. *)
Lemma responses_count_rows_counterexample :
  exists st,
    for_each count_line Example.repeated_question_rows (mkCounts [] []) = Ok st
    /\ dict_get (N st) "Q1" = Some 2
    /\ rows_containing "Q1" Example.repeated_question_rows = 1
    /\ dict_get (N st) "Q1"
       <> Some (rows_containing "Q1" Example.repeated_question_rows).
Proof.
  eexists. split; [reflexivity|]. split; [reflexivity|].
  split; [reflexivity | discriminate].
Qed.

(** ** The example of two respondents *)

(** C3: a report of two respondents who both answer Q1, with Yes and with
    No, the first of them also answering Q2 with X, gives the rows Q1/Yes
    and Q1/No with count 1, 2 responses and proportion 0.5, and the row Q2/X
    with count 1, 1 response and proportion 1.0. *)
Theorem two_respondents_counts `{Runtime} (file : list string) (meeting_id : string)
    (no1 name1 email1 dt1 no2 name2 email2 dt2 : string) :
  poll_meeting_id file = Ok meeting_id ->
  csv_reader (skipn 6 file)
  = [[no1; name1; email1; dt1; "Q1"; "Yes"; "Q2"; "X"; ""];
     [no2; name2; email2; dt2; "Q1"; "No"; ""]] ->
  read_poll_report_counts file
  = Ok (mkDataFrame count_columns
          [mkPollAnswerCount meeting_id "Q1" "Yes" 1 float_half 2;
           mkPollAnswerCount meeting_id "Q1" "No" 1 float_half 2;
           mkPollAnswerCount meeting_id "Q2" "X" 1 float_one 1])
  /\ (SF2Q float_half == 1 # 2)%Q /\ (SF2Q float_one == 1)%Q.
Proof.
  intros Hid Hcsv. split; [|split; reflexivity].
  unfold read_poll_report_counts. rewrite Hid. cbn [bind]. rewrite Hcsv.
  reflexivity.
Qed.

Lemma two_respondents_counts_witness :
  @read_poll_report_counts Example.runtime Example.poll_file
  = Ok (mkDataFrame count_columns
          [mkPollAnswerCount "123456789" "Q1" "Yes" 1 float_half 2;
           mkPollAnswerCount "123456789" "Q1" "No" 1 float_half 2;
           mkPollAnswerCount "123456789" "Q2" "X" 1 float_one 1])
  /\ (SF2Q float_half == 1 # 2)%Q /\ (SF2Q float_one == 1)%Q.
Proof.
  apply (@two_respondents_counts Example.runtime Example.poll_file "123456789"
           "1" "Ann" "ann@example.org" "Mar 01, 2021 10:05:00"
           "2" "Bob" "bob@example.org" "Mar 01, 2021 10:06:30");
    reflexivity.
Defined.

(** ** Folders *)

Lemma read_all_performance_reports_folder `{Runtime} (dir : folder) :
  read_all_performance_reports dir
  = read_folder "Performance Report.csv" performance_columns
      (fun file => read_performance_report file default_date_format)
      performance_leb dir.
Proof. reflexivity. Qed.

Lemma read_all_poll_reports_folder `{Runtime} (dir : folder) :
  read_all_poll_reports dir
  = read_folder "Poll Report.csv" poll_columns read_poll_report response_leb dir.
Proof. reflexivity. Qed.

Lemma read_all_poll_report_counts_folder `{Runtime} (dir : folder) :
  read_all_poll_report_counts dir
  = read_folder "Poll Report.csv" count_columns read_poll_report_counts
      count_leb dir.
Proof. reflexivity. Qed.

Lemma read_folder_empty `{Runtime} {R : Type} (suffix : string) (cols : list string)
    (read : list string -> result (DataFrame R)) (leb : R -> R -> bool)
    (dir : folder) :
  sort_rows_permutes ->
  glob suffix dir = [] ->
  read_folder suffix cols read leb dir = Ok (mkDataFrame cols []).
Proof.
  intros Hperm Hglob. unfold read_folder. rewrite Hglob. cbn [for_each bind rows columns].
  rewrite (Permutation_nil (Hperm R leb [])). reflexivity.
Qed.

(** C7: in a folder where no name matches the pattern of a reader, the
    reader returns, without an exception, the table with no row and with
    its own column labels. *)
Theorem empty_folder_tables `{Runtime} (dir : folder) :
  sort_rows_permutes ->
  (glob "Performance Report.csv" dir = [] ->
   read_all_performance_reports dir
   = Ok (mkDataFrame
           ["topic"; "meeting_id"; "datetime"; "duration"; "registered";
            "attended"; "attendance_rate"; "questions"; "date_str"] []))
  /\ (glob "Poll Report.csv" dir = [] ->
      read_all_poll_reports dir
      = Ok (mkDataFrame
              ["meeting_id"; "row_no"; "name"; "email"; "datetime"; "question";
               "answer"] [])
      /\ read_all_poll_report_counts dir
         = Ok (mkDataFrame
                 ["meeting_id"; "question"; "answer"; "count"; "prop";
                  "responses"] [])).
Proof.
  intros Hperm. split; [|split].
  - intros Hglob. rewrite read_all_performance_reports_folder.
    apply read_folder_empty; assumption.
  - rewrite read_all_poll_reports_folder. apply read_folder_empty; assumption.
  - rewrite read_all_poll_report_counts_folder. apply read_folder_empty; assumption.
Qed.

Lemma empty_folder_tables_witness :
  @read_all_performance_reports Example.runtime Example.folder_notes
  = Ok (mkDataFrame performance_columns [])
  /\ @read_all_poll_reports Example.runtime Example.folder_notes
     = Ok (mkDataFrame poll_columns [])
  /\ @read_all_poll_report_counts Example.runtime Example.folder_notes
     = Ok (mkDataFrame count_columns []).
Proof.
  destruct (@empty_folder_tables Example.runtime Example.folder_notes
              example_sort_permutes) as [Hperf Hpoll].
  split; [apply Hperf; reflexivity | apply Hpoll; reflexivity].
Defined.

(** ** Order of the listing *)

Lemma glob_Permutation (suffix : string) (dir dir' : folder) :
  Permutation dir dir' -> Permutation (glob suffix dir) (glob suffix dir').
Proof.
  unfold glob. induction 1 as [|f l l' _ IH|f g l|l l' l'' _ IH1 _ IH2]; simpl.
  - constructor.
  - destruct (negb _ && _); [constructor|]; exact IH.
  - destruct (negb (is_hidden (fst f)) && _), (negb (is_hidden (fst g)) && _);
      try reflexivity. constructor.
  - etransitivity; eassumption.
Qed.

Lemma for_each_append_tables {A R : Type} (read : A -> result (DataFrame R))
    (fs : list A) (d0 : DataFrame R) :
  for_each (fun data f => df <- read f ;; Ok (df_append data df)) fs d0
  = (dfs <- map_result read fs ;; Ok (fold_left df_append dfs d0)).
Proof.
  revert d0. induction fs as [|f fs IH]; intros d0; simpl; [reflexivity|].
  destruct (read f) as [df|e]; simpl; [|reflexivity].
  rewrite IH. destruct (map_result read fs); reflexivity.
Qed.

Lemma map_result_Permutation {A B : Type} (f : A -> result B) (l l' : list A)
    (r : list B) :
  Permutation l l' -> map_result f l = Ok r ->
  exists r', map_result f l' = Ok r' /\ Permutation r r'.
Proof.
  intros HP. revert r.
  induction HP as [|x l l' _ IH|x y l|l l' l'' _ IH1 _ IH2]; intros r; simpl.
  - intros [= <-]. eauto.
  - destruct (f x) as [b|e]; simpl; [|discriminate].
    destruct (map_result f l) as [bs|e]; simpl; [|discriminate].
    intros [= <-]. destruct (IH bs eq_refl) as [bs' [-> HP']]. simpl. eauto.
  - destruct (f y) as [b|e]; simpl; [|discriminate].
    destruct (f x) as [c|e]; simpl; [|discriminate].
    destruct (map_result f l) as [bs|e]; simpl; [|discriminate].
    intros [= <-]. eexists; split; [reflexivity | constructor].
  - intros E. destruct (IH1 r E) as [r1 [E1 HP1]].
    destruct (IH2 r1 E1) as [r2 [E2 HP2]].
    exists r2; split; [exact E2 | etransitivity; eassumption].
Qed.

Lemma map_result_Forall {A B : Type} (f : A -> result B) (l : list A) (r : list B) :
  map_result f l = Ok r -> Forall (fun b => exists a, In a l /\ f a = Ok b) r.
Proof.
  revert r. induction l as [|x l IH]; intros r; simpl.
  - intros [= <-]. constructor.
  - destruct (f x) as [b|e] eqn:E; simpl; [|discriminate].
    destruct (map_result f l) as [bs|e]; simpl; [|discriminate].
    intros [= <-]. constructor; [eauto|].
    eapply Forall_impl; [|apply IH; reflexivity].
    intros c [a [Ha Hc]]; eauto.
Qed.

Lemma rows_fold_append {R : Type} (dfs : list (DataFrame R)) (d0 : DataFrame R) :
  rows (fold_left df_append dfs d0) = rows d0 ++ List.concat (map rows dfs).
Proof.
  revert d0. induction dfs as [|df dfs IH]; intros d0; simpl.
  - rewrite app_nil_r. reflexivity.
  - rewrite IH. simpl. rewrite app_assoc. reflexivity.
Qed.

Lemma filter_known_labels (cols : list string) :
  filter (fun c => negb (mem_string c cols)) cols = [].
Proof.
  assert (H : forall l, incl l cols ->
                        filter (fun c => negb (mem_string c cols)) l = []).
  { induction l as [|c l IH]; intros Hl; simpl; [reflexivity|].
    assert (E : mem_string c cols = true).
    { unfold mem_string. apply existsb_exists. exists c. split.
      - apply Hl. left; reflexivity.
      - apply String.eqb_refl. }
    rewrite E. simpl. apply IH. intros x Hx. apply Hl. right; exact Hx. }
  apply H, incl_refl.
Qed.

Lemma columns_fold_append {R : Type} (dfs : list (DataFrame R)) (d0 : DataFrame R) :
  Forall (fun df => columns df = columns d0) dfs ->
  columns (fold_left df_append dfs d0) = columns d0.
Proof.
  revert d0. induction dfs as [|df dfs IH]; intros d0 HF; simpl; [reflexivity|].
  inversion HF as [|? ? Hdf HF']; subst.
  assert (E : columns (df_append d0 df) = columns d0).
  { unfold df_append. simpl. rewrite Hdf, filter_known_labels. apply app_nil_r. }
  rewrite IH; [exact E|]. rewrite E. exact HF'.
Qed.

Lemma Permutation_concat_map {A B : Type} (f : A -> list B) (l l' : list A) :
  Permutation l l' -> Permutation (List.concat (map f l)) (List.concat (map f l')).
Proof.
  induction 1 as [|x l l' _ IH|x y l|l l' l'' _ IH1 _ IH2]; simpl.
  - constructor.
  - apply Permutation_app_head. exact IH.
  - rewrite !app_assoc. apply Permutation_app_tail, Permutation_app_comm.
  - etransitivity; eassumption.
Qed.

(** Two sorted lists with the same elements are equal when ties are between
    equal elements only. *)
Lemma sorted_Permutation_eq {R : Type} (leb : R -> R -> bool) (l l' : list R) :
  StronglySorted (fun x y => leb x y = true) l ->
  StronglySorted (fun x y => leb x y = true) l' ->
  Permutation l l' ->
  ties_are_equal leb l ->
  l' = l.
Proof.
  intros Hl. revert l'. induction Hl as [|x l Hl IH Hx]; intros l' Hl' HP Hties.
  - apply Permutation_nil in HP. exact HP.
  - destruct Hl' as [|y l' Hl' Hy].
    + symmetry in HP. apply Permutation_nil in HP. discriminate.
    + assert (Hyx : y = x).
      { assert (Hin : In y (x :: l))
          by (apply (Permutation_in y (Permutation_sym HP)); left; reflexivity).
        assert (Hin' : In x (y :: l'))
          by (apply (Permutation_in x HP); left; reflexivity).
        destruct Hin as [->|Hin]; [reflexivity|].
        destruct Hin' as [->|Hin']; [reflexivity|].
        symmetry. apply Hties.
        - left; reflexivity.
        - right; exact Hin.
        - rewrite Forall_forall in Hx. apply Hx; exact Hin.
        - rewrite Forall_forall in Hy. apply Hy; exact Hin'. }
      subst y. f_equal. apply IH.
      * exact Hl'.
      * apply Permutation_cons_inv with (a := x). exact HP.
      * intros a b Ha Hb. apply Hties; right; assumption.
Qed.

Lemma read_folder_inv `{Runtime} {R : Type} (suffix : string) (cols : list string)
    (read : list string -> result (DataFrame R)) (leb : R -> R -> bool)
    (dir : folder) (t : DataFrame R) :
  (forall file df, read file = Ok df -> columns df = cols) ->
  read_folder suffix cols read leb dir = Ok t ->
  exists dfs,
    map_result (fun f => read (snd f)) (glob suffix dir) = Ok dfs
    /\ t = mkDataFrame cols (sort_rows R leb (List.concat (map rows dfs))).
Proof.
  intros Hcols. unfold read_folder.
  rewrite (for_each_append_tables (fun f => read (snd f))).
  destruct (map_result _ (glob suffix dir)) as [dfs|e] eqn:E; simpl; [|discriminate].
  intros [= <-]. exists dfs. split; [reflexivity|].
  rewrite rows_fold_append, columns_fold_append; [reflexivity|].
  eapply Forall_impl; [|apply (map_result_Forall _ _ _ E)].
  intros df [f [_ Hf]]. simpl. eapply Hcols; exact Hf.
Qed.

Lemma read_folder_intro `{Runtime} {R : Type} (suffix : string) (cols : list string)
    (read : list string -> result (DataFrame R)) (leb : R -> R -> bool)
    (dir : folder) (dfs : list (DataFrame R)) :
  (forall file df, read file = Ok df -> columns df = cols) ->
  map_result (fun f => read (snd f)) (glob suffix dir) = Ok dfs ->
  read_folder suffix cols read leb dir
  = Ok (mkDataFrame cols (sort_rows R leb (List.concat (map rows dfs)))).
Proof.
  intros Hcols E. unfold read_folder.
  rewrite (for_each_append_tables (fun f => read (snd f))), E. simpl.
  rewrite rows_fold_append, columns_fold_append; [reflexivity|].
  eapply Forall_impl; [|apply (map_result_Forall _ _ _ E)].
  intros df [f [_ Hf]]. simpl. eapply Hcols; exact Hf.
Qed.

Lemma read_folder_Permutation `{Runtime} {R : Type} (suffix : string)
    (cols : list string) (read : list string -> result (DataFrame R))
    (leb : R -> R -> bool) (dir dir' : folder) (t : DataFrame R) :
  sort_rows_permutes -> sort_rows_sorts -> total_preorder leb ->
  (forall file df, read file = Ok df -> columns df = cols) ->
  Permutation dir dir' ->
  read_folder suffix cols read leb dir = Ok t ->
  exists t', read_folder suffix cols read leb dir' = Ok t'
             /\ same_up_to_ties leb t t'.
Proof.
  intros Hperm Hsort Hleb Hcols HP Ht.
  destruct (read_folder_inv _ _ _ _ _ _ Hcols Ht) as [dfs [E ->]].
  destruct (map_result_Permutation _ _ _ _ (glob_Permutation suffix _ _ HP) E)
    as [dfs' [E' HP']].
  eexists. split; [apply (read_folder_intro _ _ _ _ _ _ Hcols E')|].
  assert (HPr : Permutation (sort_rows R leb (List.concat (map rows dfs)))
                            (sort_rows R leb (List.concat (map rows dfs')))).
  { rewrite <- (Hperm R leb (List.concat (map rows dfs))).
    rewrite <- (Hperm R leb (List.concat (map rows dfs'))).
    apply Permutation_concat_map. exact HP'. }
  unfold same_up_to_ties. cbn [columns rows].
  repeat split; try (apply Hsort; exact Hleb); try exact HPr.
  intros Hties. f_equal.
  apply (sorted_Permutation_eq leb); try (apply Hsort; exact Hleb); assumption.
Qed.

(** ** The sort keys are total preorders *)

Lemma ascii_compare_lt_trans (a b c : ascii) :
  Ascii.compare a b = Lt -> Ascii.compare b c = Lt -> Ascii.compare a c = Lt.
Proof.
  unfold Ascii.compare. rewrite !N.compare_lt_iff. apply N.lt_trans.
Qed.

Lemma string_compare_refl (s : string) : String.compare s s = Eq.
Proof.
  pose proof (String.compare_antisym s s) as E.
  destruct (String.compare s s); simpl in E; congruence.
Qed.

Lemma string_compare_lt_trans (s1 s2 s3 : string) :
  String.compare s1 s2 = Lt -> String.compare s2 s3 = Lt ->
  String.compare s1 s3 = Lt.
Proof.
  revert s2 s3. induction s1 as [|a s1 IH]; intros [|b s2] [|c s3]; simpl;
    try discriminate; try reflexivity.
  destruct (Ascii.compare a b) eqn:Eab; try discriminate.
  - apply Ascii.compare_eq_iff in Eab. subst b.
    destruct (Ascii.compare a c); try discriminate; [apply IH | reflexivity].
  - intros _. destruct (Ascii.compare b c) eqn:Ebc; try discriminate.
    + apply Ascii.compare_eq_iff in Ebc. subst c. rewrite Eab. reflexivity.
    + rewrite (ascii_compare_lt_trans _ _ _ Eab Ebc). reflexivity.
Qed.

Lemma string_leb_trans (s1 s2 s3 : string) :
  String.leb s1 s2 = true -> String.leb s2 s3 = true -> String.leb s1 s3 = true.
Proof.
  unfold String.leb.
  destruct (String.compare s1 s2) eqn:E12; try discriminate;
    destruct (String.compare s2 s3) eqn:E23; try discriminate; intros _ _.
  - apply String.compare_eq_iff in E12, E23. subst.
    rewrite string_compare_refl. reflexivity.
  - apply String.compare_eq_iff in E12. subst. rewrite E23. reflexivity.
  - apply String.compare_eq_iff in E23. subst. rewrite E12. reflexivity.
  - rewrite (string_compare_lt_trans _ _ _ E12 E23). reflexivity.
Qed.

Lemma question_answer_leb_total (q1 a1 q2 a2 : string) :
  question_answer_leb q1 a1 q2 a2 = true \/ question_answer_leb q2 a2 q1 a1 = true.
Proof.
  unfold question_answer_leb. rewrite (String.compare_antisym q2 q1).
  destruct (String.compare q1 q2); simpl; auto. apply String.leb_total.
Qed.

Lemma question_answer_leb_trans (q1 a1 q2 a2 q3 a3 : string) :
  question_answer_leb q1 a1 q2 a2 = true ->
  question_answer_leb q2 a2 q3 a3 = true ->
  question_answer_leb q1 a1 q3 a3 = true.
Proof.
  unfold question_answer_leb.
  destruct (String.compare q1 q2) eqn:E12; try discriminate;
    destruct (String.compare q2 q3) eqn:E23; try discriminate.
  - apply String.compare_eq_iff in E12, E23. subst.
    rewrite string_compare_refl. apply string_leb_trans.
  - apply String.compare_eq_iff in E12. subst. rewrite E23. reflexivity.
  - apply String.compare_eq_iff in E23. subst. rewrite E12. reflexivity.
  - rewrite (string_compare_lt_trans _ _ _ E12 E23). reflexivity.
Qed.

Lemma performance_leb_total_preorder : total_preorder performance_leb.
Proof.
  unfold performance_leb. split.
  - intros x y. rewrite !Z.leb_le. lia.
  - intros x y z. rewrite !Z.leb_le. lia.
Qed.

Lemma response_leb_total_preorder : total_preorder response_leb.
Proof.
  unfold response_leb. split.
  - intros x y. apply question_answer_leb_total.
  - intros x y z. apply question_answer_leb_trans.
Qed.

Lemma count_leb_total_preorder : total_preorder count_leb.
Proof.
  unfold count_leb. split.
  - intros x y. apply question_answer_leb_total.
  - intros x y z. apply question_answer_leb_trans.
Qed.

(** ** The column labels of the readers *)

Lemma read_performance_report_columns `{Runtime} (file : list string)
    (fmt : string) (df : DataFrame MeetingRecord) :
  read_performance_report file fmt = Ok df -> columns df = performance_columns.
Proof.
  unfold read_performance_report. intros E. bind_inv E.
  injection E as <-. reflexivity.
Qed.

Lemma read_poll_report_columns `{Runtime} (file : list string)
    (df : DataFrame PollResponse) :
  read_poll_report file = Ok df -> columns df = poll_columns.
Proof.
  unfold read_poll_report. intros E. bind_inv E.
  injection E as <-. reflexivity.
Qed.

Lemma read_poll_report_counts_columns `{Runtime} (file : list string)
    (df : DataFrame PollAnswerCount) :
  read_poll_report_counts file = Ok df -> columns df = count_columns.
Proof.
  unfold read_poll_report_counts. intros E. bind_inv E.
  injection E as <-. reflexivity.
Qed.

(** C9, as the code has it: the same files listed in another order are read
    into a table with the same column labels and the same rows, both in
    ascending order of the sort key (the date of the meeting for the
    performance reports, question and answer for the poll tables); the two
    tables are equal when rows that tie on the sort key are equal rows. *)
Theorem folder_tables_up_to_ties `{Runtime} (dir dir' : folder) :
  sort_rows_permutes -> sort_rows_sorts -> Permutation dir dir' ->
  (forall t, read_all_performance_reports dir = Ok t ->
     exists t', read_all_performance_reports dir' = Ok t'
                /\ same_up_to_ties performance_leb t t')
  /\ (forall t, read_all_poll_reports dir = Ok t ->
        exists t', read_all_poll_reports dir' = Ok t'
                   /\ same_up_to_ties response_leb t t')
  /\ (forall t, read_all_poll_report_counts dir = Ok t ->
        exists t', read_all_poll_report_counts dir' = Ok t'
                   /\ same_up_to_ties count_leb t t').
Proof.
  intros Hperm Hsort HP. split; [|split]; intros t.
  - rewrite !read_all_performance_reports_folder.
    apply read_folder_Permutation; auto using performance_leb_total_preorder.
    intros file df. apply read_performance_report_columns.
  - rewrite !read_all_poll_reports_folder.
    apply read_folder_Permutation; auto using response_leb_total_preorder.
    intros file df. apply read_poll_report_columns.
  - rewrite !read_all_poll_report_counts_folder.
    apply read_folder_Permutation; auto using count_leb_total_preorder.
    intros file df. apply read_poll_report_counts_columns.
Qed.

Lemma folder_tables_up_to_ties_witness :
  exists t t',
    @read_all_poll_report_counts Example.runtime Example.folder_ab = Ok t
    /\ @read_all_poll_report_counts Example.runtime Example.folder_ba = Ok t'
    /\ same_up_to_ties count_leb t t'.
Proof.
  destruct (@folder_tables_up_to_ties Example.runtime Example.folder_ab
              Example.folder_ba example_sort_permutes example_sort_sorts
              (perm_swap _ _ [])) as [_ [_ Hcounts]].
  eexists. destruct (Hcounts _ eq_refl) as [t' [E' Hsame]].
  exists t'. split; [reflexivity|]. split; assumption.
Defined.

(** C9 as stated fails: with the stable sort of the examples, two reports
    whose rows tie on question and answer come out in the order the folder
    lists them. *)
Lemma listing_order_counterexample :
  @sort_rows_permutes Example.runtime
  /\ @sort_rows_sorts Example.runtime
  /\ Permutation Example.folder_ab Example.folder_ba
  /\ @read_all_poll_report_counts Example.runtime Example.folder_ab
     <> @read_all_poll_report_counts Example.runtime Example.folder_ba.
Proof.
  split; [exact example_sort_permutes|].
  split; [exact example_sort_sorts|].
  split; [apply perm_swap|].
  vm_compute. discriminate.
Qed.

(** ** Binary64: digits and shifts *)

Lemma fexp_eq (e : Z) : fexp prec emax e = Z.max (e - 53) (-1074).
Proof. reflexivity. Qed.

Lemma digits2_pos_bounds (p : positive) :
  2 ^ (Zpos (digits2_pos p) - 1) <= Zpos p < 2 ^ Zpos (digits2_pos p).
Proof.
  induction p as [p IH|p IH|]; cbn [digits2_pos].
  - rewrite Pos2Z.inj_succ.
    replace (Z.succ (Z.pos (digits2_pos p)) - 1)
      with (Z.succ (Z.pos (digits2_pos p) - 1)) by lia.
    rewrite !Z.pow_succ_r by lia. lia.
  - rewrite Pos2Z.inj_succ.
    replace (Z.succ (Z.pos (digits2_pos p)) - 1)
      with (Z.succ (Z.pos (digits2_pos p) - 1)) by lia.
    rewrite !Z.pow_succ_r by lia. lia.
  - simpl. lia.
Qed.

Lemma Zdigits2_nonneg (m : Z) : 0 <= Zdigits2 m.
Proof. destruct m; simpl; lia. Qed.

Lemma Zdigits2_bounds (m : Z) :
  0 < m -> 2 ^ (Zdigits2 m - 1) <= m < 2 ^ Zdigits2 m.
Proof.
  destruct m as [|p|p]; try lia. intros _. apply digits2_pos_bounds.
Qed.

Lemma Zdigits2_pos (m : Z) : 0 < m -> 0 < Zdigits2 m.
Proof. destruct m; simpl; lia. Qed.

(** The number of digits is the least [d] with [m < 2 ^ d]. *)
Lemma Zdigits2_le (m d : Z) : 0 <= m -> 0 <= d -> m < 2 ^ d -> Zdigits2 m <= d.
Proof.
  intros Hm Hd Hlt. destruct (Z.eq_dec m 0) as [->|Hne]; [simpl; lia|].
  destruct (Zdigits2_bounds m ltac:(lia)) as [Hlo _].
  destruct (Z.le_gt_cases (Zdigits2 m) d) as [H|H]; [exact H|].
  assert (2 ^ d <= 2 ^ (Zdigits2 m - 1)) by (apply Z.pow_le_mono_r; lia).
  lia.
Qed.

Lemma Zdigits2_ge (m d : Z) : 2 ^ (d - 1) <= m -> 0 < d -> d <= Zdigits2 m.
Proof.
  intros Hlo Hd.
  assert (Hm : 0 < m) by (pose proof (Z.pow_pos_nonneg 2 (d - 1)); lia).
  destruct (Zdigits2_bounds m Hm) as [_ Hhi].
  destruct (Z.le_gt_cases d (Zdigits2 m)) as [H|H]; [exact H|].
  assert (2 ^ Zdigits2 m <= 2 ^ (d - 1)) by (apply Z.pow_le_mono_r; lia).
  lia.
Qed.

Lemma Zdigits2_div_pow2 (m k : Z) :
  0 <= m -> 0 <= k -> Zdigits2 (m / 2 ^ k) <= Z.max 0 (Zdigits2 m - k).
Proof.
  intros Hm Hk.
  assert (Hp : 0 < 2 ^ k) by (apply Z.pow_pos_nonneg; lia).
  apply Zdigits2_le.
  - apply Z.div_pos; lia.
  - lia.
  - destruct (Z.eq_dec m 0) as [->|Hne].
    + rewrite Z.div_0_l by lia. apply Z.pow_pos_nonneg; lia.
    + destruct (Zdigits2_bounds m ltac:(lia)) as [_ Hhi].
      apply Z.div_lt_upper_bound; [exact Hp|].
      destruct (Z.le_gt_cases k (Zdigits2 m)) as [H|H].
      * rewrite Z.max_r by lia. rewrite <- Z.pow_add_r by lia.
        replace (k + (Zdigits2 m - k)) with (Zdigits2 m) by lia. exact Hhi.
      * rewrite Z.max_l by lia. rewrite Z.pow_0_r, Z.mul_1_r.
        assert (2 ^ Zdigits2 m <= 2 ^ k)
          by (apply Z.pow_le_mono_r; pose proof (Zdigits2_nonneg m); lia).
        lia.
Qed.

(** One more than [m] has as many digits as [m], or is the next power of
    two. *)
Lemma Zdigits2_succ (m : Z) :
  0 <= m ->
  Zdigits2 (m + 1) = Zdigits2 m
  \/ (Zdigits2 (m + 1) = Zdigits2 m + 1 /\ m + 1 = 2 ^ Zdigits2 m).
Proof.
  intros Hm. destruct (Z.eq_dec m 0) as [->|Hne]; [right; split; reflexivity|].
  destruct (Zdigits2_bounds m ltac:(lia)) as [Hlo Hhi].
  pose proof (Zdigits2_pos m ltac:(lia)) as Hd.
  destruct (Z.eq_dec (m + 1) (2 ^ Zdigits2 m)) as [E|Hlt].
  - right. split; [|exact E]. apply Z.le_antisymm.
    + apply Zdigits2_le; try lia.
      rewrite E, Z.pow_add_r by lia. lia.
    + apply Zdigits2_ge; [|lia]. replace (Zdigits2 m + 1 - 1) with (Zdigits2 m) by lia.
      lia.
  - left. apply Z.le_antisymm.
    + apply Zdigits2_le; lia.
    + apply Zdigits2_ge; lia.
Qed.

Lemma iter_pos_nat {A : Type} (f : A -> A) (p : positive) (x : A) :
  iter_pos f p x = Nat.iter (Pos.to_nat p) f x.
Proof.
  revert x. induction p as [p IH|p IH|]; intros x; cbn [iter_pos].
  - rewrite !IH, Pos2Nat.inj_xI. cbn [Nat.mul]. rewrite Nat.add_0_r.
    rewrite Nat.iter_succ_r, Nat.iter_add. reflexivity.
  - rewrite !IH, Pos2Nat.inj_xO. cbn [Nat.mul]. rewrite Nat.add_0_r.
    rewrite Nat.iter_add. reflexivity.
  - reflexivity.
Qed.

Lemma shr_1_m (mrs : shr_record) :
  0 <= shr_m mrs -> shr_m (shr_1 mrs) = shr_m mrs / 2.
Proof.
  destruct mrs as [m r s]. cbn [shr_m]. intros Hm.
  rewrite <- Z.div2_div. destruct m as [|[p|p|]|p]; try lia; reflexivity.
Qed.

Lemma shr_iter_m (k : nat) (mrs : shr_record) :
  0 <= shr_m mrs ->
  shr_m (Nat.iter k shr_1 mrs) = shr_m mrs / 2 ^ Z.of_nat k.
Proof.
  intros Hm. induction k as [|k IH].
  - simpl. rewrite Z.div_1_r. reflexivity.
  - rewrite Nat.iter_succ, shr_1_m.
    + rewrite IH, Nat2Z.inj_succ, Z.pow_succ_r by lia.
      rewrite Z.div_div by (try apply Z.pow_pos_nonneg; lia).
      f_equal. lia.
    + rewrite IH. apply Z.div_pos; [lia | apply Z.pow_pos_nonneg; lia].
Qed.

(** The mantissa and the exponent after [shr]: the mantissa loses its [n]
    low bits, the exponent grows by [n]. *)
Lemma shr_m_e (mrs : shr_record) (e n : Z) :
  0 <= shr_m mrs ->
  shr_m (fst (shr mrs e n)) = shr_m mrs / 2 ^ Z.max 0 n
  /\ snd (shr mrs e n) = e + Z.max 0 n.
Proof.
  intros Hm. destruct n as [|p|p]; cbn [shr fst snd].
  - rewrite Z.div_1_r. split; [reflexivity | simpl; lia].
  - rewrite iter_pos_nat, shr_iter_m by exact Hm.
    rewrite positive_nat_Z. rewrite Z.max_r by lia. split; reflexivity.
  - rewrite Z.max_l by lia. rewrite Z.div_1_r. split; [reflexivity | lia].
Qed.

Lemma shr_record_of_loc_m (m : Z) (l : location) :
  shr_m (shr_record_of_loc m l) = m.
Proof. destruct l as [|[]]; reflexivity. Qed.

Lemma shr_fexp_m_e (m e : Z) (l : location) :
  0 <= m ->
  shr_m (fst (shr_fexp prec emax m e l)) = m / 2 ^ shift_of m e
  /\ snd (shr_fexp prec emax m e l) = e + shift_of m e.
Proof.
  intros Hm. unfold shr_fexp, shift_of.
  pose proof (shr_m_e (shr_record_of_loc m l) e
                (fexp prec emax (Zdigits2 m + e) - e)) as H.
  rewrite shr_record_of_loc_m in H. apply H. exact Hm.
Qed.

Lemma round_nearest_even_cases (m : Z) (l : location) :
  round_nearest_even m l = m \/ round_nearest_even m l = m + 1.
Proof.
  destruct l as [|[]]; cbn; auto. destruct (Z.even m); auto.
Qed.

(** The exponent [shr_fexp] leaves is the one the format gives to the
    mantissa it leaves, or larger. *)
Lemma fexp_after_shift (m e : Z) :
  0 <= m ->
  fexp prec emax (Zdigits2 (m / 2 ^ shift_of m e) + (e + shift_of m e))
  <= e + shift_of m e.
Proof.
  intros Hm.
  pose proof (Zdigits2_div_pow2 m (shift_of m e) Hm) as Hd.
  pose proof (Zdigits2_nonneg (m / 2 ^ shift_of m e)) as Hd0.
  pose proof (Zdigits2_nonneg m) as Hm0.
  unfold shift_of in *. rewrite !fexp_eq in *. lia.
Qed.

(** After rounding, the second [shr_fexp] shifts by one bit at most, and
    loses nothing. *)
Lemma second_shift_exact (m1 e1 m2 : Z) :
  0 <= m1 ->
  fexp prec emax (Zdigits2 m1 + e1) <= e1 ->
  m2 = m1 \/ m2 = m1 + 1 ->
  0 <= shift_of m2 e1 <= 1 /\ m2 mod 2 ^ shift_of m2 e1 = 0.
Proof.
  intros Hm1 Hf [->| ->].
  - unfold shift_of. rewrite Z.max_l by lia. split; [lia | apply Z.mod_1_r].
  - destruct (Zdigits2_succ m1 Hm1) as [E|[E Hpow]].
    + unfold shift_of. rewrite E, Z.max_l by lia. split; [lia | apply Z.mod_1_r].
    + pose proof (Zdigits2_nonneg m1) as Hd.
      assert (Hs : 0 <= shift_of (m1 + 1) e1 <= 1).
      { unfold shift_of. rewrite E. rewrite !fexp_eq in *. lia. }
      split; [exact Hs|].
      destruct (Z.eq_dec (shift_of (m1 + 1) e1) 0) as [->|Hne];
        [apply Z.mod_1_r|].
      replace (shift_of (m1 + 1) e1) with 1 by lia.
      assert (Hd1 : 0 < Zdigits2 m1).
      { unfold shift_of in Hne. rewrite E in Hne. rewrite !fexp_eq in *. lia. }
      rewrite Hpow. replace (Zdigits2 m1) with (Z.succ (Zdigits2 m1 - 1)) by lia.
      rewrite Z.pow_succ_r by lia. rewrite Z.pow_1_r, Z.mul_comm.
      apply Z.mod_mul. lia.
Qed.

(** ** Rounding to binary64 *)

Lemma shift_of_nonneg (m e : Z) : 0 <= shift_of m e.
Proof. unfold shift_of. lia. Qed.

Lemma round_mant_nonneg (mx ex : Z) : 0 <= mx -> 0 <= round_mant mx ex.
Proof.
  intros Hm. unfold round_mant. apply Z.div_pos; [exact Hm|].
  apply Z.pow_pos_nonneg; [lia | apply shift_of_nonneg].
Qed.

(** The truncated mantissa brackets the given one. *)
Lemma round_mant_bracket (mx ex : Z) :
  0 <= mx ->
  round_mant mx ex * 2 ^ shift_of mx ex <= mx
  /\ mx + 1 <= (round_mant mx ex + 1) * 2 ^ shift_of mx ex.
Proof.
  intros Hm. unfold round_mant.
  assert (Hp : 0 < 2 ^ shift_of mx ex)
    by (apply Z.pow_pos_nonneg; [lia | apply shift_of_nonneg]).
  pose proof (Z.mul_div_le mx _ Hp). pose proof (Z.mul_succ_div_gt mx _ Hp).
  lia.
Qed.

Lemma round_exp_cases (mx ex : Z) :
  0 <= mx ->
  round_exp mx ex = ex \/ round_exp mx ex = -1074
  \/ (0 < mx /\ round_exp mx ex = Zdigits2 mx + ex - 53).
Proof.
  intros Hm. unfold round_exp, shift_of. rewrite fexp_eq.
  destruct (Z.eq_dec mx 0) as [->|Hne]; [simpl; lia|].
  pose proof (Zdigits2_nonneg mx). lia.
Qed.

(** What [binary_round_aux] returns for a mantissa that is not negative:
    the truncated mantissa or its successor, at the exponent after the
    first shift, unless that overflows. *)
Lemma binary_round_aux_cases (s : bool) (mx ex : Z) (lx : location) :
  0 <= mx ->
  exists m2,
    (m2 = round_mant mx ex \/ m2 = round_mant mx ex + 1)
    /\ ((m2 = 0 /\ binary_round_aux prec emax s mx ex lx = S754_zero s)
        \/ (exists m e,
              binary_round_aux prec emax s mx ex lx = S754_finite s m e
              /\ 0 <= e - round_exp mx ex <= 1
              /\ e <= 971
              /\ Zpos m * 2 ^ (e - round_exp mx ex) = m2)
        \/ (0 < m2
            /\ binary_round_aux prec emax s mx ex lx = S754_infinity s
            /\ 971 <= round_exp mx ex)).
Proof.
  intros Hm. unfold binary_round_aux.
  destruct (shr_fexp_m_e mx ex lx Hm) as [Hm1 He1].
  destruct (shr_fexp prec emax mx ex lx) as [mrs' e'].
  cbn [fst snd] in Hm1, He1.
  set (m2 := round_nearest_even (shr_m mrs') (loc_of_shr_record mrs')).
  assert (Hm2 : m2 = round_mant mx ex \/ m2 = round_mant mx ex + 1).
  { unfold round_mant. rewrite <- Hm1. apply round_nearest_even_cases. }
  pose proof (round_mant_nonneg mx ex Hm) as Hm1pos.
  assert (Hm2pos : 0 <= m2) by lia.
  destruct (shr_fexp_m_e m2 e' loc_Exact Hm2pos) as [Hm3 He3].
  destruct (shr_fexp prec emax m2 e' loc_Exact) as [mrs'' e''].
  cbn [fst snd] in Hm3, He3.
  assert (He1' : e' = round_exp mx ex) by exact He1. clear He1.
  destruct (second_shift_exact (round_mant mx ex) e' m2 Hm1pos) as [Hk2 Hexact].
  { rewrite He1'. apply fexp_after_shift. exact Hm. }
  { exact Hm2. }
  assert (Hp : 0 < 2 ^ shift_of m2 e') by (apply Z.pow_pos_nonneg; lia).
  assert (Hdiv : m2 = shr_m mrs'' * 2 ^ shift_of m2 e').
  { rewrite Hm3. pose proof (Z.div_mod m2 (2 ^ shift_of m2 e')). lia. }
  exists m2. split; [exact Hm2|].
  destruct (shr_m mrs'') as [|m|m] eqn:E3.
  - left. split; [lia | reflexivity].
  - destruct (Z.leb_spec e'' (emax - prec)) as [Hle|Hgt].
    + right; left. exists m, e''. split; [reflexivity|].
      unfold emax, prec in Hle. rewrite <- He1'.
      replace (e'' - e') with (shift_of m2 e') by lia.
      repeat split; try lia.
    + right; right. unfold emax, prec in Hgt. rewrite <- He1'.
      repeat split; lia.
  - exfalso. lia.
Qed.

(** ** Values after rounding *)

Lemma pow2_pos (e : Z) : (0 < 2 ^ e)%Q.
Proof. apply Qpower_0_lt. reflexivity. Qed.

Lemma pow2_add (a b : Z) : (2 ^ (a + b) == 2 ^ a * 2 ^ b)%Q.
Proof. apply Qpower_plus. discriminate. Qed.

Lemma pow2_le (a b : Z) : a <= b -> (2 ^ a <= 2 ^ b)%Q.
Proof. intros H. apply Qpower_le_compat_l; [exact H | discriminate]. Qed.

Lemma pow2_inject (k : Z) : 0 <= k -> (inject_Z (2 ^ k) == 2 ^ k)%Q.
Proof. intros Hk. apply (Zpower_Qpower 2 k Hk). Qed.

Lemma Qval_shift (m e k : Z) : 0 <= k -> (Qval m (e + k) == Qval (m * 2 ^ k) e)%Q.
Proof.
  intros Hk. unfold Qval.
  rewrite pow2_add, inject_Z_mult, (pow2_inject k Hk). ring.
Qed.

Lemma Qval_le (a b e : Z) : a <= b -> (Qval a e <= Qval b e)%Q.
Proof.
  intros H. unfold Qval. apply Qmult_le_compat_r.
  - rewrite <- Zle_Qle. exact H.
  - apply Qlt_le_weak, pow2_pos.
Qed.

Lemma Qval_nonneg (m e : Z) : 0 <= m -> (0 <= Qval m e)%Q.
Proof.
  intros H. unfold Qval. apply Qmult_le_0_compat.
  - change 0%Q with (inject_Z 0). rewrite <- Zle_Qle. exact H.
  - apply Qlt_le_weak, pow2_pos.
Qed.

Lemma Qval_succ (m e : Z) : (Qval (m + 1) e == Qval m e + 2 ^ e)%Q.
Proof. unfold Qval. rewrite inject_Z_plus. ring. Qed.

Lemma round_bracket (mx ex : Z) :
  0 <= mx ->
  (Qval (round_mant mx ex) (round_exp mx ex) <= Qval mx ex)%Q
  /\ (Qval (mx + 1) ex <= Qval (round_mant mx ex + 1) (round_exp mx ex))%Q.
Proof.
  intros Hm. destruct (round_mant_bracket mx ex Hm) as [Hlo Hhi].
  unfold round_exp. rewrite !Qval_shift by apply shift_of_nonneg.
  split; apply Qval_le; assumption.
Qed.

Lemma SF2Q_finite_Qval (m : positive) (e e1 m2 : Z) :
  0 <= e - e1 -> Zpos m * 2 ^ (e - e1) = m2 ->
  (SF2Q (S754_finite false m e) == Qval m2 e1)%Q.
Proof.
  intros He <-. cbn [SF2Q].
  rewrite <- Qval_shift by exact He.
  replace (e1 + (e - e1)) with e by lia. unfold Qval. ring.
Qed.

(** The value [binary_round_aux] returns for a positive sign. *)
Lemma binary_round_aux_value (mx ex : Z) (lx : location) :
  0 <= mx ->
  exists m2,
    (m2 = round_mant mx ex \/ m2 = round_mant mx ex + 1)
    /\ ((is_finite (binary_round_aux prec emax false mx ex lx) = true
         /\ (SF2Q (binary_round_aux prec emax false mx ex lx)
             == Qval m2 (round_exp mx ex))%Q)
        \/ (binary_round_aux prec emax false mx ex lx = S754_infinity false
            /\ 971 <= round_exp mx ex)).
Proof.
  intros Hm.
  destruct (binary_round_aux_cases false mx ex lx Hm)
    as [m2 [Hm2 [[H0 ->]|[[m [e [-> [He [Hle Hval]]]]]|[Hpos [-> Hexp]]]]]];
    exists m2; (split; [exact Hm2|]).
  - left. split; [reflexivity|]. rewrite H0. unfold Qval. cbn [SF2Q]. ring.
  - left. split; [reflexivity|]. apply SF2Q_finite_Qval; [lia | exact Hval].
  - right. split; [reflexivity | exact Hexp].
Qed.

(** Rounding a value [v] that lies between [mx * 2 ^ ex] and the next
    multiple of [2 ^ ex]: the result is off by one unit of the rounding
    exponent at most. *)
Lemma binary_round_aux_error (mx ex : Z) (lx : location) (v : Q) :
  0 <= mx ->
  (Qval mx ex <= v)%Q -> (v <= Qval (mx + 1) ex)%Q ->
  (is_finite (binary_round_aux prec emax false mx ex lx) = true
   /\ (0 <= SF2Q (binary_round_aux prec emax false mx ex lx))%Q
   /\ (Qabs (SF2Q (binary_round_aux prec emax false mx ex lx) - v)
       <= 2 ^ round_exp mx ex)%Q)
  \/ (binary_round_aux prec emax false mx ex lx = S754_infinity false
      /\ 971 <= round_exp mx ex).
Proof.
  intros Hm Hlo Hhi.
  destruct (binary_round_aux_value mx ex lx Hm) as [m2 [Hm2 [[Hfin Hval]|Hinf]]];
    [left | right; exact Hinf].
  destruct (round_bracket mx ex Hm) as [Hlo' Hhi'].
  pose proof (round_mant_nonneg mx ex Hm) as Hm1.
  split; [exact Hfin|]. split.
  - rewrite Hval. apply Qval_nonneg. lia.
  - rewrite Hval. apply Qabs_Qle_condition.
    pose proof (Qval_succ (round_mant mx ex) (round_exp mx ex)) as Hs.
    pose proof (pow2_pos (round_exp mx ex)) as Hp.
    destruct Hm2 as [-> | ->]; [|rewrite Hs]; rewrite Hs in Hhi'; lra.
Qed.

Lemma Zdigits2_round_mant (mx ex : Z) : 0 <= mx -> round_mant mx ex < 2 ^ 53.
Proof.
  intros Hm. pose proof (fexp_after_shift mx ex Hm) as Hf.
  fold (round_mant mx ex) in Hf. rewrite fexp_eq in Hf.
  pose proof (round_mant_nonneg mx ex Hm) as H0.
  destruct (Z.eq_dec (round_mant mx ex) 0) as [->|Hne]; [reflexivity|].
  destruct (Zdigits2_bounds (round_mant mx ex) ltac:(lia)) as [_ Hhi].
  assert (2 ^ Zdigits2 (round_mant mx ex) <= 2 ^ 53)
    by (apply Z.pow_le_mono_r; lia).
  lia.
Qed.

(** A finite result of [binary_round_aux] is at most [2 ^ 1024]. *)
Lemma binary_round_aux_bounded (mx ex : Z) (lx : location) :
  0 <= mx ->
  is_finite (binary_round_aux prec emax false mx ex lx) = true ->
  (SF2Q (binary_round_aux prec emax false mx ex lx) <= 2 ^ 1024)%Q.
Proof.
  intros Hm.
  pose proof (Zdigits2_round_mant mx ex Hm) as Hlt.
  destruct (binary_round_aux_cases false mx ex lx Hm)
    as [m2 [Hm2 [[H0 ->]|[[m [e [-> [He [Hle Hval]]]]]|[Hpos [-> Hexp]]]]]];
    cbn [is_finite SF2Q]; intros Hfin; [| |discriminate Hfin].
  - apply Qlt_le_weak, pow2_pos.
  - assert (Hp : 0 < 2 ^ (e - round_exp mx ex)) by (apply Z.pow_pos_nonneg; lia).
    assert (Hm53 : Zpos m <= 2 ^ 53) by nia.
    setoid_replace (1 * inject_Z (Z.pos m) * 2 ^ e)%Q with (Qval (Zpos m) e)
      by (unfold Qval; ring).
    apply Qle_trans with (Qval (2 ^ 53) 971).
    + apply Qle_trans with (Qval (Zpos m) 971).
      * unfold Qval. apply Qmult_le_l.
        -- change 0%Q with (inject_Z 0). rewrite <- Zlt_Qlt. lia.
        -- apply pow2_le. exact Hle.
      * apply Qval_le. exact Hm53.
    + unfold Qval. rewrite (pow2_inject 53) by lia.
      rewrite <- pow2_add. apply Qle_refl.
Qed.

(** A bound on the unit of the rounding exponent. *)
Lemma pow2_round_exp_le (mx ex : Z) (v B : Q) :
  0 <= mx -> (Qval mx ex <= v)%Q ->
  (2 ^ ex <= B)%Q -> (2 ^ (-1074) <= B)%Q -> (v * 2 ^ (-52) <= B)%Q ->
  (2 ^ round_exp mx ex <= B)%Q.
Proof.
  intros Hm Hv Hex Hmin Hrel.
  destruct (round_exp_cases mx ex Hm) as [-> | [-> | [Hpos ->]]];
    [exact Hex | exact Hmin |].
  apply Qle_trans with (v * 2 ^ (-52))%Q; [|exact Hrel].
  apply Qle_trans with (Qval mx ex * 2 ^ (-52))%Q.
  - destruct (Zdigits2_bounds mx Hpos) as [Hlo _].
    apply Qle_trans with (Qval (2 ^ (Zdigits2 mx - 1)) ex * 2 ^ (-52))%Q.
    + unfold Qval. rewrite pow2_inject by (pose proof (Zdigits2_pos mx Hpos); lia).
      rewrite <- !pow2_add.
      replace (Zdigits2 mx - 1 + ex + -52) with (Zdigits2 mx + ex - 53) by lia.
      apply Qle_refl.
    + apply Qmult_le_compat_r; [apply Qval_le; exact Hlo|].
      apply Qlt_le_weak, pow2_pos.
  - apply Qmult_le_compat_r; [exact Hv | apply Qlt_le_weak, pow2_pos].
Qed.

(** When the rounding exponent is in the range of overflow, the value is
    too. *)
Lemma round_exp_overflow (mx ex : Z) (v : Q) :
  0 <= mx -> (Qval mx ex <= v)%Q -> ex < 971 -> 971 <= round_exp mx ex ->
  (2 ^ 1023 <= v)%Q.
Proof.
  intros Hm Hv Hex Hround.
  destruct (round_exp_cases mx ex Hm) as [E | [E | [Hpos E]]]; try lia.
  destruct (Zdigits2_bounds mx Hpos) as [Hlo _].
  apply Qle_trans with (Qval mx ex); [|exact Hv].
  apply Qle_trans with (Qval (2 ^ (Zdigits2 mx - 1)) ex).
  - unfold Qval. rewrite pow2_inject by (pose proof (Zdigits2_pos mx Hpos); lia).
    rewrite <- pow2_add. apply pow2_le. lia.
  - apply Qval_le. exact Hlo.
Qed.

(** ** Conversion of integers *)

Lemma Pos_iter_xO (m d : positive) : Zpos (Pos.iter xO m d) = Zpos m * 2 ^ Zpos d.
Proof.
  induction d as [|d IH] using Pos.peano_ind.
  - simpl. lia.
  - rewrite Pos.iter_succ, Pos2Z.inj_succ, Z.pow_succ_r by lia.
    rewrite Pos2Z.inj_xO, IH. lia.
Qed.

Lemma shl_align_value (mx : positive) (ex ex' : Z) :
  (Qval (Zpos (fst (shl_align mx ex ex'))) (snd (shl_align mx ex ex'))
   == Qval (Zpos mx) ex)%Q.
Proof.
  unfold shl_align. destruct (ex' - ex) as [|d|d] eqn:E; cbn [fst snd];
    try reflexivity.
  rewrite Pos_iter_xO. rewrite <- Qval_shift by lia.
  replace (ex' + Zpos d) with ex by lia. reflexivity.
Qed.

Lemma shl_align_exp (mx : positive) (ex ex' : Z) :
  snd (shl_align mx ex ex') = Z.min ex ex'.
Proof.
  unfold shl_align. destruct (ex' - ex) as [|d|d] eqn:E; cbn [snd]; lia.
Qed.

Lemma Qval_pos (m e : Z) : 0 < m -> (0 < Qval m e)%Q.
Proof.
  intros H. unfold Qval. apply Qmult_lt_0_compat; [|apply pow2_pos].
  change 0%Q with (inject_Z 0). rewrite <- Zlt_Qlt. exact H.
Qed.

Lemma SF2Q_finite_pos (m : positive) (e : Z) :
  (SF2Q (S754_finite false m e) == Qval (Zpos m) e)%Q.
Proof. unfold Qval. cbn [SF2Q]. ring. Qed.

Lemma SF2Q_finite_neg (m : positive) (e : Z) :
  (SF2Q (S754_finite true m e) == - Qval (Zpos m) e)%Q.
Proof. unfold Qval. cbn [SF2Q]. ring. Qed.

(** A finite float with a positive value is a positive mantissa with an
    exponent. *)
Lemma finite_positive_inv (x : float) :
  is_finite x = true -> (0 < SF2Q x)%Q ->
  exists m e, x = S754_finite false m e.
Proof.
  destruct x as [s|s| |[|] m e]; cbn [is_finite]; intros Hfin Hpos;
    try discriminate; try (cbn in Hpos; discriminate).
  - rewrite SF2Q_finite_neg in Hpos.
    pose proof (Qval_pos (Zpos m) e ltac:(lia)). lra.
  - eauto.
Qed.

Lemma Qval_0 (n : Z) : (Qval n 0 == inject_Z n)%Q.
Proof. unfold Qval. change (2 ^ 0)%Q with 1%Q. ring. Qed.

(** [float(n)] for a positive [n] is a positive float within a relative
    distance of [2 ^ -52] of [n], and at most [2 ^ 1024]. *)
Lemma float_of_int_error (n : Z) (x : float) :
  0 < n -> float_of_int n = Ok x ->
  (exists m e, x = S754_finite false m e)
  /\ (Qabs (SF2Q x - inject_Z n) <= inject_Z n * 2 ^ (-52))%Q
  /\ (SF2Q x <= 2 ^ 1024)%Q.
Proof.
  intros Hn. destruct n as [|p|p]; try lia. unfold float_of_int.
  cbn [binary_normalize]. unfold binary_round.
  pose proof (shl_align_value p 0 (fexp prec emax (Zpos (digits2_pos p) + 0))) as Hv.
  pose proof (shl_align_exp p 0 (fexp prec emax (Zpos (digits2_pos p) + 0))) as He.
  destruct (shl_align p 0 _) as [mz ez]. cbn [fst snd] in Hv, He.
  rename Hv into Hv'. rewrite Qval_0 in Hv'.
  rewrite fexp_eq in He.
  assert (Hone : (1 <= inject_Z (Zpos p))%Q).
  { change 1%Q with (inject_Z 1). rewrite <- Zle_Qle. lia. }
  assert (Hu : (0 < 2 ^ (-52))%Q) by apply pow2_pos.
  assert (HB : (2 ^ round_exp (Zpos mz) ez <= inject_Z (Zpos p) * 2 ^ (-52))%Q).
  { apply (pow2_round_exp_le (Zpos mz) ez (inject_Z (Zpos p))); try lia.
    - rewrite Hv'. apply Qle_refl.
    - destruct (digits2_pos_bounds p) as [Hlo _].
      apply Qle_trans with (2 ^ (Zpos (digits2_pos p) - 53))%Q;
        [apply pow2_le; lia|].
      replace (Zpos (digits2_pos p) - 53) with (Zpos (digits2_pos p) - 1 + -52)
        by lia.
      rewrite pow2_add. apply Qmult_le_compat_r; [|lra].
      rewrite <- pow2_inject by lia. rewrite <- Zle_Qle. exact Hlo.
    - apply Qle_trans with (1 * 2 ^ (-52))%Q.
      + rewrite Qmult_1_l. apply pow2_le. lia.
      + apply Qmult_le_compat_r; lra.
    - apply Qle_refl. }
  pose proof (binary_round_aux_bounded (Zpos mz) ez loc_Exact ltac:(lia)) as Hmax.
  destruct (binary_round_aux_error (Zpos mz) ez loc_Exact (inject_Z (Zpos p)))
    as [[Hfin [Hpos Herr]]|[Hinf _]]; try lia.
  - rewrite Hv'. apply Qle_refl.
  - rewrite Qval_succ, Hv'. pose proof (pow2_pos ez). lra.
  - set (r := binary_round_aux prec emax false (Zpos mz) ez loc_Exact) in *.
    assert (Herr' : (Qabs (SF2Q r - inject_Z (Zpos p))
                     <= inject_Z (Zpos p) * 2 ^ (-52))%Q)
      by (eapply Qle_trans; eassumption).
    assert (Hxpos : (0 < SF2Q r)%Q).
    { apply Qabs_Qle_condition in Herr'.
      assert ((2 ^ (-52) <= 1 # 2)%Q) by (intros H; discriminate H).
      nra. }
    destruct (finite_positive_inv r Hfin Hxpos) as [m [e Hr]].
    rewrite Hr. intros [= <-]. rewrite <- Hr.
    split; [eauto|]. split; [exact Herr' | exact (Hmax Hfin)].
  - rewrite Hinf. discriminate.
Qed.

(** ** Division *)

Lemma pow2_lt_inv (a b : Z) : (2 ^ a < 2 ^ b)%Q -> a < b.
Proof.
  intros H. destruct (Z.lt_ge_cases a b) as [Hlt|Hge]; [exact Hlt|].
  pose proof (pow2_le b a Hge). lra.
Qed.

Lemma Qval_mul (a b e f : Z) : (Qval a e * Qval b f == Qval (a * b) (e + f))%Q.
Proof. unfold Qval. rewrite inject_Z_mult, pow2_add. ring. Qed.

Lemma Qval_lt (a b e : Z) : a < b -> (Qval a e < Qval b e)%Q.
Proof.
  intros H. unfold Qval. apply Qmult_lt_compat_r; [apply pow2_pos|].
  rewrite <- Zlt_Qlt. exact H.
Qed.

Lemma Qval_lt_inv (a b e : Z) : (Qval a e < Qval b e)%Q -> a < b.
Proof.
  intros H. destruct (Z.lt_ge_cases a b) as [Hlt|Hge]; [exact Hlt|].
  pose proof (Qval_le b a e Hge). lra.
Qed.

Lemma Qval_pow2 (k e : Z) : 0 <= k -> (Qval (2 ^ k) e == 2 ^ (k + e))%Q.
Proof. intros Hk. unfold Qval. rewrite pow2_inject, pow2_add by exact Hk. reflexivity. Qed.

(** The bounds of a positive mantissa at an exponent, as powers of two. *)
Lemma Qval_digits (m : positive) (e : Z) :
  (2 ^ (Zdigits2 (Zpos m) - 1 + e) <= Qval (Zpos m) e)%Q
  /\ (Qval (Zpos m) e < 2 ^ (Zdigits2 (Zpos m) + e))%Q.
Proof.
  destruct (Zdigits2_bounds (Zpos m) ltac:(lia)) as [Hlo Hhi].
  pose proof (Zdigits2_pos (Zpos m) ltac:(lia)) as Hd.
  split.
  - rewrite <- Qval_pow2 by lia. apply Qval_le. exact Hlo.
  - rewrite <- Qval_pow2 by lia. apply Qval_lt. exact Hhi.
Qed.

(** The quotient that [SFdiv_core_binary] computes brackets the quotient of
    the values, and its exponent is at most the one the format gives to
    the quotient. *)
Lemma SFdiv_core_bracket (mx my : positive) (ex ey : Z) :
  let '(q, e', _) := SFdiv_core_binary prec emax (Zpos mx) ex (Zpos my) ey in
  0 <= q
  /\ (Qval q e' * Qval (Zpos my) ey <= Qval (Zpos mx) ex)%Q
  /\ (Qval (Zpos mx) ex < Qval (q + 1) e' * Qval (Zpos my) ey)%Q
  /\ e' <= fexp prec emax (Zdigits2 (Zpos mx) + ex - (Zdigits2 (Zpos my) + ey)).
Proof.
  unfold SFdiv_core_binary.
  set (e' := Z.min (fexp prec emax (Zdigits2 (Zpos mx) + ex - (Zdigits2 (Zpos my) + ey)))
               (ex - ey)).
  set (s := ex - ey - e').
  assert (Hs : 0 <= s) by (unfold s, e'; lia).
  set (m' := match s with
             | 0 => Zpos mx
             | Zpos _ => Z.shiftl (Zpos mx) s
             | Zneg _ => 0
             end).
  assert (Hm' : m' = Zpos mx * 2 ^ s).
  { unfold m'. destruct s as [|p|p]; try lia.
    apply Z.shiftl_mul_pow2. lia. }
  pose proof (Z_div_mod m' (Zpos my) ltac:(lia)) as Hdiv.
  destruct (Z.div_eucl m' (Zpos my)) as [q r]. destruct Hdiv as [Hqr Hr].
  assert (Hp : 0 < 2 ^ s) by (apply Z.pow_pos_nonneg; lia).
  assert (Hq : 0 <= q) by nia.
  assert (Hx : (Qval (Zpos mx) ex == Qval m' (e' + ey))%Q).
  { rewrite Hm', <- Qval_shift by exact Hs.
    replace (e' + ey + s) with ex by (unfold s; lia). reflexivity. }
  split; [exact Hq|]. split; [|split].
  - rewrite Qval_mul, Hx. apply Qval_le. lia.
  - rewrite Qval_mul, Hx. apply Qval_lt. lia.
  - unfold e'. lia.
Qed.

(** The division of two positive floats: the result is within one unit of
    the rounding exponent of the quotient of the values, unless that
    quotient is in the range of overflow. *)
Lemma SFdiv_error (mx my : positive) (ex ey : Z) :
  let v := (Qval (Zpos mx) ex / Qval (Zpos my) ey)%Q in
  let r := SFdiv prec emax (S754_finite false mx ex) (S754_finite false my ey) in
  (is_finite r = true /\ (0 <= SF2Q r)%Q
   /\ (Qabs (SF2Q r - v) <= v * 2 ^ (-52) + 2 ^ (-1074))%Q)
  \/ (r = S754_infinity false /\ (2 ^ 1023 <= v)%Q).
Proof.
  intros v r. subst r. cbn [SFdiv xorb].
  pose proof (SFdiv_core_bracket mx my ex ey) as H.
  destruct (SFdiv_core_binary prec emax (Zpos mx) ex (Zpos my) ey) as [[q e'] l].
  destruct H as [Hq [Hlo [Hhi He']]].
  pose proof (Qval_pos (Zpos my) ey ltac:(lia)) as HY.
  assert (Hvlo : (Qval q e' <= v)%Q) by (apply Qle_shift_div_l; assumption).
  assert (Hvhi : (v <= Qval (q + 1) e')%Q)
    by (apply Qle_shift_div_r; [exact HY | apply Qlt_le_weak; exact Hhi]).
  set (D := Zdigits2 (Zpos mx) + ex - (Zdigits2 (Zpos my) + ey)) in *.
  assert (HD : (2 ^ (D - 1) <= v)%Q).
  { apply Qle_shift_div_l; [exact HY|].
    destruct (Qval_digits mx ex) as [Hxlo _].
    destruct (Qval_digits my ey) as [_ Hyhi].
    apply Qle_trans with (2 ^ (D - 1) * 2 ^ (Zdigits2 (Zpos my) + ey))%Q.
    - apply Qmult_le_l; [apply pow2_pos | apply Qlt_le_weak; exact Hyhi].
    - rewrite <- pow2_add.
      replace (D - 1 + (Zdigits2 (Zpos my) + ey))
        with (Zdigits2 (Zpos mx) - 1 + ex) by (unfold D; lia).
      exact Hxlo. }
  assert (Hv0 : (0 < v)%Q) by (pose proof (pow2_pos (D - 1)); lra).
  pose proof (pow2_pos (-52)) as Hu. pose proof (pow2_pos (-1074)) as Hmin.
  assert (Hrel : (2 ^ (D - 53) <= v * 2 ^ (-52))%Q).
  { replace (D - 53) with (D - 1 + -52) by lia. rewrite pow2_add.
    apply Qmult_le_compat_r; [exact HD | lra]. }
  assert (Hvu : (0 <= v * 2 ^ (-52))%Q) by (apply Qmult_le_0_compat; lra).
  destruct (binary_round_aux_error q e' l v Hq Hvlo Hvhi)
    as [[Hfin [Hpos Herr]]|[Hinf Hexp]].
  - left. split; [exact Hfin|]. split; [exact Hpos|].
    eapply Qle_trans; [exact Herr|].
    apply (pow2_round_exp_le q e' v); try assumption; try lra.
    rewrite fexp_eq in He'.
    destruct (Z.le_ge_cases (D - 53) (-1074)) as [Hc|Hc].
    + pose proof (pow2_le e' (-1074) ltac:(lia)). lra.
    + pose proof (pow2_le e' (D - 53) ltac:(lia)). lra.
  - right. split; [exact Hinf|].
    destruct (Z.lt_ge_cases e' 971) as [Hlt|Hge].
    + apply (round_exp_overflow q e' v); assumption.
    + rewrite fexp_eq in He'.
      apply Qle_trans with (2 ^ (D - 1))%Q; [apply pow2_le; lia | exact HD].
Qed.

(** ** Proportions *)

Lemma pow2_m52 : (2 ^ (-52) == 1 # 4503599627370496)%Q.
Proof. reflexivity. Qed.

Lemma pow2_m48 : (2 ^ (-48) == 1 # 281474976710656)%Q.
Proof. reflexivity. Qed.

Lemma pow2_tiny_big : (2 ^ (-1074) * 2 ^ 1024 == 1 # 1125899906842624)%Q.
Proof. rewrite <- pow2_add. reflexivity. Qed.

Lemma pow2_1023_ge : (2 <= 2 ^ 1023)%Q.
Proof. change 2%Q with (2 ^ 1)%Q at 1. apply pow2_le. lia. Qed.

(** The proportion [float(c) / float(n)] of a count [c] among [n]
    responses is a finite float within a relative distance of [2 ^ -48] of
    [c / n]. *)
Lemma prop_error (c n : Z) (x y p : float) :
  1 <= c <= n ->
  float_of_int c = Ok x -> float_of_int n = Ok y -> truediv x y = Ok p ->
  is_finite p = true
  /\ (Qabs (SF2Q p - inject_Z c / inject_Z n)
      <= inject_Z c / inject_Z n * 2 ^ (-48))%Q.
Proof.
  intros Hcn Hx Hy Hp.
  destruct (float_of_int_error c x ltac:(lia) Hx) as [[mx [ex ->]] [HX _]].
  destruct (float_of_int_error n y ltac:(lia) Hy) as [[my [ey ->]] [HY HYmax]].
  cbn [truediv] in Hp. injection Hp as <-.
  pose proof (SFdiv_error mx my ex ey) as Hdiv. cbv zeta in Hdiv.
  rewrite <- !SF2Q_finite_pos in Hdiv.
  set (X := SF2Q (S754_finite false mx ex)) in *.
  set (Y := SF2Q (S754_finite false my ey)) in *.
  set (P := SF2Q (SFdiv prec emax (S754_finite false mx ex)
                    (S754_finite false my ey))) in *.
  assert (Hc1 : (1 <= inject_Z c)%Q)
    by (change 1%Q with (inject_Z 1); rewrite <- Zle_Qle; lia).
  assert (Hcn' : (inject_Z c <= inject_Z n)%Q) by (rewrite <- Zle_Qle; lia).
  set (cq := inject_Z c) in *. set (nq := inject_Z n) in *.
  rewrite pow2_m52 in HX, HY, Hdiv. rewrite pow2_m48.
  apply Qabs_Qle_condition in HX, HY.
  pose proof pow2_tiny_big as Htb. pose proof pow2_1023_ge as H1023.
  pose proof (pow2_pos (-1074)) as Htiny.
  remember (2 ^ (-1074))%Q as tiny eqn:Etiny. clear Etiny.
  remember (2 ^ 1024)%Q as big eqn:Ebig. clear Ebig.
  remember (2 ^ 1023)%Q as big' eqn:Ebig'. clear Ebig'.
  set (w := (cq / nq)%Q).
  assert (Hw : (w * nq == cq)%Q) by (unfold w; field; lra).
  assert (Hw0 : (0 < w)%Q) by (unfold w; apply Qlt_shift_div_l; lra).
  assert (HY0 : (0 < Y)%Q) by nra.
  set (v := (X / Y)%Q) in *.
  assert (Hv : (v * Y == X)%Q) by (unfold v; field; lra).
  assert (Hvhi : (v <= w * (1 + (3 # 4503599627370496)))%Q).
  { unfold v. apply Qle_shift_div_r; [exact HY0|]. nra. }
  assert (Hvlo : (w * (1 - (2 # 4503599627370496)) <= v)%Q).
  { unfold v. apply Qle_shift_div_l; [exact HY0|]. nra. }
  assert (Htw : (tiny <= w * (1 # 562949953421312))%Q).
  { assert (Hnq : (nq <= 2 * big)%Q) by nra.
    assert (H1 : (tiny * nq <= cq * (1 # 562949953421312))%Q) by nra.
    rewrite <- Hw in H1.
    apply Qmult_le_r with (z := nq); [lra|]. lra. }
  destruct Hdiv as [[Hfin [_ Herr]]|[_ Hinf]].
  - split; [exact Hfin|]. apply Qabs_Qle_condition in Herr.
    assert (Hgoal : (Qabs (P - w) <= w * (1 # 281474976710656))%Q)
      by (apply Qabs_Qle_condition; lra).
    exact Hgoal.
  - exfalso. assert (w <= 1)%Q by (unfold w; apply Qle_shift_div_r; lra). lra.
Qed.

(** ** Quotients below one *)

(** The quotient of two positive floats, the first with the smaller value,
    is a finite float between zero and one. *)
Lemma SFdiv_lt_one (mx my : positive) (ex ey : Z) :
  (Qval (Zpos mx) ex < Qval (Zpos my) ey)%Q ->
  let r := SFdiv prec emax (S754_finite false mx ex) (S754_finite false my ey) in
  is_finite r = true /\ (0 <= SF2Q r <= 1)%Q.
Proof.
  intros Hlt r. subst r. cbn [SFdiv xorb].
  pose proof (SFdiv_core_bracket mx my ex ey) as H.
  destruct (SFdiv_core_binary prec emax (Zpos mx) ex (Zpos my) ey) as [[q e'] l].
  destruct H as [Hq [Hlo [_ He']]].
  pose proof (Qval_pos (Zpos my) ey ltac:(lia)) as HY.
  assert (Hq1 : (Qval q e' < 1)%Q).
  { apply Qmult_lt_r with (z := Qval (Zpos my) ey); [exact HY|]. lra. }
  set (D := Zdigits2 (Zpos mx) + ex - (Zdigits2 (Zpos my) + ey)) in *.
  assert (HD : D <= 0).
  { destruct (Qval_digits mx ex) as [Hxlo _].
    destruct (Qval_digits my ey) as [_ Hyhi].
    assert (Hpow : (2 ^ (Zdigits2 (Zpos mx) - 1 + ex)
                    < 2 ^ (Zdigits2 (Zpos my) + ey))%Q) by lra.
    apply pow2_lt_inv in Hpow. unfold D. lia. }
  assert (He1 : round_exp q e' <= 0).
  { rewrite fexp_eq in He'.
    destruct (round_exp_cases q e' Hq) as [-> | [-> | [Hpos ->]]]; try lia.
    destruct q as [|pq|pq]; try lia.
    destruct (Qval_digits pq e') as [Hqlo _].
    assert (Hpow : (2 ^ (Zdigits2 (Zpos pq) - 1 + e') < 2 ^ 0)%Q)
      by (change (2 ^ 0)%Q with 1%Q; lra).
    apply pow2_lt_inv in Hpow. lia. }
  destruct (round_bracket q e' Hq) as [Hm1 _].
  pose proof (round_mant_nonneg q e' Hq) as Hm10.
  assert (Hone : (Qval (2 ^ (- round_exp q e')) (round_exp q e') == 1)%Q).
  { rewrite Qval_pow2 by lia.
    replace (- round_exp q e' + round_exp q e') with 0 by lia. reflexivity. }
  assert (Hm1lt : round_mant q e' < 2 ^ (- round_exp q e')).
  { apply (Qval_lt_inv _ _ (round_exp q e')). rewrite Hone. lra. }
  destruct (binary_round_aux_value q e' l Hq) as [m2 [Hm2 [[Hfin Hval]|[_ Hinf]]]];
    [|lia].
  split; [exact Hfin|]. rewrite Hval. split.
  - apply Qval_nonneg. lia.
  - rewrite <- Hone. apply Qval_le. lia.
Qed.

Lemma Qval_inj (a b e : Z) : (Qval a e == Qval b e)%Q -> a = b.
Proof.
  intros H. destruct (Z.lt_total a b) as [Hlt|[Heq|Hgt]]; [|exact Heq|].
  - pose proof (Qval_lt a b e Hlt). lra.
  - pose proof (Qval_lt b a e Hgt). lra.
Qed.

(** The float of value 100 is [float_hundred]. *)
Lemma valid_hundred (m : positive) (e : Z) :
  valid_binary prec emax (S754_finite false m e) = true ->
  (Qval (Zpos m) e == 100)%Q ->
  S754_finite false m e = float_hundred.
Proof.
  cbn [valid_binary]. unfold bounded, canonical_mantissa.
  intros Hvalid Hval. apply andb_true_iff in Hvalid. destruct Hvalid as [Hcan _].
  apply Z.eqb_eq in Hcan. rewrite fexp_eq in Hcan.
  destruct (Qval_digits m e) as [Hlo Hhi]. cbn [Zdigits2] in Hlo, Hhi.
  assert (H7 : Zpos (digits2_pos m) + e = 7).
  { assert (H1 : (2 ^ (Zpos (digits2_pos m) - 1 + e) < 2 ^ 7)%Q).
    { eapply Qle_lt_trans; [exact Hlo|]. rewrite Hval. reflexivity. }
    assert (H2 : (2 ^ 6 < 2 ^ (Zpos (digits2_pos m) + e))%Q).
    { eapply Qlt_trans; [|exact Hhi]. rewrite Hval. reflexivity. }
    apply pow2_lt_inv in H1, H2. lia. }
  assert (He : e = -46) by lia. subst e.
  assert (Hm : Zpos m = 7036874417766400).
  { apply (Qval_inj _ _ (-46)). rewrite Hval. reflexivity. }
  injection Hm as ->. reflexivity.
Qed.

(** A percentage between 0 and 100 divided by 100 is between 0 and 1. *)
Lemma percentage_rate (pct : float) :
  valid_binary prec emax pct = true ->
  is_finite pct = true ->
  (0 <= SF2Q pct <= 100)%Q ->
  exists rate,
    truediv pct float_hundred = Ok rate
    /\ is_finite rate = true /\ (0 <= SF2Q rate <= 1)%Q.
Proof.
  intros Hvalid Hfin [H0 H100].
  exists (SFdiv prec emax pct float_hundred). split; [reflexivity|].
  destruct pct as [s|s| |[|] m e]; try discriminate.
  - split; [reflexivity|]. cbn. split; discriminate.
  - rewrite SF2Q_finite_neg in H0.
    pose proof (Qval_pos (Zpos m) e ltac:(lia)). lra.
  - rewrite SF2Q_finite_pos in H100.
    destruct (Qle_lt_or_eq _ _ H100) as [Hlt|Heq].
    + apply SFdiv_lt_one. eapply Qlt_le_trans; [exact Hlt|].
      intros H; discriminate H.
    + rewrite (valid_hundred m e Hvalid Heq). split; [reflexivity|].
      split; intros H; discriminate H.
Qed.

(** ** What the counting loop keeps true *)

Lemma dict_keys_set {V : Type} (d : dict V) (k : string) (v : V) :
  dict_keys (dict_set d k v)
  = if dict_mem d k then dict_keys d else dict_keys d ++ [k].
Proof.
  unfold dict_mem, dict_keys. induction d as [|[k' v'] d IH]; simpl; [reflexivity|].
  destruct (String.eqb k' k) eqn:E; simpl; [reflexivity|].
  rewrite IH. destruct (dict_get d k); reflexivity.
Qed.

Lemma dict_get_In {V : Type} (d : dict V) (k : string) (v : V) :
  dict_get d k = Some v -> In (k, v) d.
Proof.
  induction d as [|[k' v'] d IH]; simpl; [discriminate|].
  destruct (String.eqb_spec k' k) as [->|Hne].
  - intros [= ->]. left; reflexivity.
  - intros H. right. apply IH; exact H.
Qed.

Lemma dict_get_None_keys {V : Type} (d : dict V) (k : string) :
  dict_get d k = None -> ~ In k (dict_keys d).
Proof.
  unfold dict_keys. induction d as [|[k' v'] d IH]; simpl; [tauto|].
  destruct (String.eqb_spec k' k) as [->|Hne]; [discriminate|].
  intros H [E|Hin]; [congruence | exact (IH H Hin)].
Qed.

Lemma dict_set_NoDup {V : Type} (d : dict V) (k : string) (v : V) :
  NoDup (dict_keys d) -> NoDup (dict_keys (dict_set d k v)).
Proof.
  intros Hd. rewrite dict_keys_set. unfold dict_mem.
  destruct (dict_get d k) eqn:E; [exact Hd|].
  apply NoDup_app; [exact Hd | repeat constructor; simpl; tauto|].
  intros x Hx [Ex|[]]. subst x. exact (dict_get_None_keys d k E Hx).
Qed.

Lemma dict_sum_set (d : dict Z) (k : string) (v : Z) :
  dict_sum (dict_set d k v)
  = dict_sum d - match dict_get d k with Some n => n | None => 0 end + v.
Proof.
  unfold dict_sum. induction d as [|[k' v'] d IH]; simpl; [lia|].
  destruct (String.eqb k' k); simpl; [lia|]. rewrite IH. lia.
Qed.

Lemma dict_set_Forall {V : Type} (P : string * V -> Prop) (d : dict V)
    (k : string) (v : V) :
  Forall P d -> (forall k', P (k', v)) -> Forall P (dict_set d k v).
Proof.
  intros Hd Hv. induction Hd as [|[k' v'] d Hkv Hd IH]; simpl.
  - constructor; [apply Hv | constructor].
  - destruct (String.eqb k' k); constructor; auto.
Qed.

Lemma counts_ok_initial : counts_ok (mkCounts [] []).
Proof. split; [constructor | intros q; reflexivity]. Qed.

Lemma count_update_ok (st st' : counts) (q a : string) :
  counts_ok st -> count_update st q a = Ok st' -> counts_ok st'.
Proof.
  intros [Hkeys Hq] E. pose proof (count_update_N st st' q a E) as HN.
  unfold count_update in E.
  set (poll1 := if negb (dict_mem (poll st) q)
                then dict_set (poll st) q [] else poll st) in E.
  assert (Hkeys1 : NoDup (dict_keys poll1)).
  { subst poll1. destruct (dict_mem (poll st) q); simpl;
      [exact Hkeys | apply dict_set_NoDup; exact Hkeys]. }
  assert (Hget1 : forall q', q' <> q -> dict_get poll1 q' = dict_get (poll st) q').
  { intros q' Hne. subst poll1. destruct (dict_mem (poll st) q); simpl;
      [reflexivity | apply dict_get_set_other; exact Hne]. }
  assert (Hq1 : exists answers,
             dict_get poll1 q = Some answers
             /\ NoDup (dict_keys answers)
             /\ Forall (fun kv => 1 <= snd kv) answers
             /\ bump (dict_get (N st) q) 1 = Some (dict_sum answers + 1)).
  { subst poll1. specialize (Hq q).
    destruct (dict_mem (poll st) q) eqn:Em; simpl.
    - destruct (dict_mem_true _ _ Em) as [answers Ha]. rewrite Ha in Hq.
      destruct Hq as [H1 [H2 H3]]. exists answers. rewrite H3. auto.
    - rewrite (dict_mem_false _ _ Em) in Hq. rewrite dict_get_set_same.
      exists []. rewrite Hq. repeat split; constructor. }
  destruct Hq1 as [answers [Ha [Hnd [Hpos Hsum]]]].
  unfold dict_getitem in E. rewrite Ha in E. cbn [of_option bind] in E.
  assert (Hanswers' : exists answers',
             (if negb (dict_mem answers a)
              then Ok (dict_set answers a 1)
              else n <- of_option (dict_get answers a) (KeyError a) ;;
                   Ok (dict_set answers a (n + 1))) = Ok answers'
             /\ NoDup (dict_keys answers')
             /\ Forall (fun kv => 1 <= snd kv) answers'
             /\ dict_sum answers' = dict_sum answers + 1).
  { destruct (dict_mem answers a) eqn:Em; simpl.
    - destruct (dict_mem_true _ _ Em) as [n Hn]. rewrite Hn. simpl.
      eexists. split; [reflexivity|].
      assert (1 <= n).
      { apply dict_get_In in Hn. rewrite Forall_forall in Hpos.
        apply (Hpos (a, n) Hn). }
      split; [apply dict_set_NoDup; exact Hnd|].
      split; [apply dict_set_Forall; [exact Hpos | simpl; lia]|].
      rewrite dict_sum_set, Hn. lia.
    - eexists. split; [reflexivity|].
      split; [apply dict_set_NoDup; exact Hnd|].
      split; [apply dict_set_Forall; [exact Hpos | simpl; lia]|].
      rewrite dict_sum_set, (dict_mem_false _ _ Em). lia. }
  destruct Hanswers' as [answers' [Ea' [Hnd' [Hpos' Hsum']]]].
  rewrite Ea' in E. cbn [bind] in E.
  bind_inv E. injection E as <-. cbn [poll N] in *.
  split; [apply dict_set_NoDup; exact Hkeys1|].
  intros q'. specialize (HN q'). specialize (Hq q'). cbn [poll N].
  destruct (String.eqb_spec q' q) as [->|Hne].
  - rewrite dict_get_set_same, HN, Hsum, Hsum'. auto.
  - rewrite dict_get_set_other, Hget1 by exact Hne.
    destruct (dict_get (poll st) q'); rewrite HN; exact Hq.
Qed.

Lemma count_pairs_ok (pairs : list (string * string)) (st st' : counts) :
  counts_ok st -> count_pairs st pairs = Ok st' -> counts_ok st'.
Proof.
  unfold count_pairs. revert st.
  induction pairs as [|[q a] pairs IH]; intros st Hok; simpl.
  - intros [= <-]. exact Hok.
  - destruct (count_update st q a) as [st1|e] eqn:E; simpl; [|discriminate].
    apply IH. eapply count_update_ok; eassumption.
Qed.

(** ** The table of counts *)

Lemma for_each_append_results {A B : Type} (f : A -> result B) (l : list A)
    (acc : list B) :
  for_each (fun acc x => r <- f x ;; Ok (acc ++ [r])) l acc
  = (rs <- map_result f l ;; Ok (acc ++ rs)).
Proof.
  revert acc. induction l as [|x l IH]; intros acc; simpl.
  - rewrite app_nil_r. reflexivity.
  - destruct (f x) as [r|e]; simpl; [|reflexivity].
    rewrite IH. destruct (map_result f l) as [rs|e]; simpl; [|reflexivity].
    rewrite <- app_assoc. reflexivity.
Qed.

Lemma map_result_Forall2 {A B : Type} (f : A -> result B) (l : list A) (r : list B) :
  map_result f l = Ok r -> Forall2 (fun x y => f x = Ok y) l r.
Proof.
  revert r. induction l as [|x l IH]; intros r; simpl.
  - intros [= <-]. constructor.
  - destruct (f x) as [y|e] eqn:E; simpl; [|discriminate].
    destruct (map_result f l) as [ys|e]; simpl; [|discriminate].
    intros [= <-]. constructor; [exact E | apply IH; reflexivity].
Qed.

Lemma dict_get_NoDup_In {V : Type} (d : dict V) (k : string) (v : V) :
  NoDup (dict_keys d) -> In (k, v) d -> dict_get d k = Some v.
Proof.
  unfold dict_keys. induction d as [|[k' v'] d IH]; simpl; [tauto|].
  intros Hnd [[= -> ->]|Hin].
  - rewrite String.eqb_refl. reflexivity.
  - inversion Hnd as [|? ? Hk' Hd]; subst.
    destruct (String.eqb_spec k' k) as [->|Hne]; [|apply IH; assumption].
    exfalso. apply Hk'. apply (in_map fst) in Hin. exact Hin.
Qed.

Lemma polltable_row_for (meeting_id : string) (st : counts) (q : string)
    (answers : dict Z) (kv : string * Z) (r : PollAnswerCount) :
  dict_get (poll st) q = Some answers ->
  dict_get (N st) q = Some (dict_sum answers) ->
  dict_get answers (fst kv) = Some (snd kv) ->
  polltable_row meeting_id st q (fst kv) = Ok r ->
  row_for meeting_id q (dict_sum answers) kv r.
Proof.
  intros Hq HN Ha. unfold polltable_row, dict_getitem.
  rewrite Hq, HN. cbn [of_option bind]. rewrite Ha. cbn [of_option bind].
  intros E. bind_inv E. injection E as <-. unfold row_for. cbn.
  repeat split; eauto.
Qed.

Lemma polltable_rows_for (meeting_id : string) (st : counts) (q : string)
    (answers l : dict Z) (block : list PollAnswerCount) :
  dict_get (poll st) q = Some answers ->
  dict_get (N st) q = Some (dict_sum answers) ->
  (forall kv, In kv l -> dict_get answers (fst kv) = Some (snd kv)) ->
  Forall2 (fun a r => polltable_row meeting_id st q a = Ok r) (map fst l) block ->
  Forall2 (row_for meeting_id q (dict_sum answers)) l block.
Proof.
  intros Hq HN. revert block.
  induction l as [|kv l IH]; intros block Hin E; simpl in E.
  - inversion E; subst. constructor.
  - inversion E as [|? r ? rs Hr Hrs]; subst. constructor.
    + eapply polltable_row_for; eauto. apply Hin. left; reflexivity.
    + apply IH; auto. intros kv' Hkv'. apply Hin. right; exact Hkv'.
Qed.

Lemma polltable_block (meeting_id : string) (st : counts) (q : string)
    (answers : dict Z) (block : list PollAnswerCount) :
  counts_ok st ->
  dict_get (poll st) q = Some answers ->
  map_result (polltable_row meeting_id st q) (dict_keys answers) = Ok block ->
  block_for meeting_id (q, answers) block.
Proof.
  intros [_ Hok] Hq E. specialize (Hok q). rewrite Hq in Hok.
  destruct Hok as [Hnd [_ HN]].
  apply map_result_Forall2 in E. unfold dict_keys in E.
  unfold block_for. cbn [fst snd].
  apply (polltable_rows_for meeting_id st q answers answers); auto.
  intros [a c] Hkv. apply dict_get_NoDup_In; assumption.
Qed.

Lemma polltable_blocks_from (meeting_id : string) (st : counts)
    (l : dict (dict Z)) (acc t : list PollAnswerCount) :
  counts_ok st ->
  (forall qa, In qa l -> dict_get (poll st) (fst qa) = Some (snd qa)) ->
  for_each
    (fun polltable q =>
       answers <- dict_getitem (poll st) q ;;
       for_each
         (fun polltable a =>
            r <- polltable_row meeting_id st q a ;;
            Ok (polltable ++ [r]))
         (dict_keys answers) polltable)
    (dict_keys l) acc = Ok t ->
  exists blocks,
    t = acc ++ List.concat blocks /\ Forall2 (block_for meeting_id) l blocks.
Proof.
  intros Hok. revert acc.
  induction l as [|[q answers] l IH]; intros acc Hin; simpl.
  - intros [= <-]. exists []. rewrite app_nil_r. split; constructor.
  - unfold dict_getitem at 1.
    pose proof (Hin (q, answers) (or_introl eq_refl)) as Hq. cbn [fst snd] in Hq.
    rewrite Hq. cbn [of_option bind].
    rewrite for_each_append_results.
    destruct (map_result _ (dict_keys answers)) as [block|e] eqn:E;
      cbn [bind]; [|discriminate].
    intros Ht. destruct (IH (acc ++ block)) with (2 := Ht) as [blocks [-> HF]].
    { intros qa Hqa. apply Hin. right; exact Hqa. }
    exists (block :: blocks). split; [simpl; symmetry; apply app_assoc|].
    constructor; [|exact HF].
    eapply polltable_block; eauto.
Qed.

Lemma polltable_of_blocks (meeting_id : string) (st : counts)
    (t : list PollAnswerCount) :
  counts_ok st -> polltable_of meeting_id st = Ok t ->
  exists blocks,
    t = List.concat blocks /\ Forall2 (block_for meeting_id) (poll st) blocks.
Proof.
  intros Hok Ht.
  apply (polltable_blocks_from meeting_id st (poll st) [] t Hok); [|exact Ht].
  intros [q answers] Hin. apply dict_get_NoDup_In; [apply Hok | exact Hin].
Qed.

(** ** The rows of one question *)

Lemma filter_all {A : Type} (p : A -> bool) (l : list A) :
  Forall (fun x => p x = true) l -> filter p l = l.
Proof.
  induction 1 as [|x l Hx _ IH]; simpl; [reflexivity|].
  rewrite Hx, IH. reflexivity.
Qed.

Lemma filter_none {A : Type} (p : A -> bool) (l : list A) :
  Forall (fun x => p x = false) l -> filter p l = [].
Proof.
  induction 1 as [|x l Hx _ IH]; simpl; [reflexivity|].
  rewrite Hx, IH. reflexivity.
Qed.

Lemma block_rows (meeting_id : string) (qa : string * dict Z)
    (block : list PollAnswerCount) :
  block_for meeting_id qa block ->
  Forall (fun r => pc_meeting_id r = meeting_id /\ pc_question r = fst qa) block.
Proof.
  unfold block_for. induction 1 as [|kv r l rs Hr _ IH]; constructor; [|exact IH].
  destruct Hr as [H1 [H2 _]]. auto.
Qed.

Lemma question_rows_other (meeting_id : string) (d : dict (dict Z))
    (blocks : list (list PollAnswerCount)) (m q : string) :
  Forall2 (block_for meeting_id) d blocks ->
  ~ In q (dict_keys d) ->
  question_rows (List.concat blocks) m q = [].
Proof.
  unfold question_rows.
  induction 1 as [|qa block d blocks Hb _ IH]; intros Hq; simpl; [reflexivity|].
  rewrite filter_app, IH by (intros Hin; apply Hq; right; exact Hin).
  rewrite app_nil_r. apply filter_none.
  eapply Forall_impl; [|apply (block_rows _ _ _ Hb)].
  intros r [_ Hr]. rewrite Hr.
  destruct (String.eqb_spec (fst qa) q) as [E|_]; [|apply andb_false_r].
  exfalso. apply Hq. left. exact E.
Qed.

(** The rows of a table for its meeting and one of its questions are the
    block of that question. *)
Lemma question_rows_block (meeting_id : string) (d : dict (dict Z))
    (blocks : list (list PollAnswerCount)) (qa : string * dict Z)
    (block : list PollAnswerCount) :
  Forall2 (block_for meeting_id) d blocks ->
  NoDup (dict_keys d) ->
  In (qa, block) (combine d blocks) ->
  question_rows (List.concat blocks) meeting_id (fst qa) = block.
Proof.
  induction 1 as [|qa0 block0 d blocks Hb HF IH]; intros Hnd Hin; simpl in *;
    [tauto|].
  inversion Hnd as [|? ? Hq0 Hd]; subst.
  unfold question_rows in *. rewrite filter_app.
  destruct Hin as [[= <- <-]|Hin].
  - fold (question_rows (List.concat blocks) meeting_id (fst qa0)).
    rewrite (question_rows_other meeting_id d blocks _ _ HF Hq0), app_nil_r.
    apply filter_all. eapply Forall_impl; [|apply (block_rows _ _ _ Hb)].
    intros r [-> ->]. rewrite !String.eqb_refl. reflexivity.
  - rewrite (IH Hd Hin). replace (filter _ block0) with (@nil PollAnswerCount);
      [reflexivity|].
    symmetry. apply filter_none.
    eapply Forall_impl; [|apply (block_rows _ _ _ Hb)].
    intros r [_ Hr]. rewrite Hr.
    destruct (String.eqb_spec (fst qa0) (fst qa)) as [E|_]; [|apply andb_false_r].
    exfalso. apply Hq0. rewrite E.
    apply in_combine_l in Hin. apply (in_map fst) in Hin. exact Hin.
Qed.

Lemma In_concat_block {A B : Type} (d : list A) (blocks : list (list B))
    (P : A -> list B -> Prop) (r : B) :
  Forall2 P d blocks -> In r (List.concat blocks) ->
  exists qa block, In (qa, block) (combine d blocks) /\ In r block /\ P qa block.
Proof.
  induction 1 as [|qa block d blocks Hb _ IH]; simpl; [tauto|].
  intros Hin. apply in_app_or in Hin. destruct Hin as [Hin|Hin].
  - exists qa, block. auto.
  - destruct (IH Hin) as [qa' [block' [H1 [H2 H3]]]]. exists qa', block'. auto.
Qed.

(** ** Sums over a block *)

Lemma block_count_sum (meeting_id : string) (qa : string * dict Z)
    (block : list PollAnswerCount) :
  block_for meeting_id qa block ->
  Zsum (map pc_count block) = dict_sum (snd qa).
Proof.
  unfold block_for, dict_sum.
  generalize (Zsum (map snd (snd qa))) at 1 as n. intros n.
  induction 1 as [|kv r l rs Hr _ IH]; simpl; [reflexivity|].
  destruct Hr as [_ [_ [_ [-> _]]]]. rewrite IH. reflexivity.
Qed.

Lemma Zsum_cons (x : Z) (l : list Z) : Zsum (x :: l) = x + Zsum l.
Proof. reflexivity. Qed.

Lemma Qsum_cons (x : Q) (l : list Q) : Qsum (x :: l) = (x + Qsum l)%Q.
Proof. reflexivity. Qed.

Lemma In_le_Zsum (l : list Z) (c : Z) :
  Forall (fun x => 1 <= x) l -> In c l -> 1 <= c <= Zsum l.
Proof.
  induction 1 as [|x l Hx Hl IH]; simpl; [tauto|].
  assert (0 <= Zsum l).
  { clear IH. induction Hl as [|y l Hy _ IH]; simpl; lia. }
  intros [<-|Hin]; [lia|]. specialize (IH Hin). lia.
Qed.

Lemma Forall2_In_r {A B : Type} (P : A -> B -> Prop) (l : list A) (l' : list B)
    (y : B) :
  Forall2 P l l' -> In y l' -> exists x, In x l /\ P x y.
Proof.
  induction 1 as [|x y' l l' Hxy _ IH]; simpl; [tauto|].
  intros [<-|Hin]; [eauto|]. destruct (IH Hin) as [x' [H1 H2]]. eauto.
Qed.

(** The proportions of the rows of some entries with denominator [n] add
    up to the counts of the entries over [n], within a relative distance of
    [2 ^ -48]. *)
Lemma rows_prop_sum (meeting_id q : string) (n : Z) (l : dict Z)
    (rs : list PollAnswerCount) :
  Forall (fun kv => 1 <= snd kv <= n) l ->
  Forall2 (row_for meeting_id q n) l rs ->
  Forall (fun r => is_finite (pc_prop r) = true) rs
  /\ (Qabs (Qsum (map (fun r => SF2Q (pc_prop r)) rs)
            - inject_Z (Zsum (map snd l)) / inject_Z n)
      <= inject_Z (Zsum (map snd l)) / inject_Z n * 2 ^ (-48))%Q.
Proof.
  intros Hl HF. induction HF as [|kv r l rs Hr _ IH]; cbn [map].
  - cbn [Qsum Zsum fold_right]. split; [constructor|].
    setoid_replace (inject_Z 0 / inject_Z n)%Q with 0%Q
      by (unfold Qdiv; apply Qmult_0_l).
    rewrite pow2_m48. vm_compute. discriminate.
  - rewrite Qsum_cons, Zsum_cons.
    inversion Hl as [|? ? Hkv Hl']; subst.
    destruct (IH Hl') as [Hfin Hsum].
    destruct Hr as [_ [_ [_ [_ [_ [x [y [Hx [Hy Hp]]]]]]]]].
    destruct (prop_error (snd kv) n x y (pc_prop r) Hkv Hx Hy Hp) as [Hf He].
    split; [constructor; assumption|].
    assert (Hn : ~ (inject_Z n == 0)%Q).
    { change 0%Q with (inject_Z 0). rewrite inject_Z_injective. lia. }
    assert (Hsplit : (inject_Z (snd kv + Zsum (map snd l)) / inject_Z n
                      == inject_Z (snd kv) / inject_Z n
                         + inject_Z (Zsum (map snd l)) / inject_Z n)%Q).
    { rewrite inject_Z_plus. field. exact Hn. }
    rewrite Hsplit. rewrite pow2_m48 in *.
    apply Qabs_Qle_condition in He, Hsum. apply Qabs_Qle_condition. lra.
Qed.

Lemma block_prop_sum (meeting_id : string) (qa : string * dict Z)
    (block : list PollAnswerCount) :
  Forall (fun kv => 1 <= snd kv) (snd qa) ->
  block <> [] ->
  block_for meeting_id qa block ->
  Forall (fun r => is_finite (pc_prop r) = true) block
  /\ (Qabs (Qsum (map (fun r => SF2Q (pc_prop r)) block) - 1)
      < 1 # 1000000000)%Q.
Proof.
  intros Hpos Hne Hb. unfold block_for in Hb.
  assert (Hbound : Forall (fun kv => 1 <= snd kv <= dict_sum (snd qa)) (snd qa)).
  { rewrite Forall_forall. intros kv Hkv. unfold dict_sum.
    apply In_le_Zsum; [|apply in_map; exact Hkv].
    rewrite Forall_forall in *. intros c Hc. apply in_map_iff in Hc.
    destruct Hc as [kv' [<- Hkv']]. apply Hpos; exact Hkv'. }
  destruct (rows_prop_sum _ _ _ _ _ Hbound Hb) as [Hfin Hsum].
  split; [exact Hfin|].
  fold (dict_sum (snd qa)) in Hsum.
  assert (Hn : 1 <= dict_sum (snd qa)).
  { destruct (snd qa) as [|kv l]; [inversion Hb; subst; congruence|].
    inversion Hbound; subst. lia. }
  assert (Hone : (inject_Z (dict_sum (snd qa)) / inject_Z (dict_sum (snd qa)) == 1)%Q).
  { field. change 0%Q with (inject_Z 0). rewrite inject_Z_injective. lia. }
  rewrite Hone, pow2_m48 in Hsum. apply Qabs_Qle_condition in Hsum.
  apply Qabs_Qlt_condition. lra.
Qed.

(** The table made from dictionaries that the loop has kept well formed. *)
Lemma polltable_of_add_up (meeting_id : string) (st : counts)
    (t : list PollAnswerCount) :
  counts_ok st -> polltable_of meeting_id st = Ok t ->
  proportions_add_up t
  /\ Forall (fun r => pc_meeting_id r = meeting_id) t.
Proof.
  intros Hok Ht.
  destruct (polltable_of_blocks meeting_id st t Hok Ht) as [blocks [-> HF]].
  split.
  - intros r Hr.
    destruct (In_concat_block _ _ _ r HF Hr) as [qa [block [Hin [Hrb Hb]]]].
    pose proof (block_rows _ _ _ Hb) as Hrows. rewrite Forall_forall in Hrows.
    destruct (Hrows r Hrb) as [Hm Hq]. cbv zeta. rewrite Hm, Hq.
    rewrite (question_rows_block meeting_id (poll st) blocks qa block HF
               (proj1 Hok) Hin).
    destruct (Forall2_In_r _ _ _ r Hb Hrb) as [kv [_ Hrow]].
    destruct Hrow as [_ [_ [_ [_ [Hresp _]]]]].
    assert (Hpos : Forall (fun kv => 1 <= snd kv) (snd qa)).
    { destruct Hok as [Hnd Hget]. apply in_combine_l in Hin.
      destruct qa as [q answers]. specialize (Hget q).
      rewrite (dict_get_NoDup_In _ _ _ Hnd Hin) in Hget. apply Hget. }
    split; [rewrite Hresp; apply (block_count_sum _ _ _ Hb)|].
    apply (block_prop_sum meeting_id qa block Hpos); [|exact Hb].
    intros ->. destruct Hrb.
  - rewrite Forall_forall. intros r Hr.
    destruct (In_concat_block _ _ _ r HF Hr) as [qa [block [_ [Hrb Hb]]]].
    pose proof (block_rows _ _ _ Hb) as Hrows. rewrite Forall_forall in Hrows.
    apply (Hrows r Hrb).
Qed.

Lemma read_poll_report_counts_inv `{Runtime} (file : list string)
    (df : DataFrame PollAnswerCount) :
  read_poll_report_counts file = Ok df ->
  exists meeting_id st,
    poll_meeting_id file = Ok meeting_id
    /\ counts_ok st
    /\ polltable_of meeting_id st = Ok (rows df)
    /\ columns df = count_columns.
Proof.
  unfold read_poll_report_counts. intros E.
  destruct (poll_meeting_id file) as [meeting_id|e]; cbn [bind] in E; [|discriminate].
  destruct (for_each count_line _ _) as [st|e] eqn:Est; cbn [bind] in E;
    [|discriminate].
  destruct (polltable_of meeting_id st) as [t|e] eqn:Et; cbn [bind] in E;
    [|discriminate].
  injection E as <-. exists meeting_id, st.
  rewrite for_each_count_lines in Est.
  split; [reflexivity|].
  split; [exact (count_pairs_ok _ _ _ counts_ok_initial Est)|].
  split; [exact Et | reflexivity].
Qed.

(** ** Tables of several reports *)

Lemma filter_Permutation {A : Type} (p : A -> bool) (l l' : list A) :
  Permutation l l' -> Permutation (filter p l) (filter p l').
Proof.
  induction 1 as [|x l l' _ IH|x y l|l l' l'' _ IH1 _ IH2]; simpl.
  - constructor.
  - destruct (p x); [constructor|]; exact IH.
  - destruct (p x), (p y); try reflexivity. constructor.
  - etransitivity; eassumption.
Qed.

Lemma Zsum_Permutation (l l' : list Z) : Permutation l l' -> Zsum l = Zsum l'.
Proof.
  induction 1 as [|x l l' _ IH|x y l|l l' l'' _ IH1 _ IH2]; simpl; lia.
Qed.

Lemma Qsum_Permutation (l l' : list Q) :
  Permutation l l' -> (Qsum l == Qsum l')%Q.
Proof.
  induction 1 as [|x l l' _ IH|x y l|l l' l'' _ IH1 _ IH2];
    rewrite ?Qsum_cons.
  - reflexivity.
  - rewrite IH. reflexivity.
  - ring.
  - rewrite IH1. exact IH2.
Qed.

(** Whether the proportions add up depends on the rows of each question,
    not on their order. *)
Lemma proportions_add_up_rows (t t' : list PollAnswerCount) (r : PollAnswerCount) :
  In r t ->
  Permutation (question_rows t (pc_meeting_id r) (pc_question r))
              (question_rows t' (pc_meeting_id r) (pc_question r)) ->
  proportions_add_up t ->
  let rs := question_rows t' (pc_meeting_id r) (pc_question r) in
  Zsum (map pc_count rs) = pc_responses r
  /\ Forall (fun r' => is_finite (pc_prop r') = true) rs
  /\ (Qabs (Qsum (map (fun r' => SF2Q (pc_prop r')) rs) - 1)
      < 1 # 1000000000)%Q.
Proof.
  intros Hr HP Ht. destruct (Ht r Hr) as [Hsum [Hfin Hprop]]. cbv zeta in *.
  split; [|split].
  - rewrite <- Hsum. symmetry. apply Zsum_Permutation, Permutation_map. exact HP.
  - apply (Permutation_Forall HP). exact Hfin.
  - rewrite <- (Qsum_Permutation _ _ (Permutation_map _ HP)). exact Hprop.
Qed.

(** In the rows of several reports of distinct meetings, the rows of a
    meeting and a question are the rows of that question in the report of
    that meeting. *)
Lemma question_rows_meeting (mids : list string)
    (tables : list (list PollAnswerCount)) (mid q : string)
    (t : list PollAnswerCount) :
  Forall2 (fun m t => Forall (fun r => pc_meeting_id r = m) t) mids tables ->
  NoDup mids ->
  In (mid, t) (combine mids tables) ->
  question_rows (List.concat tables) mid q = question_rows t mid q.
Proof.
  unfold question_rows.
  induction 1 as [|m0 t0 mids tables Ht0 HF IH]; intros Hnd Hin; simpl in *;
    [tauto|].
  inversion Hnd as [|? ? Hm0 Hmids]; subst. rewrite filter_app.
  assert (Hother : forall m ts,
             Forall2 (fun m t => Forall (fun r => pc_meeting_id r = m) t) m ts ->
             ~ In mid m ->
             filter (fun r => String.eqb (pc_meeting_id r) mid
                              && String.eqb (pc_question r) q)
                    (List.concat ts) = []).
  { clear. induction 1 as [|m1 t1 m ts Ht1 _ IH1]; intros Hmid; simpl;
      [reflexivity|].
    rewrite filter_app, IH1 by (intros Hin; apply Hmid; right; exact Hin).
    rewrite app_nil_r. apply filter_none.
    eapply Forall_impl; [|exact Ht1]. intros r ->.
    destruct (String.eqb_spec m1 mid) as [E|_]; [|reflexivity].
    exfalso. apply Hmid. left; exact E. }
  destruct Hin as [[= <- <-]|Hin].
  - rewrite (Hother mids tables HF Hm0). apply app_nil_r.
  - rewrite (IH Hmids Hin).
    replace (filter _ t0) with (@nil PollAnswerCount); [reflexivity|].
    symmetry. apply filter_none.
    eapply Forall_impl; [|exact Ht0]. intros r ->.
    destruct (String.eqb_spec m0 mid) as [E|_]; [|reflexivity].
    exfalso. apply Hm0. rewrite E. apply in_combine_l in Hin. exact Hin.
Qed.

Lemma Forall2_map_result {A B : Type} (f : A -> result B) (l : list A) (r : list B) :
  Forall2 (fun x y => f x = Ok y) l r -> map_result f l = Ok r.
Proof.
  induction 1 as [|x y l r Hxy _ IH]; simpl; [reflexivity|].
  rewrite Hxy, IH. reflexivity.
Qed.

Lemma read_reports_tables `{Runtime} (files : list (string * list string))
    (dfs : list (DataFrame PollAnswerCount)) :
  Forall2 (fun f df => read_poll_report_counts (snd f) = Ok df) files dfs ->
  exists mids,
    map_result (fun f => poll_meeting_id (snd f)) files = Ok mids
    /\ Forall2 (fun m t => Forall (fun r => pc_meeting_id r = m) t)
         mids (map rows dfs)
    /\ Forall (fun df => proportions_add_up (rows df)) dfs.
Proof.
  induction 1 as [|f df files dfs Hf _ [mids [Hm [Hids Hadd]]]].
  - exists []. repeat split; constructor.
  - destruct (read_poll_report_counts_inv _ _ Hf) as [mid [st [Hid [Hok [Ht _]]]]].
    destruct (polltable_of_add_up mid st (rows df) Hok Ht) as [Hup Hrows].
    exists (mid :: mids). cbn [map_result map]. rewrite Hid, Hm. cbn [bind].
    split; [reflexivity|]. split; constructor; assumption.
Qed.

Lemma read_all_poll_report_counts_add_up `{Runtime} (dir : folder)
    (t : DataFrame PollAnswerCount) :
  sort_rows_permutes -> distinct_meetings dir ->
  read_all_poll_report_counts dir = Ok t ->
  proportions_add_up (rows t).
Proof.
  intros Hperm Hdistinct Ht. rewrite read_all_poll_report_counts_folder in Ht.
  destruct (read_folder_inv _ _ _ _ _ _ read_poll_report_counts_columns Ht)
    as [dfs [Hdfs ->]]. cbn [rows].
  apply map_result_Forall2 in Hdfs.
  destruct (read_reports_tables _ _ Hdfs) as [mids [Hmids [Hids Hadd]]].
  specialize (Hdistinct mids Hmids).
  set (all := List.concat (map rows dfs)) in *.
  pose proof (Hperm _ count_leb all) as HP.
  intros r Hr.
  assert (Hr' : In r all) by (apply (Permutation_in r (Permutation_sym HP)); exact Hr).
  destruct (In_concat_block mids (map rows dfs) _ r Hids Hr')
    as [mid [tbl [Hin [Hrt Hmid]]]].
  rewrite Forall_forall in Hmid. pose proof (Hmid r Hrt) as Hrm.
  assert (Htbl : proportions_add_up tbl).
  { apply in_combine_r in Hin. apply in_map_iff in Hin.
    destruct Hin as [df [<- Hdf]]. rewrite Forall_forall in Hadd. auto. }
  apply (proportions_add_up_rows tbl _ r Hrt); [|exact Htbl].
  rewrite Hrm.
  rewrite <- (question_rows_meeting mids (map rows dfs) mid (pc_question r) tbl
                Hids Hdistinct Hin).
  apply filter_Permutation. exact HP.
Qed.

(** ** The table of counts is made without an exception *)

Lemma float_of_int_Ok (n : Z) :
  0 <= n < 2 ^ 1023 -> exists x, float_of_int n = Ok x.
Proof.
  intros [H0 Hn]. destruct n as [|p|p]; try lia; [eexists; reflexivity|].
  unfold float_of_int. cbn [binary_normalize]. unfold binary_round.
  pose proof (shl_align_value p 0 (fexp prec emax (Zpos (digits2_pos p) + 0))) as Hv.
  pose proof (shl_align_exp p 0 (fexp prec emax (Zpos (digits2_pos p) + 0))) as He.
  destruct (shl_align p 0 _) as [mz ez]. cbn [fst snd] in Hv, He.
  rewrite Qval_0 in Hv.
  destruct (binary_round_aux_error (Zpos mz) ez loc_Exact (inject_Z (Zpos p)))
    as [[Hfin _]|[_ Hexp]]; try lia.
  - rewrite Hv. apply Qle_refl.
  - rewrite Qval_succ, Hv. pose proof (pow2_pos ez). lra.
  - destruct (binary_round_aux prec emax false (Zpos mz) ez loc_Exact);
      try discriminate; eexists; reflexivity.
  - exfalso.
    assert (Hbig : (2 ^ 1023 <= inject_Z (Zpos p))%Q).
    { apply (round_exp_overflow (Zpos mz) ez); try lia.
      rewrite Hv. apply Qle_refl. }
    rewrite <- pow2_inject in Hbig by lia. rewrite <- Zle_Qle in Hbig. lia.
Qed.

Lemma for_each_Ok {A S : Type} (body : S -> A -> result S) (l : list A) (s : S) :
  (forall s x, In x l -> exists s', body s x = Ok s') ->
  exists s', for_each body l s = Ok s'.
Proof.
  revert s. induction l as [|x l IH]; intros s Hbody; simpl; [eauto|].
  destruct (Hbody s x (or_introl eq_refl)) as [s1 ->]. simpl.
  apply IH. intros s' y Hy. apply Hbody. right; exact Hy.
Qed.

Lemma polltable_row_Ok (meeting_id : string) (st : counts) (q a : string)
    (answers : dict Z) :
  counts_ok st ->
  dict_get (poll st) q = Some answers ->
  In a (dict_keys answers) ->
  dict_sum answers < 2 ^ 1023 ->
  exists r, polltable_row meeting_id st q a = Ok r.
Proof.
  intros [_ Hok] Hq Ha Hbound. specialize (Hok q). rewrite Hq in Hok.
  destruct Hok as [Hnd [Hpos HN]].
  unfold dict_keys in Ha. apply in_map_iff in Ha. destruct Ha as [[a' c] [<- Hin]].
  cbn [fst]. pose proof (dict_get_NoDup_In _ _ _ Hnd Hin) as Hc.
  assert (Hcn : 1 <= c <= dict_sum answers).
  { unfold dict_sum. apply In_le_Zsum.
    - rewrite Forall_forall in *. intros x Hx. apply in_map_iff in Hx.
      destruct Hx as [kv [<- Hkv]]. apply Hpos; exact Hkv.
    - apply (in_map snd) in Hin. exact Hin. }
  unfold polltable_row, dict_getitem. rewrite Hq, HN. cbn [of_option bind].
  rewrite Hc. cbn [of_option bind].
  destruct (float_of_int_Ok c ltac:(lia)) as [x Hx].
  destruct (float_of_int_Ok (dict_sum answers) ltac:(lia)) as [y Hy].
  rewrite Hx, Hy. cbn [bind].
  destruct (float_of_int_error (dict_sum answers) y ltac:(lia) Hy)
    as [[m [e ->]] _].
  cbn [truediv bind]. eauto.
Qed.

Lemma polltable_of_Ok (meeting_id : string) (st : counts) :
  counts_ok st ->
  (forall q n, dict_get (N st) q = Some n -> n < 2 ^ 1023) ->
  exists t, polltable_of meeting_id st = Ok t.
Proof.
  intros Hok Hbound. unfold polltable_of. apply for_each_Ok.
  intros acc q Hq. unfold dict_keys in Hq. apply in_map_iff in Hq.
  destruct Hq as [[q' answers] [<- Hin]]. cbn [fst].
  pose proof (dict_get_NoDup_In _ _ _ (proj1 Hok) Hin) as Hget.
  unfold dict_getitem at 1. rewrite Hget. cbn [of_option bind].
  apply for_each_Ok. intros acc' a Ha.
  destruct (polltable_row_Ok meeting_id st q' a answers Hok Hget Ha) as [r ->].
  - apply (Hbound q'). destruct Hok as [_ Hq]. specialize (Hq q').
    rewrite Hget in Hq. apply Hq.
  - cbn [bind]. eauto.
Qed.

Lemma count_pairs_N_bound (pairs : list (string * string)) (st : counts)
    (q : string) (n : Z) :
  count_pairs (mkCounts [] []) pairs = Ok st ->
  dict_get (N st) q = Some n -> n <= len pairs.
Proof.
  intros E Hn. rewrite (count_pairs_N _ _ _ E q) in Hn. cbn [N dict_get] in Hn.
  unfold bump in Hn.
  pose proof (count_occ_bound string_dec q (map fst pairs)) as Hocc.
  rewrite length_map in Hocc. unfold len.
  destruct (Z.of_nat (count_occ string_dec (map fst pairs) q) =? 0);
    [discriminate|]. injection Hn as <-. lia.
Qed.

(** A report with a meeting id in its fourth line and fewer than [2 ^ 1023]
    pairs is read without an exception. *)
Lemma read_poll_report_counts_Ok `{Runtime} (file : list string)
    (meeting_id : string) :
  poll_meeting_id file = Ok meeting_id ->
  len (flat_map line_pairs (csv_reader (skipn 6 file))) < 2 ^ 1023 ->
  exists df, read_poll_report_counts file = Ok df.
Proof.
  intros Hid Hlen. unfold read_poll_report_counts. rewrite Hid. cbn [bind].
  rewrite for_each_count_lines.
  destruct (count_pairs_Ok (flat_map line_pairs (csv_reader (skipn 6 file)))
              (mkCounts [] [])) as [st Est].
  rewrite Est. cbn [bind].
  destruct (polltable_of_Ok meeting_id st) as [t ->].
  - exact (count_pairs_ok _ _ _ counts_ok_initial Est).
  - intros q n Hn. pose proof (count_pairs_N_bound _ _ _ _ Est Hn). lia.
  - cbn [bind]. eauto.
Qed.

(** ** The counts and the proportions of a question *)

(** C1, as the code has it: a report with a meeting id and fewer than
    [2 ^ 1023] pairs is read into a table; in the table of one report, and
    in the table of a folder whose reports are of distinct meetings, for
    every meeting and question the counts of the answers add up to the
    responses of each of the rows, and the proportions are finite floats
    whose values add up to 1 within [1e-9]. *)
Theorem proportions_add_up_per_meeting `{Runtime} :
  (forall file meeting_id,
     poll_meeting_id file = Ok meeting_id ->
     len (flat_map line_pairs (csv_reader (skipn 6 file))) < 2 ^ 1023 ->
     exists df, read_poll_report_counts file = Ok df)
  /\ (forall file df,
        read_poll_report_counts file = Ok df -> proportions_add_up (rows df))
  /\ (forall dir t,
        sort_rows_permutes -> distinct_meetings dir ->
        read_all_poll_report_counts dir = Ok t -> proportions_add_up (rows t)).
Proof.
  split; [|split].
  - intros file meeting_id. apply read_poll_report_counts_Ok.
  - intros file df Hdf.
    destruct (read_poll_report_counts_inv _ _ Hdf) as [mid [st [_ [Hok [Ht _]]]]].
    apply (polltable_of_add_up mid st (rows df) Hok Ht).
  - intros dir t. apply read_all_poll_report_counts_add_up.
Qed.

Lemma proportions_add_up_per_meeting_witness :
  (exists df,
     @read_poll_report_counts Example.runtime Example.poll_file = Ok df
     /\ proportions_add_up (rows df))
  /\ (exists t,
        @read_all_poll_report_counts Example.runtime Example.folder_ab = Ok t
        /\ proportions_add_up (rows t)).
Proof.
  destruct (@proportions_add_up_per_meeting Example.runtime)
    as [_ [Hfile Hfolder]].
  split.
  - eexists. split; [reflexivity|]. apply (Hfile Example.poll_file). reflexivity.
  - eexists. split; [reflexivity|].
    apply (Hfolder Example.folder_ab); [exact example_sort_permutes | | reflexivity].
    intros mids E. vm_compute in E. injection E as <-.
    repeat constructor; simpl; intuition discriminate.
Defined.

(** C1 as stated fails for the table of a folder: two reports of the same
    meeting give two rows for the same meeting, question and answer, whose
    counts add up to 2 where each row has 1 response. *)
Lemma same_meeting_counterexample :
  exists t r,
    @read_all_poll_report_counts Example.runtime Example.folder_same_meeting = Ok t
    /\ In r (rows t)
    /\ pc_responses r = 1
    /\ Zsum (map pc_count
               (question_rows (rows t) (pc_meeting_id r) (pc_question r))) = 2
    /\ ~ proportions_add_up (rows t).
Proof.
  set (r := mkPollAnswerCount "111111" "Q1" "Yes" 1 float_one 1).
  exists (mkDataFrame count_columns [r; r]), r.
  split; [reflexivity|].
  split; [left; reflexivity|]. split; [reflexivity|]. split; [reflexivity|].
  intros Hup. destruct (Hup r (or_introl eq_refl)) as [Hsum _].
  vm_compute in Hsum. discriminate Hsum.
Qed.

(** ** The attendance rate *)

Lemma float_of_int_100 : float_of_int 100 = Ok float_hundred.
Proof. reflexivity. Qed.

Lemma truediv_hundred (pct : float) :
  truediv pct float_hundred = Ok (SFdiv prec emax pct float_hundred).
Proof. reflexivity. Qed.

Lemma read_performance_report_fields `{Runtime} (file : list string)
    (date_format : string) (f : PerformanceFields) :
  reads_as (csv_reader file) f ->
  read_performance_report file date_format
  = Ok (mkDataFrame performance_columns [meeting_record_of date_format f]).
Proof.
  intros [Htopic [Hid [Hdt [Hdur [Hreg [Hatt [Hpct Hq]]]]]]].
  unfold read_performance_report.
  rewrite Htopic, Hid. cbn [bind].
  destruct (cell (csv_reader file) 3 2) as [dt|e]; cbn [bind] in Hdt |- *;
    [|discriminate].
  rewrite Hdur, Hreg, Hatt. cbn [bind].
  destruct (cell (csv_reader file) 6 2) as [c|e]; cbn [bind] in Hpct |- *;
    [|discriminate].
  rewrite Hpct, float_of_int_100. cbn [bind]. rewrite truediv_hundred, Hq.
  cbn [bind]. rewrite Hdt. reflexivity.
Qed.

(** C6, as the code has it: a report whose cells can be read gives the
    row of these cells, whatever the numbers of registrations and
    attendees; the attendance rate is the float in the rate cell divided by
    100; it is between 0 and 1 when that float is between 0 and 100. *)
Theorem attendance_rate_of_percent `{Runtime} (file : list string)
    (date_format : string) (f : PerformanceFields) :
  reads_as (csv_reader file) f ->
  read_performance_report file date_format
  = Ok (mkDataFrame performance_columns [meeting_record_of date_format f])
  /\ mr_attendance_rate (meeting_record_of date_format f)
     = SFdiv prec emax (pf_percent f) float_hundred
  /\ (valid_binary prec emax (pf_percent f) = true ->
      is_finite (pf_percent f) = true ->
      (0 <= SF2Q (pf_percent f) <= 100)%Q ->
      is_finite (mr_attendance_rate (meeting_record_of date_format f)) = true
      /\ (0 <= SF2Q (mr_attendance_rate (meeting_record_of date_format f)) <= 1)%Q).
Proof.
  intros Hf. split; [apply read_performance_report_fields; exact Hf|].
  split; [reflexivity|]. intros Hvalid Hfin Hrange.
  destruct (percentage_rate (pf_percent f) Hvalid Hfin Hrange)
    as [rate [Hrate Hunit]].
  rewrite truediv_hundred in Hrate. injection Hrate as <-. exact Hunit.
Qed.

Lemma attendance_rate_of_percent_witness :
  @read_performance_report Example.runtime Example.performance_file
     default_date_format
  = Ok (mkDataFrame performance_columns
          [@meeting_record_of Example.runtime default_date_format
             Example.performance_fields])
  /\ is_finite (mr_attendance_rate
                  (@meeting_record_of Example.runtime default_date_format
                     Example.performance_fields)) = true
  /\ (0 <= SF2Q (mr_attendance_rate
                   (@meeting_record_of Example.runtime default_date_format
                      Example.performance_fields)) <= 1)%Q.
Proof.
  destruct (@attendance_rate_of_percent Example.runtime Example.performance_file
              default_date_format Example.performance_fields)
    as [Hread [_ Hunit]].
  - repeat split; reflexivity.
  - split; [exact Hread|]. apply Hunit.
    + reflexivity.
    + reflexivity.
    + split; intros H; discriminate H.
Defined.

(** C6 as stated fails: a report with 20 registrations, 30 attendees and
    150 in the rate cell is read without an exception, and its attendance
    rate is 1.5. *)
Lemma attendance_rate_counterexample :
  exists r,
    @read_performance_report Example.runtime Example.performance_file_over
       default_date_format
    = Ok (mkDataFrame performance_columns [r])
    /\ mr_registered r = 20 /\ mr_attended r = 30
    /\ (SF2Q (mr_attendance_rate r) == 3 # 2)%Q
    /\ ~ (SF2Q (mr_attendance_rate r) <= 1)%Q.
Proof.
  eexists. split; [reflexivity|]. repeat split.
  intros H. vm_compute in H. apply H. reflexivity.
Qed.

(** ** The order of the answers in the plots *)

Lemma for_each_raise (p : string -> bool) (e : exn) (l : list string) :
  (exists x, In x l /\ p x = true) ->
  for_each (fun _ x => if p x then Raise e else Ok tt) l tt = Raise e.
Proof.
  induction l as [|y l IH]; intros [x [Hin Hp]]; simpl.
  - destruct Hin.
  - destruct (p y) eqn:Ey; simpl; [reflexivity|].
    apply IH. destruct Hin as [->|Hin]; [congruence | eauto].
Qed.

(** The stacked bar plot checks the given order of the answers before it
    calls the plotting library: an answer of the question that the order
    leaves out ends the call with a [ValueError] that names the question
    and the answers. *)
Lemma plot_question_stacked_bokeh_validates `{Runtime}
    (polldata : DataFrame PollPlotRow) (question : string) (prop : bool)
    (answer_sort : list string) :
  (exists var, In var (fst (question_data polldata question prop))
               /\ mem_string var answer_sort = false) ->
  plot_question_stacked_bokeh polldata question prop (Some answer_sort)
  = ([], Raise (ValueError
                  (answer_sort_error question
                     (fst (question_data polldata question prop))))).
Proof.
  intros [var [Hin Hmem]]. unfold plot_question_stacked_bokeh.
  destruct (question_data polldata question prop) as [a data]. cbn [fst] in *.
  rewrite (for_each_raise (fun var => negb (mem_string var answer_sort))).
  - reflexivity.
  - exists var. rewrite Hmem. auto.
Qed.

Lemma wide_column_exn (answers : list string) (values : list (list float))
    (ans : string) (e : exn) :
  wide_column answers values ans = Raise e -> e = KeyError ans.
Proof.
  revert values. induction answers as [|a answers IH]; intros [|v values]; simpl;
    try (intros [= <-]; reflexivity).
  destruct (String.eqb a ans); [discriminate | apply IH].
Qed.

Lemma getitem_exn {A : Type} (l : list A) (i : Z) (e : exn) :
  getitem l i = Raise e -> e = IndexError.
Proof.
  unfold getitem. destruct (_ && _); [|intros [= <-]; reflexivity].
  destruct (nth_error l _); simpl; [discriminate | intros [= <-]; reflexivity].
Qed.

Lemma for_each_rendering_exn {A : Type} (body : A -> rendering unit)
    (P : exn -> Prop) (l : list A) (e : exn) :
  (forall x e, snd (body x) = Raise e -> P e) ->
  snd (for_each_rendering body l) = Raise e -> P e.
Proof.
  intros Hbody. induction l as [|x l IH]; simpl; [discriminate|].
  unfold bind_rendering. destruct (body x) as [cs [[]|e']] eqn:E.
  - destruct (for_each_rendering body l) as [cs' r]. simpl in *. exact IH.
  - simpl. intros [= <-]. apply (Hbody x). rewrite E. reflexivity.
Qed.

(** The line plot has no such check: whatever the given order of the
    answers, it never ends with a [ValueError]. *)
Lemma plot_question_bokeh_never_validates `{Runtime}
    (polldata : DataFrame PollPlotRow) (question : string) (prop : bool)
    (answer_sort : option (list string)) (msg : string) :
  snd (plot_question_bokeh polldata question prop answer_sort)
  <> Raise (ValueError msg).
Proof.
  unfold plot_question_bokeh.
  destruct (question_data polldata question prop) as [a data].
  unfold bind_rendering at 1. cbn [call].
  match goal with
  | |- context [for_each_rendering ?body ?l] =>
      pose proof (for_each_rendering_exn body
                    (fun e => forall m, e <> ValueError m) l) as Hloop;
      destruct (for_each_rendering body l) as [cs r]
  end.
  cbn [snd] in *. intros Hr. refine (Hloop _ _ Hr msg eq_refl). clear Hloop Hr.
  intros [ix ans] e. unfold bind_rendering, lift, call.
  destruct (wide_column _ _ ans) as [y|e1] eqn:Ey.
  2:{ cbn. intros [= <-] m. rewrite (wide_column_exn _ _ _ _ Ey). discriminate. }
  destruct (getitem (firstn _ _) ix) as [c|e2] eqn:Ec.
  2:{ cbn. intros [= <-] m. rewrite (getitem_exn _ _ _ Ec). discriminate. }
  destruct (getitem match answer_sort with Some s => s | None => a end ix)
    as [lbl|e3] eqn:El.
  2:{ cbn. intros [= <-] m. rewrite (getitem_exn _ _ _ El). discriminate. }
  cbn. discriminate.
Qed.

(** C8 at the answers A and B with the order A alone: the stacked bar plot
    raises its error before any call to the plotting library; the line plot
    raises nothing and draws A alone. *)
Theorem answer_sort_omits_answer :
  @plot_question_stacked_bokeh Example.runtime Example.plot_table "Q" true
     (Some ["A"])
  = ([], Raise (ValueError
                  (@answer_sort_error Example.runtime "Q" ["A"; "B"])))
  /\ exists y,
       @plot_question_bokeh Example.runtime Example.plot_table "Q" true
          (Some ["A"])
       = ([figure ["01.03."] "Q";
           fig_line ["01.03."] y "#66c2a5" "A";
           fig_scatter ["01.03."] y "#66c2a5"],
          Ok tt).
Proof.
  split; [reflexivity|]. eexists. reflexivity.
Qed.

(** ** The header of a poll report *)

Lemma split_char_no_char (c : ascii) (s : string) :
  has_char c s = false -> split_char c s = [s].
Proof.
  induction s as [|a s IH]; simpl; [reflexivity|].
  destruct (Ascii.eqb a c); simpl; [discriminate|].
  intros H. rewrite (IH H). reflexivity.
Qed.

Lemma split_char_field (c : ascii) (f s : string) :
  has_char c f = false ->
  split_char c (f ++ String c s) = f :: split_char c s.
Proof.
  induction f as [|a f IH]; simpl.
  - rewrite Ascii.eqb_refl. reflexivity.
  - destruct (Ascii.eqb a c); simpl; [discriminate|].
    intros H. rewrite (IH H). reflexivity.
Qed.

Lemma split_char_length (c : ascii) (s : string) :
  has_char c s = true -> (2 <= List.length (split_char c s))%nat.
Proof.
  induction s as [|a s IH]; simpl; [discriminate|].
  destruct (Ascii.eqb a c); simpl.
  - intros _. destruct s; simpl; [lia|].
    destruct (Ascii.eqb _ c); [simpl; lia|].
    destruct (split_char c s); simpl; lia.
  - intros H. specialize (IH H).
    destruct (split_char c s) as [|f fs]; simpl in *; lia.
Qed.

Lemma remove_char_has_char (c : ascii) (s : string) :
  has_char c (remove_char c s) = false.
Proof.
  induction s as [|a s IH]; simpl; [reflexivity|].
  destruct (Ascii.eqb a c) eqn:E; simpl; [exact IH|].
  rewrite E. exact IH.
Qed.

Lemma remove_char_no_char (c : ascii) (s : string) :
  has_char c s = false -> remove_char c s = s.
Proof.
  induction s as [|a s IH]; simpl; [reflexivity|].
  destruct (Ascii.eqb a c); simpl; [discriminate|].
  intros H. rewrite (IH H). reflexivity.
Qed.

Lemma getitem_short {A : Type} (l : list A) (i : Z) :
  len l <= i -> getitem l i = Raise IndexError.
Proof.
  unfold getitem, len. intros H.
  destruct (Z.ltb_spec i 0) as [Hneg|_]; [lia|].
  destruct (Z.ltb_spec i (Z.of_nat (List.length l))) as [Hlt|_]; [lia|].
  rewrite andb_false_r. reflexivity.
Qed.

Lemma getitem_nth_error {A : Type} (l : list A) (i : Z) (x : A) :
  0 <= i -> nth_error l (Z.to_nat i) = Some x -> getitem l i = Ok x.
Proof.
  intros Hi H. assert (Hk : (Z.to_nat i < List.length l)%nat)
    by (apply nth_error_Some; congruence).
  unfold getitem.
  destruct (Z.ltb_spec i 0) as [Hneg|_]; [lia|].
  destruct (Z.leb_spec 0 i) as [_|Hneg]; [|lia].
  destruct (Z.ltb_spec i (Z.of_nat (List.length l))) as [_|Hge]; [|lia].
  simpl. rewrite H. reflexivity.
Qed.

(** The meeting id of a poll report is found by cutting the fourth line at
    its commas, quoted or not: no fourth line, or a fourth line without a
    comma, is an [IndexError]; otherwise the id is read, and it holds no
    dash. *)
Lemma poll_meeting_id_cases (file : list string) :
  match nth_error file 3 with
  | None => poll_meeting_id file = Raise IndexError
  | Some line =>
      if has_char "," line
      then exists id, poll_meeting_id file = Ok id /\ has_char "-" id = false
      else poll_meeting_id file = Raise IndexError
  end.
Proof.
  unfold poll_meeting_id.
  destruct (nth_error file 3) as [line|] eqn:E.
  - rewrite (getitem_nth_error file 3 line ltac:(lia) E). cbn [bind].
    destruct (has_char "," line) eqn:Hc.
    + pose proof (split_char_length _ _ Hc) as Hlen.
      destruct (split_char "," line) as [|f1 [|f2 fs]]; simpl in Hlen; try lia.
      rewrite (getitem_nth (f1 :: f2 :: fs) 1 EmptyString)
        by (unfold len; simpl List.length; lia).
      cbn [bind]. eexists. split; [reflexivity|]. apply remove_char_has_char.
    + rewrite (split_char_no_char _ _ Hc). reflexivity.
  - apply nth_error_None in E.
    rewrite getitem_short by (unfold len; lia). reflexivity.
Qed.

(** X1: both readers of a poll report end with an [IndexError], whatever the
    rows of the report, when the report has fewer than four lines or its
    fourth line has no comma. *)
Theorem poll_report_without_meeting_id `{Runtime} (file : list string) :
  match nth_error file 3 with
  | None => True
  | Some line => has_char "," line = false
  end ->
  read_poll_report file = Raise IndexError
  /\ read_poll_report_counts file = Raise IndexError.
Proof.
  intros Hfile. pose proof (poll_meeting_id_cases file) as Hid.
  unfold read_poll_report, read_poll_report_counts.
  destruct (nth_error file 3) as [line|].
  - rewrite Hfile in Hid. rewrite Hid. split; reflexivity.
  - rewrite Hid. split; reflexivity.
Qed.

Lemma poll_report_without_meeting_id_witness :
  @read_poll_report Example.runtime ["Poll Report"; "Report Generated:"]
  = Raise IndexError
  /\ @read_poll_report_counts Example.runtime ["Poll Report"; "Report Generated:"]
     = Raise IndexError.
Proof.
  apply (@poll_report_without_meeting_id Example.runtime
           ["Poll Report"; "Report Generated:"]).
  exact I.
Defined.

Lemma poll_meeting_id_fields (file : list string) (f1 f2 rest : string) :
  nth_error file 3 = Some (f1 ++ "," ++ f2 ++ rest)%string ->
  has_char "," f1 = false -> has_char "," f2 = false ->
  ends_field rest = true ->
  poll_meeting_id file = Ok (remove_char "-" f2).
Proof.
  intros Hline H1 H2 Hrest. unfold poll_meeting_id.
  rewrite (getitem_nth_error file 3 _ ltac:(lia) Hline). cbn [bind].
  change (f1 ++ "," ++ f2 ++ rest)%string
    with (f1 ++ String "," (f2 ++ rest))%string.
  rewrite (split_char_field _ _ _ H1).
  assert (Hsplit : exists fs, split_char "," (f2 ++ rest) = f2 :: fs).
  { destruct rest as [|a rest]; simpl in Hrest.
    - replace (f2 ++ "")%string with f2.
      + rewrite (split_char_no_char _ _ H2). eauto.
      + clear. induction f2 as [|a f2 IH]; simpl; [reflexivity|].
        rewrite <- IH. reflexivity.
    - apply Ascii.eqb_eq in Hrest. subst a.
      rewrite (split_char_field _ _ _ H2). eauto. }
  destruct Hsplit as [fs ->].
  rewrite (getitem_nth (f1 :: f2 :: fs) 1 EmptyString)
    by (unfold len; simpl List.length; lia).
  reflexivity.
Qed.

(** ** Lines of any length *)

Lemma poll_line_no_int `{Runtime} (meeting_id : string) (poll : list QData)
    (no name email dt x y : string) (rest : list string) :
  py_int no = None ->
  poll_line meeting_id poll (no :: name :: email :: dt :: x :: y :: rest)
  = Raise (ValueError no).
Proof.
  intros Hno. unfold poll_line.
  set (line := no :: name :: email :: dt :: x :: y :: rest).
  assert (Hlen : 6 <= len line) by (unfold len, line; simpl List.length; lia).
  rewrite py_range_0_2_step by lia.
  cbn [for_each]. unfold poll_pair at 1.
  rewrite (getitem_nth line (4 + 0) EmptyString),
    (getitem_nth line (4 + 0 + 1) EmptyString),
    (getitem_nth line 0 EmptyString) by lia.
  cbn [bind]. unfold int.
  change (nth (Z.to_nat 0) line EmptyString) with no.
  rewrite Hno. reflexivity.
Qed.

Lemma poll_line_any `{Runtime} (meeting_id : string) (poll : list QData)
    (line : list string) :
  poll_line meeting_id poll line
  = match chunk2 (skipn 4 line) with
    | [] => Ok poll
    | pairs =>
        match py_int (nth 0 line EmptyString) with
        | Some n =>
            Ok (poll ++ map (qdata_of meeting_id n (nth 1 line EmptyString)
                               (nth 2 line EmptyString) (nth 3 line EmptyString))
                            pairs)
        | None => Raise (ValueError (nth 0 line EmptyString))
        end
    end.
Proof.
  destruct line as [|no [|name [|email [|dt rest]]]].
  1-4: rewrite poll_line_no_pairs by (unfold len; simpl; lia); reflexivity.
  cbn [skipn nth].
  destruct rest as [|x [|y rest]].
  1-2: rewrite poll_line_no_pairs by (unfold len; simpl; lia); reflexivity.
  destruct (py_int no) as [n|] eqn:Hno.
  - rewrite (poll_line_pairs _ _ _ _ _ _ _ n Hno). reflexivity.
  - rewrite (poll_line_no_int _ _ _ _ _ _ _ _ _ Hno). reflexivity.
Qed.

(** X2: whatever the number of fields of a line, the loops over its pairs read
    no field that is not there: the pairs are the fields after the fourth,
    two by two, a last field without a partner left out.
    [read_poll_report_counts] counts these pairs and never raises;
    [read_poll_report] adds a record for each of them when the first field
    is an integer, and raises a [ValueError] when it is not and there is a
    pair; a line without a pair is passed over, whatever its first
    field. *)
Theorem pair_loops_any_line `{Runtime} (meeting_id : string) (poll : list QData)
    (st : counts) (line : list string) :
  line_pairs line = chunk2 (skipn 4 line)
  /\ count_line st line = count_pairs st (chunk2 (skipn 4 line))
  /\ (exists st', count_line st line = Ok st')
  /\ poll_line meeting_id poll line
     = match chunk2 (skipn 4 line) with
       | [] => Ok poll
       | pairs =>
           match py_int (nth 0 line EmptyString) with
           | Some n =>
               Ok (poll ++ map (qdata_of meeting_id n (nth 1 line EmptyString)
                                  (nth 2 line EmptyString) (nth 3 line EmptyString))
                               pairs)
           | None => Raise (ValueError (nth 0 line EmptyString))
           end
       end.
Proof.
  split; [apply line_pairs_chunk2|].
  split; [rewrite count_line_pairs, line_pairs_chunk2; reflexivity|].
  split; [apply count_line_Ok | apply poll_line_any].
Qed.

(** ** The long table of a poll report *)

Lemma poll_line_inv `{Runtime} (meeting_id : string) (poll poll' : list QData)
    (line : list string) :
  poll_line meeting_id poll line = Ok poll' ->
  exists n,
    poll' = poll ++ map (qdata_of meeting_id n (nth 1 line EmptyString)
                           (nth 2 line EmptyString) (nth 3 line EmptyString))
                        (line_pairs line).
Proof.
  intros E. destruct line as [|no [|name [|email [|dt rest]]]].
  1-4: rewrite poll_line_no_pairs in E by (unfold len; simpl; lia);
       injection E as <-; exists 0; rewrite line_pairs_chunk2; simpl;
       rewrite app_nil_r; reflexivity.
  rewrite line_pairs_fixed. apply poll_line_fixed_inv in E.
  destruct E as [[E1 ->]|[n [_ ->]]].
  - exists 0. rewrite E1. simpl. rewrite app_nil_r. reflexivity.
  - exists n. reflexivity.
Qed.

Lemma poll_lines_inv `{Runtime} (meeting_id : string) (lines : list (list string))
    (poll poll' : list QData) :
  for_each (poll_line meeting_id) lines poll = Ok poll' ->
  exists ext,
    poll' = poll ++ ext
    /\ map (fun d => (qd_question d, qd_answer d)) ext = flat_map line_pairs lines
    /\ Forall (fun d => qd_meeting_id d = meeting_id) ext.
Proof.
  revert poll; induction lines as [|line lines IH]; intros poll.
  - simpl. intros [= <-]. exists []. rewrite app_nil_r. auto.
  - cbn [for_each flat_map]. intros E. apply bind_Ok_inv in E.
    destruct E as (p1 & E1 & E2).
    apply poll_line_inv in E1. destruct E1 as (n & ->).
    apply IH in E2. destruct E2 as (e2 & -> & Hk & Hm).
    eexists. split; [symmetry; apply app_assoc|]. split.
    + rewrite map_app, Hk, map_map. f_equal.
      unfold qdata_of. cbn [qd_question qd_answer].
      rewrite <- (map_id (line_pairs line)) at 2. apply map_ext.
      intros [q a]. reflexivity.
    + apply Forall_app. split; [|exact Hm].
      apply Forall_forall. intros d Hd. apply in_map_iff in Hd.
      destruct Hd as [p [<- _]]. reflexivity.
Qed.

Lemma long_table_of_pairs `{Runtime} (file : list string)
    (df : DataFrame PollResponse) :
  read_poll_report file = Ok df ->
  columns df = poll_columns
  /\ map (fun r => (pr_question r, pr_answer r)) (rows df)
     = flat_map line_pairs (csv_reader (skipn 6 file))
  /\ Forall (fun r => poll_meeting_id file = Ok (pr_meeting_id r)) (rows df).
Proof.
  intros E. split; [exact (read_poll_report_columns _ _ E)|].
  unfold read_poll_report in E.
  destruct (poll_meeting_id file) as [meeting_id|e]; cbn [bind] in E;
    [|discriminate].
  apply bind_Ok_inv in E. destruct E as (poll & Epoll & E).
  apply bind_Ok_inv in E. destruct E as (rs & Ers & E).
  injection E as <-. cbn [rows].
  apply poll_lines_inv in Epoll. destruct Epoll as (ext & -> & Hk & Hm).
  cbn [app] in Ers. apply map_result_Forall2 in Ers.
  rewrite <- Hk. clear Hk.
  induction Ers as [|d r ext rs Hd _ IH]; [split; constructor|].
  inversion Hm as [|? ? Hmd Hm']; subst.
  destruct (IH Hm') as [IH1 IH2].
  unfold poll_response_of in Hd. apply bind_Ok_inv in Hd.
  destruct Hd as (t & _ & Hr). injection Hr as <-.
  split; [cbn [map pr_question pr_answer]; rewrite IH1; reflexivity|].
  constructor; [reflexivity | exact IH2].
Qed.

(** X3: whatever the lines of a report, the table that [read_poll_report]
    returns has one row for each question/answer pair of the lines, in the
    order of the lines and of the pairs in a line, and every row has the
    meeting id of the header. *)
Theorem read_poll_report_pairs `{Runtime} (file : list string)
    (df : DataFrame PollResponse) :
  read_poll_report file = Ok df ->
  columns df = poll_columns
  /\ map (fun r => (pr_question r, pr_answer r)) (rows df)
     = flat_map line_pairs (csv_reader (skipn 6 file))
  /\ Forall (fun r => poll_meeting_id file = Ok (pr_meeting_id r)) (rows df).
Proof. apply long_table_of_pairs. Qed.

Lemma read_poll_report_pairs_witness :
  exists df,
    @read_poll_report Example.runtime Example.poll_file = Ok df
    /\ map (fun r => (pr_question r, pr_answer r)) (rows df)
       = [("Q1", "Yes"); ("Q2", "X"); ("Q1", "No")].
Proof.
  eexists. split; [reflexivity|].
  exact (proj1 (proj2 (@read_poll_report_pairs Example.runtime
                         Example.poll_file _ eq_refl))).
Defined.

(** ** The meeting id of a poll report *)

(** X4: the meeting id of both tables of a poll report is the text between
    the first and the second comma of the fourth line of the report,
    without its dashes: the line is cut at every comma, also at one
    between quotes. *)
Theorem poll_meeting_id_between_commas `{Runtime} (file : list string)
    (f1 f2 rest : string) :
  nth_error file 3 = Some (f1 ++ "," ++ f2 ++ rest)%string ->
  has_char "," f1 = false -> has_char "," f2 = false ->
  ends_field rest = true ->
  poll_meeting_id file = Ok (remove_char "-" f2)
  /\ (forall df, read_poll_report file = Ok df ->
        Forall (fun r => pr_meeting_id r = remove_char "-" f2) (rows df))
  /\ (forall df, read_poll_report_counts file = Ok df ->
        Forall (fun r => pc_meeting_id r = remove_char "-" f2) (rows df)).
Proof.
  intros Hline H1 H2 Hrest.
  pose proof (poll_meeting_id_fields file f1 f2 rest Hline H1 H2 Hrest) as Hid.
  split; [exact Hid|]. split; intros df E.
  - destruct (long_table_of_pairs file df E) as [_ [_ HF]].
    eapply Forall_impl; [|exact HF]. intros r Hr. cbv beta in Hr. congruence.
  - destruct (read_poll_report_counts_inv _ _ E) as (mid & st & Hmid & Hok & Et & _).
    destruct (polltable_of_add_up mid st (rows df) Hok Et) as [_ HF].
    eapply Forall_impl; [|exact HF]. intros r Hr. cbv beta in Hr. congruence.
Qed.

Lemma poll_meeting_id_between_commas_witness :
  poll_meeting_id Example.poll_file = Ok "123456789"
  /\ poll_meeting_id
       ["Poll Report"; "Report Generated:"; "Topic,Meeting ID";
        (Example.quoted "Weekly, part 2" ++ ",123-456-789")%string]
     = Ok (" part 2" ++ String Example.quote EmptyString)%string.
Proof.
  split.
  - apply (@poll_meeting_id_between_commas Example.runtime Example.poll_file
             "Weekly" "123-456-789" ",Mar 01 2021"); reflexivity.
  - apply (@poll_meeting_id_between_commas Example.runtime
             ["Poll Report"; "Report Generated:"; "Topic,Meeting ID";
              (Example.quoted "Weekly, part 2" ++ ",123-456-789")%string]
             (String Example.quote "Weekly")
             (" part 2" ++ String Example.quote EmptyString)%string
             ",123-456-789"); reflexivity.
Defined.

(** ** A report without a pair *)

Lemma poll_lines_no_pairs `{Runtime} (meeting_id : string)
    (lines : list (list string)) (poll : list QData) :
  flat_map line_pairs lines = [] ->
  for_each (poll_line meeting_id) lines poll = Ok poll.
Proof.
  induction lines as [|line lines IH]; simpl; [reflexivity|].
  intros E. apply app_eq_nil in E. destruct E as [E1 E2].
  rewrite poll_line_any. rewrite line_pairs_chunk2 in E1. rewrite E1.
  cbn [bind]. apply IH, E2.
Qed.

(** X5: a report with a meeting id in its header and no question/answer pair
    in its lines, such as a report with no line after the header, is read
    without an exception into tables without a row, with the column labels
    of the reader. *)
Theorem poll_report_without_pairs `{Runtime} (file : list string)
    (meeting_id : string) :
  poll_meeting_id file = Ok meeting_id ->
  flat_map line_pairs (csv_reader (skipn 6 file)) = [] ->
  read_poll_report file = Ok (mkDataFrame poll_columns [])
  /\ read_poll_report_counts file = Ok (mkDataFrame count_columns []).
Proof.
  intros Hid Hpairs. split.
  - unfold read_poll_report. rewrite Hid. cbn [bind].
    rewrite (poll_lines_no_pairs _ _ _ Hpairs). reflexivity.
  - unfold read_poll_report_counts. rewrite Hid. cbn [bind].
    rewrite for_each_count_lines, Hpairs. reflexivity.
Qed.

Lemma poll_report_without_pairs_witness :
  @read_poll_report Example.runtime
     ["Poll Report"; "Report Generated:,Mar 02 2021"; "Topic,Meeting ID,Start";
      "Weekly,123-456-789,Mar 01 2021"; ""; "#,User Name,Email,Date"]
  = Ok (mkDataFrame poll_columns [])
  /\ @read_poll_report_counts Example.runtime
       ["Poll Report"; "Report Generated:,Mar 02 2021"; "Topic,Meeting ID,Start";
        "Weekly,123-456-789,Mar 01 2021"; ""; "#,User Name,Email,Date"]
     = Ok (mkDataFrame count_columns []).
Proof.
  apply (@poll_report_without_pairs Example.runtime
           ["Poll Report"; "Report Generated:,Mar 02 2021"; "Topic,Meeting ID,Start";
            "Weekly,123-456-789,Mar 01 2021"; ""; "#,User Name,Email,Date"]
           "123456789"); reflexivity.
Defined.

(** ** Values in order of first appearance *)

Lemma mem_string_In (x : string) (l : list string) :
  mem_string x l = true <-> In x l.
Proof.
  unfold mem_string. rewrite existsb_exists. split.
  - intros [y [Hy E]]. apply String.eqb_eq in E. subst y. exact Hy.
  - intros H. exists x. split; [exact H | apply String.eqb_refl].
Qed.

Lemma unique_In (x : string) (l : list string) : In x (unique l) <-> In x l.
Proof.
  induction l as [|y l IH]; simpl; [tauto|].
  rewrite filter_In, IH. cbv beta.
  destruct (String.eqb_spec x y) as [->|Hne]; simpl.
  - tauto.
  - intuition congruence.
Qed.

Lemma unique_NoDup (l : list string) : NoDup (unique l).
Proof.
  induction l as [|y l IH]; simpl; [constructor|].
  constructor.
  - rewrite filter_In. intros [_ E]. rewrite String.eqb_refl in E. discriminate.
  - apply NoDup_filter. exact IH.
Qed.

Lemma mem_string_unique (x : string) (l : list string) :
  mem_string x (unique l) = mem_string x l.
Proof.
  destruct (mem_string x l) eqn:E.
  - apply mem_string_In, unique_In, mem_string_In, E.
  - destruct (mem_string x (unique l)) eqn:E'; [|reflexivity].
    apply (proj1 (mem_string_In _ _)) in E'.
    apply (proj1 (unique_In _ _)) in E'.
    apply (proj2 (mem_string_In _ _)) in E'. congruence.
Qed.

Lemma unique_snoc (l : list string) (x : string) :
  unique (l ++ [x]) = if mem_string x l then unique l else unique l ++ [x].
Proof.
  induction l as [|y l IH]; simpl; [reflexivity|].
  rewrite IH. unfold mem_string. simpl. fold (mem_string x l).
  destruct (String.eqb_spec x y) as [->|Hne]; simpl.
  - destruct (mem_string y l); [reflexivity|].
    rewrite filter_app. simpl. rewrite String.eqb_refl. simpl.
    rewrite app_nil_r. reflexivity.
  - destruct (mem_string x l); [reflexivity|].
    rewrite filter_app. simpl.
    destruct (String.eqb_spec x y); [congruence|]. reflexivity.
Qed.

Lemma dict_mem_keys {V : Type} (d : dict V) (k : string) :
  dict_mem d k = mem_string k (dict_keys d).
Proof.
  unfold dict_mem, mem_string, dict_keys.
  induction d as [|[k' v] d IH]; simpl; [reflexivity|].
  rewrite (String.eqb_sym k k'). destruct (String.eqb k' k); simpl;
    [reflexivity | exact IH].
Qed.

Lemma dict_set_set {V : Type} (d : dict V) (k : string) (v w : V) :
  dict_set (dict_set d k v) k w = dict_set d k w.
Proof.
  induction d as [|[k' v'] d IH]; simpl.
  - rewrite String.eqb_refl. reflexivity.
  - destruct (String.eqb k' k) eqn:E; simpl; rewrite E; [reflexivity|].
    rewrite IH. reflexivity.
Qed.

(** ** The dictionary of counts after the pairs *)

(** One update of [poll]: the count of the answer among the answers of
    the question goes up by one, from zero when it is new. *)
Lemma count_update_poll (st st' : counts) (q a : string) :
  count_update st q a = Ok st' ->
  poll st'
  = dict_set (poll st) q
      (dict_set (answers_in st q) a
         (match dict_get (answers_in st q) a with Some n => n | None => 0 end + 1)).
Proof.
  unfold count_update, answers_in, dict_getitem. intros E.
  destruct (dict_mem (poll st) q) eqn:Em; cbn [negb] in E.
  - destruct (dict_mem_true _ _ Em) as [answers Ha]. rewrite Ha in E |- *.
    cbn [of_option bind] in E.
    destruct (dict_mem answers a) eqn:Ea; cbn [negb] in E.
    + destruct (dict_mem_true _ _ Ea) as [n Hn]. rewrite Hn in E |- *.
      cbn [of_option bind] in E. bind_inv E. injection E as <-. reflexivity.
    + rewrite (dict_mem_false _ _ Ea). cbn [bind] in E.
      bind_inv E. injection E as <-. reflexivity.
  - rewrite (dict_mem_false _ _ Em). rewrite dict_get_set_same in E.
    cbn [of_option bind dict_mem dict_get negb] in E.
    bind_inv E. injection E as <-. cbn [poll dict_get].
    apply dict_set_set.
Qed.

Lemma answers_of_snoc (q q' a : string) (pairs : list (string * string)) :
  answers_of q' (pairs ++ [(q, a)])
  = if String.eqb q q' then answers_of q' pairs ++ [a] else answers_of q' pairs.
Proof.
  unfold answers_of. rewrite filter_app, map_app. simpl.
  destruct (String.eqb q q'); simpl; [reflexivity | apply app_nil_r].
Qed.

Lemma pair_count_snoc (q q' a a' : string) (pairs : list (string * string)) :
  pair_count q' a' (pairs ++ [(q, a)])
  = pair_count q' a' pairs
    + (if String.eqb q q' && String.eqb a a' then 1 else 0).
Proof.
  unfold pair_count, len. rewrite filter_app, length_app. simpl.
  destruct (String.eqb q q' && String.eqb a a'); simpl; lia.
Qed.

Lemma pair_count_nonneg (q a : string) (pairs : list (string * string)) :
  0 <= pair_count q a pairs.
Proof. unfold pair_count, len. lia. Qed.

Lemma pair_count_mem (q a : string) (pairs : list (string * string)) :
  mem_string a (answers_of q pairs) = negb (pair_count q a pairs =? 0).
Proof.
  unfold pair_count, answers_of, mem_string, len.
  induction pairs as [|[q0 a0] pairs IH]; simpl; [reflexivity|].
  destruct (String.eqb q0 q); simpl; [|exact IH].
  rewrite (String.eqb_sym a a0).
  destruct (String.eqb a0 a); simpl; [reflexivity | exact IH].
Qed.

Lemma poll_tallies_initial : poll_tallies (mkCounts [] []) [].
Proof. split; [reflexivity|]. intros q. split; [reflexivity|]. reflexivity. Qed.

Lemma count_update_tallies (st st' : counts) (q a : string)
    (pairs : list (string * string)) :
  poll_tallies st pairs -> count_update st q a = Ok st' ->
  poll_tallies st' (pairs ++ [(q, a)]).
Proof.
  intros [Hkeys Hans] E. pose proof (count_update_poll _ _ _ _ E) as Hpoll.
  split.
  - rewrite Hpoll, dict_keys_set, dict_mem_keys, Hkeys, map_app. cbn [map fst].
    rewrite unique_snoc, mem_string_unique. reflexivity.
  - intros q'.
    assert (Ha' : answers_in st' q'
                  = if String.eqb q q'
                    then dict_set (answers_in st q) a
                           (match dict_get (answers_in st q) a with
                            | Some n => n
                            | None => 0
                            end + 1)
                    else answers_in st q').
    { unfold answers_in at 1. rewrite Hpoll.
      destruct (String.eqb_spec q q') as [<-|Hne].
      - rewrite dict_get_set_same. reflexivity.
      - rewrite dict_get_set_other by congruence. reflexivity. }
    rewrite Ha', answers_of_snoc. clear Ha'.
    destruct (String.eqb_spec q q') as [<-|Hne].
    + destruct (Hans q) as [Hk Hv]. split.
      * rewrite dict_keys_set, dict_mem_keys, Hk, unique_snoc, mem_string_unique.
        reflexivity.
      * intros a'. rewrite pair_count_snoc, String.eqb_refl. cbn [andb].
        destruct (String.eqb_spec a a') as [<-|Hna].
        -- rewrite dict_get_set_same, Hv. unfold tally.
           pose proof (pair_count_nonneg q a pairs).
           destruct (Z.eqb_spec (pair_count q a pairs) 0) as [->|Hc];
             [reflexivity|].
           destruct (Z.eqb_spec (pair_count q a pairs + 1) 0); [lia|].
           reflexivity.
        -- rewrite dict_get_set_other by congruence.
           rewrite Hv, Z.add_0_r. reflexivity.
    + destruct (Hans q') as [Hk Hv].
      split; [exact Hk|]. intros a'. rewrite pair_count_snoc.
      destruct (String.eqb_spec q q'); [congruence|]. cbn [andb].
      rewrite Z.add_0_r. apply Hv.
Qed.

Lemma count_pairs_snoc (st : counts) (pairs : list (string * string))
    (p : string * string) :
  count_pairs st (pairs ++ [p])
  = (st1 <- count_pairs st pairs ;; count_update st1 (fst p) (snd p)).
Proof.
  unfold count_pairs. rewrite for_each_app.
  destruct (for_each _ pairs st) as [st1|e]; cbn [bind for_each]; [|reflexivity].
  destruct (count_update st1 (fst p) (snd p)); reflexivity.
Qed.

Lemma count_pairs_tallies (pairs : list (string * string)) (st : counts) :
  count_pairs (mkCounts [] []) pairs = Ok st -> poll_tallies st pairs.
Proof.
  revert st. induction pairs as [|[q a] pairs IH] using rev_ind; intros st.
  - intros [= <-]. exact poll_tallies_initial.
  - rewrite count_pairs_snoc. intros E. apply bind_Ok_inv in E.
    destruct E as (st1 & E1 & E2). cbn [fst snd] in E2.
    exact (count_update_tallies _ _ _ _ _ (IH st1 E1) E2).
Qed.

Lemma question_count_occ (q : string) (pairs : list (string * string)) :
  Z.of_nat (count_occ string_dec (map fst pairs) q) = question_count q pairs.
Proof.
  unfold question_count, len.
  induction pairs as [|[q0 a0] pairs IH]; simpl; [reflexivity|].
  destruct (string_dec q0 q) as [->|Hne].
  - rewrite String.eqb_refl. simpl List.length. lia.
  - destruct (String.eqb_spec q0 q); [congruence|]. exact IH.
Qed.

(** ** The rows of the table, from the pairs *)

Lemma flat_map_keys {V B : Type} (f : string -> list B) (g : string * V -> list B)
    (d : dict V) :
  (forall kv, In kv d -> g kv = f (fst kv)) ->
  flat_map g d = flat_map f (dict_keys d).
Proof.
  unfold dict_keys. induction d as [|kv d IH]; intros Hg; simpl; [reflexivity|].
  rewrite (Hg kv (or_introl eq_refl)), IH; [reflexivity|].
  intros kv' Hkv'. apply Hg. right; exact Hkv'.
Qed.

Lemma block_keys (meeting_id : string) (qa : string * dict Z)
    (block : list PollAnswerCount) :
  block_for meeting_id qa block ->
  map (fun r => (pc_question r, pc_answer r)) block
  = map (pair (fst qa)) (dict_keys (snd qa)).
Proof.
  unfold block_for, dict_keys. induction 1 as [|kv r l rs Hr _ IH]; simpl;
    [reflexivity|].
  destruct Hr as [_ [Hq [Ha _]]]. rewrite Hq, Ha, IH. reflexivity.
Qed.

Lemma blocks_keys (meeting_id : string) (d : dict (dict Z))
    (blocks : list (list PollAnswerCount)) :
  Forall2 (block_for meeting_id) d blocks ->
  map (fun r => (pc_question r, pc_answer r)) (List.concat blocks)
  = flat_map (fun qa => map (pair (fst qa)) (dict_keys (snd qa))) d.
Proof.
  induction 1 as [|qa block d blocks Hb _ IH]; simpl; [reflexivity|].
  rewrite map_app, IH, (block_keys _ _ _ Hb). reflexivity.
Qed.

(** What [read_poll_report_counts] makes of the pairs of a report: the
    dictionaries, and the table. *)
Lemma read_poll_report_counts_state `{Runtime} (file : list string)
    (df : DataFrame PollAnswerCount) :
  read_poll_report_counts file = Ok df ->
  exists meeting_id st,
    poll_meeting_id file = Ok meeting_id
    /\ count_pairs (mkCounts [] [])
         (flat_map line_pairs (csv_reader (skipn 6 file))) = Ok st
    /\ polltable_of meeting_id st = Ok (rows df).
Proof.
  unfold read_poll_report_counts. intros E.
  destruct (poll_meeting_id file) as [meeting_id|e]; cbn [bind] in E; [|discriminate].
  destruct (for_each count_line _ _) as [st|e] eqn:Est; cbn [bind] in E;
    [|discriminate].
  destruct (polltable_of meeting_id st) as [t|e] eqn:Et; cbn [bind] in E;
    [|discriminate].
  injection E as <-. exists meeting_id, st.
  rewrite for_each_count_lines in Est. auto.
Qed.

Lemma counts_table_of_pairs `{Runtime} (file : list string)
    (df : DataFrame PollAnswerCount) :
  read_poll_report_counts file = Ok df ->
  let pairs := flat_map line_pairs (csv_reader (skipn 6 file)) in
  map (fun r => (pc_question r, pc_answer r)) (rows df) = count_keys pairs
  /\ Forall (fun r =>
               pc_count r = pair_count (pc_question r) (pc_answer r) pairs
               /\ pc_responses r = question_count (pc_question r) pairs)
            (rows df).
Proof.
  intros E pairs.
  destruct (read_poll_report_counts_state _ _ E) as (mid & st & _ & Est & Et).
  fold pairs in Est.
  pose proof (count_pairs_ok _ _ _ counts_ok_initial Est) as Hok.
  pose proof (count_pairs_tallies _ _ Est) as [Hkeys Hans].
  destruct (polltable_of_blocks mid st (rows df) Hok Et) as [blocks [-> HF]].
  assert (Hget : forall qa, In qa (poll st) -> answers_in st (fst qa) = snd qa).
  { intros [q answers] Hin. unfold answers_in. cbn [fst snd].
    rewrite (dict_get_NoDup_In _ _ _ (proj1 Hok) Hin). reflexivity. }
  split.
  - rewrite (blocks_keys _ _ _ HF). unfold count_keys. rewrite <- Hkeys.
    apply flat_map_keys. intros qa Hqa.
    rewrite <- (Hget qa Hqa). rewrite (proj1 (Hans (fst qa))). reflexivity.
  - apply Forall_forall. intros r Hr.
    destruct (In_concat_block _ _ _ r HF Hr) as [qa [block [Hin [Hrb Hb]]]].
    apply in_combine_l in Hin.
    destruct (Forall2_In_r _ _ _ r Hb Hrb) as [kv [Hkv Hrow]].
    destruct Hrow as [_ [Hq [Ha [Hc [Hn _]]]]].
    pose proof (Hget qa Hin) as Hqa.
    destruct Hok as [Hnd Hcounts]. specialize (Hcounts (fst qa)).
    destruct qa as [q answers]. cbn [fst snd] in *.
    rewrite (dict_get_NoDup_In _ _ _ Hnd Hin) in Hcounts.
    destruct Hcounts as [Hnda [_ HN]].
    rewrite Hq, Ha, Hc, Hn. split.
    + destruct kv as [a c]. cbn [fst snd] in *.
      pose proof (dict_get_NoDup_In _ _ _ Hnda Hkv) as Hget_a.
      rewrite <- Hqa in Hget_a. rewrite (proj2 (Hans q)) in Hget_a.
      unfold tally in Hget_a.
      destruct (pair_count q a pairs =? 0); [discriminate|].
      injection Hget_a as <-. reflexivity.
    + rewrite (count_pairs_N _ _ _ Est q) in HN. cbn [N dict_get] in HN.
      unfold bump in HN. rewrite question_count_occ in HN.
      destruct (question_count q pairs =? 0); [discriminate|].
      injection HN as <-. lia.
Qed.

(** X6: the table of counts of a report has one row for each question and
    answer of its pairs: the questions in the order in which the report
    first has them, the answers of a question in the order in which the
    report first has them; the count of a row is the number of pairs with
    its question and answer, its responses the number of pairs with its
    question. *)
Theorem read_poll_report_counts_table `{Runtime} (file : list string)
    (df : DataFrame PollAnswerCount) :
  read_poll_report_counts file = Ok df ->
  let pairs := flat_map line_pairs (csv_reader (skipn 6 file)) in
  map (fun r => (pc_question r, pc_answer r)) (rows df) = count_keys pairs
  /\ Forall (fun r =>
               pc_count r = pair_count (pc_question r) (pc_answer r) pairs
               /\ pc_responses r = question_count (pc_question r) pairs)
            (rows df).
Proof. apply counts_table_of_pairs. Qed.

Lemma read_poll_report_counts_table_witness :
  exists df,
    @read_poll_report_counts Example.runtime Example.poll_file = Ok df
    /\ map (fun r => (pc_question r, pc_answer r)) (rows df)
       = [("Q1", "Yes"); ("Q1", "No"); ("Q2", "X")]
    /\ Forall (fun r =>
                 pc_count r
                 = pair_count (pc_question r) (pc_answer r)
                     [("Q1", "Yes"); ("Q2", "X"); ("Q1", "No")]
                 /\ pc_responses r
                    = question_count (pc_question r)
                        [("Q1", "Yes"); ("Q2", "X"); ("Q1", "No")])
              (rows df).
Proof.
  eexists. split; [reflexivity|].
  exact (@read_poll_report_counts_table Example.runtime Example.poll_file _
           eq_refl).
Defined.

(** ** One row for a question and an answer *)

Lemma answers_of_In (q a : string) (pairs : list (string * string)) :
  In a (answers_of q pairs) <-> In (q, a) pairs.
Proof.
  unfold answers_of. rewrite in_map_iff. split.
  - intros [[q' a'] [<- Hin]]. apply filter_In in Hin. destruct Hin as [Hin E].
    apply String.eqb_eq in E. simpl in E. subst q'. exact Hin.
  - intros Hin. exists (q, a). split; [reflexivity|].
    apply filter_In. split; [exact Hin | apply String.eqb_refl].
Qed.

Lemma count_keys_In (q a : string) (pairs : list (string * string)) :
  In (q, a) (count_keys pairs) <-> In (q, a) pairs.
Proof.
  unfold count_keys. rewrite in_flat_map. split.
  - intros [q' [_ Hin]]. apply in_map_iff in Hin.
    destruct Hin as [a' [[= -> ->] Ha]].
    apply unique_In, answers_of_In in Ha. exact Ha.
  - intros Hin. exists q. split.
    + apply unique_In. apply (in_map fst) in Hin. exact Hin.
    + apply in_map, unique_In, answers_of_In, Hin.
Qed.

Lemma count_keys_NoDup (pairs : list (string * string)) : NoDup (count_keys pairs).
Proof.
  unfold count_keys.
  assert (H : forall qs, NoDup qs ->
            NoDup (flat_map (fun q => map (pair q) (unique (answers_of q pairs))) qs)).
  { induction 1 as [|q qs Hq _ IH]; simpl; [constructor|].
    apply NoDup_app; [|exact IH|].
    - apply Finite.Injective_map_NoDup; [|apply unique_NoDup].
      intros a a' [= ->]. reflexivity.
    - intros [q' a'] Hin Hin'. apply in_map_iff in Hin.
      destruct Hin as [a0 [[= <- <-] _]].
      apply in_flat_map in Hin'. destruct Hin' as [q1 [Hq1 Hin']].
      apply in_map_iff in Hin'. destruct Hin' as [a1 [[= -> _] _]].
      exact (Hq Hq1). }
  apply H, unique_NoDup.
Qed.

(** X7: no two rows of the table of counts of a report have the same question
    and answer, and the table has a row for a question and an answer
    exactly when the report has a pair with them. *)
Theorem read_poll_report_counts_keys `{Runtime} (file : list string)
    (df : DataFrame PollAnswerCount) :
  read_poll_report_counts file = Ok df ->
  NoDup (map (fun r => (pc_question r, pc_answer r)) (rows df))
  /\ forall q a,
       In (q, a) (map (fun r => (pc_question r, pc_answer r)) (rows df))
       <-> In (q, a) (flat_map line_pairs (csv_reader (skipn 6 file))).
Proof.
  intros E. destruct (counts_table_of_pairs file df E) as [Hkeys _].
  rewrite Hkeys. split; [apply count_keys_NoDup|].
  intros q a. apply count_keys_In.
Qed.

Lemma read_poll_report_counts_keys_witness :
  exists df,
    @read_poll_report_counts Example.runtime Example.poll_file = Ok df
    /\ NoDup (map (fun r => (pc_question r, pc_answer r)) (rows df)).
Proof.
  eexists. split; [reflexivity|].
  exact (proj1 (@read_poll_report_counts_keys Example.runtime Example.poll_file
                  _ eq_refl)).
Defined.

(** ** The two tables of a report *)

Lemma filter_map_length {A B : Type} (f : A -> B) (p : B -> bool) (l : list A) :
  len (filter p (map f l)) = len (filter (fun x => p (f x)) l).
Proof.
  unfold len. induction l as [|x l IH]; simpl; [reflexivity|].
  destruct (p (f x)); simpl List.length; lia.
Qed.

(** X8: the two readers agree on a report that both read: the count of a row
    of the table of counts is the number of rows of the long table with
    its question and answer, its responses the number of rows with its
    question, and every question and answer of the long table has its row
    in the table of counts. *)
Theorem counts_of_long_table `{Runtime} (file : list string)
    (long : DataFrame PollResponse) (df : DataFrame PollAnswerCount) :
  read_poll_report file = Ok long ->
  read_poll_report_counts file = Ok df ->
  Forall (fun r =>
            pc_count r
            = len (filter (fun l => String.eqb (pr_question l) (pc_question r)
                                    && String.eqb (pr_answer l) (pc_answer r))
                          (rows long))
            /\ pc_responses r
               = len (filter (fun l => String.eqb (pr_question l) (pc_question r))
                             (rows long)))
         (rows df)
  /\ forall l, In l (rows long) ->
       exists r, In r (rows df)
                 /\ pc_question r = pr_question l /\ pc_answer r = pr_answer l.
Proof.
  intros Elong Edf.
  destruct (long_table_of_pairs file long Elong) as [_ [Hpairs _]].
  destruct (counts_table_of_pairs file df Edf) as [Hkeys Hrows].
  cbv zeta in Hkeys, Hrows. rewrite <- Hpairs in Hkeys, Hrows. split.
  - eapply Forall_impl; [|exact Hrows]. intros r [Hc Hn].
    unfold pair_count, question_count in Hc, Hn.
    rewrite filter_map_length in Hc, Hn. split; assumption.
  - intros l Hl.
    assert (Hin : In (pr_question l, pr_answer l)
                     (map (fun r => (pc_question r, pc_answer r)) (rows df))).
    { rewrite Hkeys. apply count_keys_In.
      apply (in_map (fun r => (pr_question r, pr_answer r))) in Hl. exact Hl. }
    apply in_map_iff in Hin. destruct Hin as [r [[= Hq Ha] Hr]]. eauto.
Qed.

Lemma counts_of_long_table_witness :
  exists long df,
    @read_poll_report Example.runtime Example.poll_file = Ok long
    /\ @read_poll_report_counts Example.runtime Example.poll_file = Ok df
    /\ Forall (fun r =>
                 pc_count r
                 = len (filter (fun l => String.eqb (pr_question l) (pc_question r)
                                         && String.eqb (pr_answer l) (pc_answer r))
                               (rows long))
                 /\ pc_responses r
                    = len (filter (fun l => String.eqb (pr_question l) (pc_question r))
                                  (rows long)))
              (rows df).
Proof.
  eexists. eexists. split; [reflexivity|]. split; [reflexivity|].
  exact (proj1 (@counts_of_long_table Example.runtime Example.poll_file _ _
                  eq_refl eq_refl)).
Defined.

(** ** The rows of the table of counts *)

Lemma div_eucl_div_mod (a b : Z) : Z.div_eucl a b = (a / b, a mod b).
Proof. unfold Z.div, Z.modulo. destruct (Z.div_eucl a b). reflexivity. Qed.

(** A positive float divided by itself is [1.0]. *)
Lemma SFdiv_self (m : positive) (e : Z) :
  SFdiv prec emax (S754_finite false m e) (S754_finite false m e) = float_one.
Proof.
  cbn [SFdiv xorb]. unfold SFdiv_core_binary.
  replace (Zdigits2 (Zpos m) + e - (Zdigits2 (Zpos m) + e)) with 0 by lia.
  replace (e - e) with 0 by lia.
  replace (Z.min (fexp prec emax 0) 0) with (-53) by reflexivity.
  replace (0 - -53) with 53 by reflexivity.
  rewrite div_eucl_div_mod, Z.shiftl_mul_pow2 by lia.
  rewrite (Z.mul_comm (Zpos m)), Z.div_mul, Z.mod_mul by lia.
  replace (new_location (Zpos m) 0) with loc_Exact.
  - reflexivity.
  - unfold new_location. destruct (Z.even (Zpos m)); reflexivity.
Qed.

(** A proportion within a relative distance of [2 ^ -48] of [c / n] is
    positive, and it is below one when [c] is below [n] and [n] is at most
    [2 ^ 48]. *)
Lemma prop_range (c n : Z) (p : Q) :
  1 <= c <= n ->
  (Qabs (p - inject_Z c / inject_Z n) <= inject_Z c / inject_Z n * 2 ^ (-48))%Q ->
  (0 < p)%Q /\ (n <= 2 ^ 48 -> c < n -> (p < 1)%Q).
Proof.
  intros [Hc Hcn] Herr. rewrite pow2_m48 in Herr.
  assert (HC : (1 <= inject_Z c)%Q)
    by (change 1%Q with (inject_Z 1); rewrite <- Zle_Qle; lia).
  assert (HN : (inject_Z c <= inject_Z n)%Q) by (rewrite <- Zle_Qle; lia).
  assert (Ht : (0 < inject_Z c / inject_Z n)%Q).
  { apply Qlt_shift_div_l; lra. }
  apply Qabs_Qle_condition in Herr. destruct Herr as [Hlo Hhi].
  split; [lra|]. intros Hn Hlt.
  assert (HC1 : (inject_Z c + 1 <= inject_Z n)%Q).
  { change 1%Q with (inject_Z 1). rewrite <- inject_Z_plus, <- Zle_Qle. lia. }
  assert (HNK : (inject_Z n <= 281474976710656)%Q).
  { change 281474976710656%Q with (inject_Z (2 ^ 48)). rewrite <- Zle_Qle. lia. }
  assert (Ht1 : (inject_Z c / inject_Z n <= 281474976710655 # 281474976710656)%Q).
  { apply Qle_shift_div_r; lra. }
  lra.
Qed.

Lemma counts_rows_bounds `{Runtime} (file : list string)
    (df : DataFrame PollAnswerCount) :
  read_poll_report_counts file = Ok df ->
  Forall (fun r =>
            1 <= pc_count r <= pc_responses r
            /\ is_finite (pc_prop r) = true
            /\ (Qabs (SF2Q (pc_prop r)
                      - inject_Z (pc_count r) / inject_Z (pc_responses r))
                <= inject_Z (pc_count r) / inject_Z (pc_responses r) * 2 ^ (-48))%Q
            /\ (0 < SF2Q (pc_prop r))%Q
            /\ (pc_count r = pc_responses r -> pc_prop r = float_one)
            /\ (pc_responses r <= 2 ^ 48 -> pc_count r < pc_responses r ->
                (SF2Q (pc_prop r) < 1)%Q))
         (rows df).
Proof.
  intros E.
  destruct (read_poll_report_counts_inv _ _ E) as (mid & st & _ & Hok & Et & _).
  destruct (polltable_of_blocks mid st (rows df) Hok Et) as [blocks [-> HF]].
  apply Forall_forall. intros r Hr.
  destruct (In_concat_block _ _ _ r HF Hr) as [qa [block [Hin [Hrb Hb]]]].
  apply in_combine_l in Hin.
  destruct (Forall2_In_r _ _ _ r Hb Hrb) as [kv [Hkv Hrow]].
  destruct Hrow as [_ [_ [_ [Hc [Hn [x [y [Hx [Hy Hp]]]]]]]]].
  destruct Hok as [Hnd Hcounts]. specialize (Hcounts (fst qa)).
  destruct qa as [q answers]. cbn [fst snd] in *.
  rewrite (dict_get_NoDup_In _ _ _ Hnd Hin) in Hcounts.
  destruct Hcounts as [_ [Hpos _]].
  assert (Hcn : 1 <= snd kv <= dict_sum answers).
  { unfold dict_sum. apply In_le_Zsum.
    - rewrite Forall_forall in *. intros z Hz. apply in_map_iff in Hz.
      destruct Hz as [kv' [<- Hkv']]. apply Hpos; exact Hkv'.
    - apply (in_map snd) in Hkv. exact Hkv. }
  rewrite Hc, Hn. split; [exact Hcn|].
  destruct (prop_error _ _ _ _ _ Hcn Hx Hy Hp) as [Hfin Herr].
  destruct (prop_range _ _ _ Hcn Herr) as [Hpos' Hlt].
  split; [exact Hfin|]. split; [exact Herr|]. split; [exact Hpos'|].
  split; [|exact Hlt].
  intros Heq. rewrite Heq in Hx. rewrite Hx in Hy. injection Hy as <-.
  destruct (float_of_int_error (dict_sum answers) x ltac:(lia) Hx)
    as [[m [e ->]] _].
  cbn [truediv] in Hp. injection Hp as <-. apply SFdiv_self.
Qed.

(** X9: every row of the table of counts of a report has a count of at least
    one and at most its responses, and a proportion that is a finite
    positive float within a relative distance of [2 ^ -48] of the count
    divided by the responses; the proportion is the float [1.0] when the
    count is equal to the responses, and it is below one when the count is
    below the responses and these are at most [2 ^ 48]. *)
Theorem read_poll_report_counts_rows `{Runtime} (file : list string)
    (df : DataFrame PollAnswerCount) :
  read_poll_report_counts file = Ok df ->
  Forall (fun r =>
            1 <= pc_count r <= pc_responses r
            /\ is_finite (pc_prop r) = true
            /\ (Qabs (SF2Q (pc_prop r)
                      - inject_Z (pc_count r) / inject_Z (pc_responses r))
                <= inject_Z (pc_count r) / inject_Z (pc_responses r) * 2 ^ (-48))%Q
            /\ (0 < SF2Q (pc_prop r))%Q
            /\ (pc_count r = pc_responses r -> pc_prop r = float_one)
            /\ (pc_responses r <= 2 ^ 48 -> pc_count r < pc_responses r ->
                (SF2Q (pc_prop r) < 1)%Q))
         (rows df).
Proof. apply counts_rows_bounds. Qed.

Lemma read_poll_report_counts_rows_witness :
  exists df,
    @read_poll_report_counts Example.runtime Example.poll_file = Ok df
    /\ Forall (fun r =>
                 1 <= pc_count r <= pc_responses r
                 /\ is_finite (pc_prop r) = true
                 /\ (0 < SF2Q (pc_prop r))%Q
                 /\ (pc_count r = pc_responses r -> pc_prop r = float_one))
              (rows df).
Proof.
  eexists. split; [reflexivity|].
  eapply Forall_impl;
    [|exact (@read_poll_report_counts_rows Example.runtime Example.poll_file _
               eq_refl)].
  intros r [H1 [H2 [_ [H3 [H4 _]]]]]. auto.
Defined.

(** ** What the counts depend on *)

(** X10: the table of counts depends on the meeting id of the header and on
    the question/answer pairs in their order, and on nothing else: not on
    the row numbers, names, emails and dates, which are not read, and not
    on how the pairs are divided into rows. *)
Theorem counts_from_pairs_only `{Runtime} (file file' : list string) :
  poll_meeting_id file = poll_meeting_id file' ->
  flat_map line_pairs (csv_reader (skipn 6 file))
  = flat_map line_pairs (csv_reader (skipn 6 file')) ->
  read_poll_report_counts file = read_poll_report_counts file'.
Proof.
  intros Hid Hpairs. unfold read_poll_report_counts.
  rewrite Hid, !for_each_count_lines, Hpairs. reflexivity.
Qed.

Lemma counts_from_pairs_only_witness :
  @read_poll_report_counts Example.runtime Example.poll_file
  = @read_poll_report_counts Example.runtime Example.poll_file_anonymous
  /\ @read_poll_report Example.runtime Example.poll_file_anonymous
     = Raise (ValueError "-").
Proof.
  split; [|reflexivity].
  apply (@counts_from_pairs_only Example.runtime); reflexivity.
Defined.

(** ** The exceptions of the readers of a poll report *)






(** ** The cells of a performance report *)



Lemma getitem_Ok_len {A : Type} (l : list A) (i : Z) (x : A) :
  0 <= i -> getitem l i = Ok x -> i < len l.
Proof.
  intros Hi E. destruct (Z.lt_ge_cases i (len l)) as [Hlt|Hge]; [exact Hlt|].
  rewrite getitem_short in E by exact Hge. discriminate.
Qed.

Lemma performance_report_cells_inv `{Runtime} (file : list string)
    (date_format : string) (df : DataFrame MeetingRecord) :
  read_performance_report file date_format = Ok df ->
  exists f,
    reads_as (csv_reader file) f
    /\ df = mkDataFrame performance_columns [meeting_record_of date_format f]
    /\ has_char "-" (mr_meeting_id (meeting_record_of date_format f)) = false
    /\ 4 <= len (nth 3 (csv_reader file) [])
    /\ 3 <= len (nth 6 (csv_reader file) [])
    /\ 9 <= len (csv_reader file).
Proof.
  unfold read_performance_report. intros E.
  destruct (cell (csv_reader file) 3 0) as [topic|] eqn:E0; cbn [bind] in E;
    [|discriminate].
  destruct (cell (csv_reader file) 3 1) as [id|] eqn:E1; cbn [bind] in E;
    [|discriminate].
  destruct (cell (csv_reader file) 3 2) as [dt|] eqn:E2; cbn [bind] in E;
    [|discriminate].
  destruct (cell (csv_reader file) 3 3) as [c33|] eqn:E3; cbn [bind] in E;
    [|discriminate].
  destruct (int c33) as [duration|] eqn:I3; cbn [bind] in E; [|discriminate].
  destruct (cell (csv_reader file) 6 0) as [c60|] eqn:E4; cbn [bind] in E;
    [|discriminate].
  destruct (int c60) as [registered|] eqn:I4; cbn [bind] in E; [|discriminate].
  destruct (cell (csv_reader file) 6 1) as [c61|] eqn:E5; cbn [bind] in E;
    [|discriminate].
  destruct (int c61) as [attended|] eqn:I5; cbn [bind] in E; [|discriminate].
  destruct (cell (csv_reader file) 6 2) as [c62|] eqn:E6; cbn [bind] in E;
    [|discriminate].
  destruct (float_of_str c62) as [pct|] eqn:I6; cbn [bind] in E; [|discriminate].
  rewrite float_of_int_100 in E. cbn [bind] in E. rewrite truediv_hundred in E.
  cbn [bind] in E.
  destruct (cell (csv_reader file) 8 0) as [c80|] eqn:E7; cbn [bind] in E;
    [|discriminate].
  destruct (int c80) as [questions|] eqn:I7; cbn [bind] in E; [|discriminate].
  destruct (pd_to_datetime performance_datetime_format dt) as [t|] eqn:I2;
    cbn [bind] in E; [|discriminate].
  injection E as <-.
  exists (mkPerformanceFields topic id t duration registered attended pct questions).
  split; [|split; [reflexivity|split; [apply remove_char_has_char|]]].
  - unfold reads_as. cbn [pf_topic pf_id pf_datetime pf_duration pf_registered
                          pf_attended pf_percent pf_questions].
    rewrite E0, E1, E2, E3, E4, E5, E6, E7. cbn [bind]. auto 10.
  - unfold cell in E3, E6, E7.
    destruct (getitem (csv_reader file) 3) as [l3|] eqn:G3; cbn [bind] in E3;
      [|discriminate].
    destruct (getitem (csv_reader file) 6) as [l6|] eqn:G6; cbn [bind] in E6;
      [|discriminate].
    destruct (getitem (csv_reader file) 8) as [l8|] eqn:G8; cbn [bind] in E7;
      [|discriminate].
    pose proof (getitem_Ok_len _ 3 _ ltac:(lia) G3) as H3.
    pose proof (getitem_Ok_len _ 6 _ ltac:(lia) G6) as H6.
    pose proof (getitem_Ok_len _ 8 _ ltac:(lia) G8) as H8.
    rewrite (getitem_nth _ 3 []) in G3 by lia. injection G3 as <-.
    rewrite (getitem_nth _ 6 []) in G6 by lia. injection G6 as <-.
    pose proof (getitem_Ok_len _ 3 _ ltac:(lia) E3).
    pose proof (getitem_Ok_len _ 2 _ ltac:(lia) E6).
    change (Pos.to_nat 3) with 3%nat in *. change (Pos.to_nat 6) with 6%nat in *.
    lia.
Qed.

(** X12: [read_performance_report] returns a table only for a report whose
    eight cells can be read, a report of at least nine rows with four
    fields in the fourth row and three in the seventh; the table is then
    the one row of these cells, with a meeting id that holds no dash. *)
Theorem read_performance_report_cells `{Runtime} (file : list string)
    (date_format : string) (df : DataFrame MeetingRecord) :
  read_performance_report file date_format = Ok df ->
  exists f,
    reads_as (csv_reader file) f
    /\ df = mkDataFrame performance_columns [meeting_record_of date_format f]
    /\ has_char "-" (mr_meeting_id (meeting_record_of date_format f)) = false
    /\ 4 <= len (nth 3 (csv_reader file) [])
    /\ 3 <= len (nth 6 (csv_reader file) [])
    /\ 9 <= len (csv_reader file).
Proof. apply performance_report_cells_inv. Qed.

Lemma read_performance_report_cells_witness :
  exists f,
    @reads_as Example.runtime
      (@csv_reader Example.runtime Example.performance_file) f
    /\ has_char "-" (mr_meeting_id
                       (@meeting_record_of Example.runtime default_date_format f))
       = false.
Proof.
  destruct (@read_performance_report_cells Example.runtime
              Example.performance_file default_date_format _ eq_refl)
    as [f [Hf [_ [Hid _]]]].
  exists f. split; assumption.
Defined.

(** ** The exceptions of the reader of a performance report *)



(** ** Files the readers of a folder pass over *)

Lemma glob_other (suffix : string) (dir1 dir2 : folder) (f : string * list string) :
  matches suffix (fst f) = false ->
  glob suffix (dir1 ++ f :: dir2) = glob suffix (dir1 ++ dir2).
Proof.
  unfold glob, matches. intros Hf. rewrite !filter_app. simpl.
  rewrite Hf. reflexivity.
Qed.

(** X14: a file whose name does not match the pattern of a reader, hidden files
    among them, is never read: with or without it, and whatever it holds,
    the reader does the same. *)
Theorem other_files_passed_over `{Runtime} (dir1 dir2 : folder)
    (name : string) (content : list string) :
  (matches "Performance Report.csv" name = false ->
   read_all_performance_reports (dir1 ++ (name, content) :: dir2)
   = read_all_performance_reports (dir1 ++ dir2))
  /\ (matches "Poll Report.csv" name = false ->
      read_all_poll_reports (dir1 ++ (name, content) :: dir2)
      = read_all_poll_reports (dir1 ++ dir2)
      /\ read_all_poll_report_counts (dir1 ++ (name, content) :: dir2)
         = read_all_poll_report_counts (dir1 ++ dir2)).
Proof.
  split; intros Hname; [|split].
  - unfold read_all_performance_reports.
    rewrite (glob_other _ dir1 dir2 (name, content) Hname). reflexivity.
  - unfold read_all_poll_reports.
    rewrite (glob_other _ dir1 dir2 (name, content) Hname). reflexivity.
  - unfold read_all_poll_report_counts.
    rewrite (glob_other _ dir1 dir2 (name, content) Hname). reflexivity.
Qed.

Lemma other_files_passed_over_witness :
  @read_all_poll_report_counts Example.runtime
     ([("a Poll Report.csv", Example.poll_file)]
      ++ ("a Performance Report.csv", Example.performance_file) :: [])
  = @read_all_poll_report_counts Example.runtime
      ([("a Poll Report.csv", Example.poll_file)] ++ []).
Proof.
  apply (@other_files_passed_over Example.runtime
           [("a Poll Report.csv", Example.poll_file)] []
           "a Performance Report.csv" Example.performance_file).
  reflexivity.
Defined.

(** ** A file that cannot be read *)

Lemma map_result_first_failure {A B : Type} (f : A -> result B) (l : list A)
    (e : exn) :
  map_result f l = Raise e
  <-> exists before x after,
        l = before ++ x :: after
        /\ Forall (fun y => exists b, f y = Ok b) before
        /\ f x = Raise e.
Proof.
  split.
  - induction l as [|x l IH]; simpl; [discriminate|].
    destruct (f x) as [y|e1] eqn:E; simpl.
    + destruct (map_result f l) as [ys|e2]; simpl; [discriminate|].
      intros [= <-]. destruct (IH eq_refl) as (before & z & after & -> & HF & Hz).
      exists (x :: before), z, after. split; [reflexivity|].
      split; [constructor; eauto | exact Hz].
    + intros [= <-]. exists [], x, l. split; [reflexivity|].
      split; [constructor | exact E].
  - intros (before & x & after & -> & HF & Hx).
    induction HF as [|y before [b Hy] _ IH]; simpl.
    + rewrite Hx. reflexivity.
    + rewrite Hy. simpl. rewrite IH. reflexivity.
Qed.

Lemma read_folder_exn `{Runtime} {R : Type} (suffix : string) (cols : list string)
    (read : list string -> result (DataFrame R)) (leb : R -> R -> bool)
    (dir : folder) (e : exn) :
  read_folder suffix cols read leb dir = Raise e
  <-> first_failure read (glob suffix dir) e.
Proof.
  unfold read_folder, first_failure.
  rewrite (for_each_append_tables (fun f => read (snd f))).
  rewrite <- (map_result_first_failure (fun f => read (snd f))).
  destruct (map_result _ (glob suffix dir)) as [dfs|e1]; simpl.
  - split; discriminate.
  - split; intros [= <-]; reflexivity.
Qed.

(** X15: a folder is read as a whole or not at all: a reader of a folder
    raises exactly when one of the files that match its pattern cannot be
    read, and then it raises what the first such file raises, in the order
    of the listing; no table of the other files is returned. *)
Theorem folder_first_failure `{Runtime} (dir : folder) (e : exn) :
  (read_all_performance_reports dir = Raise e
   <-> first_failure (fun file => read_performance_report file default_date_format)
         (glob "Performance Report.csv" dir) e)
  /\ (read_all_poll_reports dir = Raise e
      <-> first_failure read_poll_report (glob "Poll Report.csv" dir) e)
  /\ (read_all_poll_report_counts dir = Raise e
      <-> first_failure read_poll_report_counts (glob "Poll Report.csv" dir) e).
Proof.
  split; [|split].
  - rewrite read_all_performance_reports_folder. apply read_folder_exn.
  - rewrite read_all_poll_reports_folder. apply read_folder_exn.
  - rewrite read_all_poll_report_counts_folder. apply read_folder_exn.
Qed.

Lemma folder_first_failure_witness :
  @read_all_poll_reports Example.runtime
     [("a Poll Report.csv", Example.poll_file); ("b Poll Report.csv", ["Poll Report"])]
  = Raise IndexError.
Proof.
  apply (proj1 (proj2 (@folder_first_failure Example.runtime
                         [("a Poll Report.csv", Example.poll_file);
                          ("b Poll Report.csv", ["Poll Report"])]
                         IndexError))).
  exists [("a Poll Report.csv", Example.poll_file)],
         ("b Poll Report.csv", ["Poll Report"]), [].
  split; [reflexivity|]. split; [|reflexivity].
  constructor; [|constructor]. eexists. reflexivity.
Defined.

(** ** The rows of the table of a folder *)





(** ** What the rows of a folder keep *)

Lemma read_folder_rows `{Runtime} {R : Type} (suffix : string) (cols : list string)
    (read : list string -> result (DataFrame R)) (leb : R -> R -> bool)
    (P : R -> Prop) (dir : folder) (t : DataFrame R) :
  sort_rows_permutes ->
  (forall file df, read file = Ok df -> columns df = cols) ->
  (forall file df, read file = Ok df -> Forall P (rows df)) ->
  read_folder suffix cols read leb dir = Ok t -> Forall P (rows t).
Proof.
  intros Hperm Hcols HP Ht.
  destruct (read_folder_inv _ _ _ _ _ _ Hcols Ht) as [dfs [E ->]].
  cbn [rows]. apply (Permutation_Forall (Hperm _ _ _)).
  apply Forall_concat. apply Forall_map.
  eapply Forall_impl; [|apply (map_result_Forall _ _ _ E)].
  intros df [f [_ Hf]]. eapply HP; exact Hf.
Qed.

(** X17: what holds of the rows of the table of a report holds of the rows of
    the table of a folder.  No meeting id holds a dash; the date string of
    a meeting is its date in the format [%d.%m.], the same for all
    reports; and the count of an answer is at least one and at most the
    responses of its question. *)
Theorem folder_rows_kept `{Runtime} (dir : folder) :
  sort_rows_permutes ->
  (forall t, read_all_performance_reports dir = Ok t ->
     Forall (fun r => has_char "-" (mr_meeting_id r) = false
                      /\ mr_date_str r = strftime "%d.%m." (mr_datetime r))
            (rows t))
  /\ (forall t, read_all_poll_reports dir = Ok t ->
        Forall (fun r => has_char "-" (pr_meeting_id r) = false) (rows t))
  /\ (forall t, read_all_poll_report_counts dir = Ok t ->
        Forall (fun r => has_char "-" (pc_meeting_id r) = false
                         /\ 1 <= pc_count r <= pc_responses r)
               (rows t)).
Proof.
  intros Hperm.
  assert (Hdash : forall file id,
            poll_meeting_id file = Ok id -> has_char "-" id = false).
  { intros file id Hid. pose proof (poll_meeting_id_cases file) as Hc.
    destruct (nth_error file 3) as [line|]; [|congruence].
    destruct (has_char "," line); [|congruence].
    destruct Hc as [id' [Hid' Hd]]. congruence. }
  split; [|split]; intros t Ht.
  - rewrite read_all_performance_reports_folder in Ht.
    eapply read_folder_rows; [exact Hperm | | | exact Ht].
    + intros file df. apply read_performance_report_columns.
    + intros file df E.
      destruct (performance_report_cells_inv _ _ _ E) as [f [_ [-> [Hid _]]]].
      constructor; [|constructor]. split; [exact Hid | reflexivity].
  - rewrite read_all_poll_reports_folder in Ht.
    eapply read_folder_rows; [exact Hperm | | | exact Ht].
    + intros file df. apply read_poll_report_columns.
    + intros file df E. destruct (long_table_of_pairs file df E) as [_ [_ HF]].
      eapply Forall_impl; [|exact HF]. intros r Hr. exact (Hdash _ _ Hr).
  - rewrite read_all_poll_report_counts_folder in Ht.
    eapply read_folder_rows; [exact Hperm | | | exact Ht].
    + intros file df. apply read_poll_report_counts_columns.
    + intros file df E.
      destruct (read_poll_report_counts_inv _ _ E)
        as (mid & st & Hmid & Hok & Et & _).
      destruct (polltable_of_add_up mid st (rows df) Hok Et) as [_ HF].
      pose proof (counts_rows_bounds file df E) as HB.
      rewrite Forall_forall in *. intros r Hr. split.
      * rewrite (HF r Hr). exact (Hdash _ _ Hmid).
      * apply (HB r Hr).
Qed.

Lemma folder_rows_kept_witness :
  exists t,
    @read_all_poll_report_counts Example.runtime Example.folder_ab = Ok t
    /\ Forall (fun r => has_char "-" (pc_meeting_id r) = false
                        /\ 1 <= pc_count r <= pc_responses r)
              (rows t).
Proof.
  eexists. split; [reflexivity|].
  exact (proj2 (proj2 (@folder_rows_kept Example.runtime Example.folder_ab
                         example_sort_permutes)) _ eq_refl).
Defined.

(** ** The stacked bar plot *)

Lemma for_each_check (p : string -> bool) (e : exn) (l : list string) :
  for_each (fun _ x => if negb (p x) then Raise e else Ok tt) l tt
  = if forallb p l then Ok tt else Raise e.
Proof.
  induction l as [|x l IH]; simpl; [reflexivity|].
  destruct (p x); simpl; [exact IH | reflexivity].
Qed.

Lemma enumerate_snd {A : Type} (l : list A) : map snd (enumerate l) = l.
Proof.
  unfold enumerate.
  assert (H : forall (ks : list Z), List.length ks = List.length l ->
                map snd (combine ks l) = l).
  { induction l as [|x l IH]; intros [|k ks]; simpl; try discriminate;
      try reflexivity.
    intros [= Hlen]. rewrite (IH ks Hlen). reflexivity. }
  apply H. rewrite length_map, length_seq. reflexivity.
Qed.

Lemma stacked_plot_closed_form `{Runtime}
    (polldata : DataFrame PollPlotRow) (question : string) (prop : bool)
    (answer_sort : option (list string)) :
  let a := fst (question_data polldata question prop) in
  let data := snd (question_data polldata question prop) in
  plot_question_stacked_bokeh polldata question prop answer_sort
  = if covers answer_sort a
    then ([figure (w_date_str data) (shorten 60 61 question);
           fig_vbar_stack (plotted_answers answer_sort a) (w_date_str data)
             (w_values data) (firstn (List.length a) Set2_8);
           Legend (map (shorten 35 36) (plotted_answers answer_sort a));
           fig_add_layout],
          Ok tt)
    else ([], Raise (ValueError (answer_sort_error question a))).
Proof.
  unfold plot_question_stacked_bokeh.
  destruct (question_data polldata question prop) as [a data]. cbn [fst snd].
  assert (Hlegend : forall s : list string,
            map (fun '(ix, ans) => shorten 35 36 ans) (enumerate s)
            = map (shorten 35 36) s).
  { intros s. rewrite <- (enumerate_snd s) at 2. rewrite map_map.
    apply map_ext. intros [ix ans]. reflexivity. }
  destruct answer_sort as [s|]; cbn [covers plotted_answers].
  - rewrite (for_each_check (fun var => mem_string var s)).
    destruct (forallb _ a); cbn; [|reflexivity].
    rewrite Hlegend. reflexivity.
  - cbn. rewrite Hlegend. reflexivity.
Qed.


(** ** Titles and labels *)

Lemma string_length_append (s t : string) :
  String.length (s ++ t) = (String.length s + String.length t)%nat.
Proof. induction s as [|a s IH]; simpl; [reflexivity | rewrite IH; reflexivity]. Qed.

Lemma string_length_prefix (n : nat) (s : string) :
  String.length (substring 0 n s) = Nat.min n (String.length s).
Proof.
  revert s. induction n as [|n IH]; intros [|a s]; simpl; try reflexivity.
  rewrite IH. reflexivity.
Qed.

(** A text of more than [limit] characters is cut to its first [n]
    characters and three dots; a shorter text is left as it is. *)
Lemma shorten_cases (limit n : nat) (s : string) :
  ((String.length s <= limit)%nat /\ shorten limit n s = s)
  \/ ((limit < String.length s)%nat
      /\ shorten limit n s = (substring 0 n s ++ "...")%string
      /\ String.length (shorten limit n s)
         = (Nat.min n (String.length s) + 3)%nat).
Proof.
  unfold shorten. destruct (Nat.ltb_spec limit (String.length s)) as [Hlt|Hge].
  - right. split; [exact Hlt|]. split; [reflexivity|].
    rewrite string_length_append, string_length_prefix. reflexivity.
  - left. auto.
Qed.

(** X19: the title of the stacked bar plot is the question when it has at most
    60 characters, and otherwise its first 61 characters and three dots,
    64 characters in all; a label of the legend is the answer when it has
    at most 35 characters, and otherwise its first 36 characters and three
    dots, 39 characters in all. *)
Theorem stacked_plot_texts `{Runtime}
    (polldata : DataFrame PollPlotRow) (question : string) (prop : bool)
    (answer_sort : option (list string)) (x_range items : list string)
    (title : string) :
  (In (figure x_range title)
      (fst (plot_question_stacked_bokeh polldata question prop answer_sort)) ->
   (String.length title <= 64)%nat
   /\ ((String.length question <= 60)%nat -> title = question)
   /\ ((60 < String.length question)%nat ->
       title = (substring 0 61 question ++ "...")%string
       /\ String.length title = 64%nat))
  /\ (In (Legend items)
         (fst (plot_question_stacked_bokeh polldata question prop answer_sort)) ->
      Forall (fun label => (String.length label <= 39)%nat) items
      /\ Forall2 (fun ans label =>
                    ((String.length ans <= 35)%nat -> label = ans)
                    /\ ((35 < String.length ans)%nat ->
                        label = (substring 0 36 ans ++ "...")%string))
           (plotted_answers answer_sort
              (fst (question_data polldata question prop)))
           items).
Proof.
  pose proof (stacked_plot_closed_form polldata question prop answer_sort)
    as Hcases. cbv zeta in Hcases. rewrite Hcases. clear Hcases.
  destruct (covers answer_sort _); cbn [fst In]; [|tauto].
  split.
  - intros [[= _ <-]|[H1|[H1|[H1|[]]]]]; try discriminate.
    destruct (shorten_cases 60 61 question) as [[Hle ->]|[Hlt [E Hlen]]].
    + split; [lia|]. split; [reflexivity | lia].
    + rewrite Hlen. split; [lia|]. split; [lia|]. intros _. split; [exact E|].
      lia.
  - intros [H1|[H1|[[= <-]|[H1|[]]]]]; try discriminate.
    split.
    + apply Forall_forall. intros label Hl. apply in_map_iff in Hl.
      destruct Hl as [ans [<- _]].
      destruct (shorten_cases 35 36 ans) as [[Hle ->]|[Hlt [_ Hlen]]]; lia.
    + induction (plotted_answers answer_sort _) as [|ans l IH]; simpl;
        constructor; [|exact IH].
      destruct (shorten_cases 35 36 ans) as [[Hle ->]|[Hlt [E _]]].
      * split; [reflexivity | lia].
      * split; [lia | intros _; exact E].
Qed.

Lemma stacked_plot_texts_witness :
  (String.length "Q" <= 64)%nat
  /\ Forall (fun label => (String.length label <= 39)%nat) ["A"; "B"].
Proof.
  destruct (@stacked_plot_texts Example.runtime Example.plot_table "Q" true None
              ["01.03."] ["A"; "B"] "Q") as [Htitle Hlegend].
  split.
  - apply Htitle. left. reflexivity.
  - apply Hlegend. right. right. left. reflexivity.
Defined.

(** ** The line plot *)

Lemma plot_question_bokeh_loop `{Runtime} (polldata : DataFrame PollPlotRow)
    (question : string) (prop : bool) (answer_sort : option (list string)) :
  let a := fst (question_data polldata question prop) in
  let data := snd (question_data polldata question prop) in
  plot_question_bokeh polldata question prop answer_sort
  = (_ <~ call (figure (w_date_str data) question) ;;
     for_each_rendering
       (line_series data (firstn (List.length a) Set2_8)
          (plotted_answers answer_sort a))
       (enumerate (plotted_answers answer_sort a))).
Proof.
  unfold plot_question_bokeh.
  destruct (question_data polldata question prop) as [a data]. reflexivity.
Qed.

Lemma wide_column_In (answers : list string) (values : list (list float))
    (ans : string) (y : list float) :
  wide_column answers values ans = Ok y -> In ans answers.
Proof.
  revert values. induction answers as [|a answers IH]; intros [|v values]; simpl;
    try discriminate.
  destruct (String.eqb_spec a ans) as [->|Hne]; [auto|].
  intros E. right. exact (IH _ E).
Qed.

Lemma wide_column_Ok (answers : list string) (values : list (list float))
    (ans : string) :
  List.length values = List.length answers -> In ans answers ->
  exists y, wide_column answers values ans = Ok y.
Proof.
  revert values. induction answers as [|a answers IH]; intros [|v values]; simpl;
    try discriminate; try tauto.
  intros [= Hlen] Hin. destruct (String.eqb_spec a ans) as [->|Hne]; [eauto|].
  apply IH; [exact Hlen|]. destruct Hin; [congruence | assumption].
Qed.

(** The series from number [k] on, for the answers [l] that follow the
    [k] answers [pre]: what one pass of the loop does. *)
Lemma line_series_step (data : Wide) (colors pre l : list string) (ans : string) :
  line_series data colors (pre ++ ans :: l) (Z.of_nat (List.length pre), ans)
  = match wide_column (w_answers data) (w_values data) ans with
    | Raise e => ([], Raise e)
    | Ok _ =>
        if (List.length pre <? List.length colors)%nat
        then (series_of data colors (List.length pre, ans), Ok tt)
        else ([], Raise IndexError)
    end.
Proof.
  unfold line_series, series_of, column_of. cbn [fst snd].
  destruct (wide_column _ _ ans) as [y|e]; [|reflexivity].
  unfold lift, bind_rendering at 1. cbn [app].
  destruct (Nat.ltb_spec (List.length pre) (List.length colors)) as [Hlt|Hge].
  - rewrite (getitem_nth colors _ EmptyString) by (unfold len; lia).
    rewrite (getitem_nth (pre ++ ans :: l) _ EmptyString)
      by (unfold len; rewrite length_app; simpl; lia).
    rewrite Nat2Z.id, app_nth2, Nat.sub_diag by lia. reflexivity.
  - rewrite getitem_short by (unfold len; lia). reflexivity.
Qed.

Lemma line_loop_cons (data : Wide) (colors pre l : list string) (ans : string) :
  for_each_rendering (line_series data colors (pre ++ ans :: l))
    (combine (map Z.of_nat (seq (List.length pre) (List.length (ans :: l))))
             (ans :: l))
  = (_ <~ line_series data colors (pre ++ ans :: l)
            (Z.of_nat (List.length pre), ans) ;;
     for_each_rendering (line_series data colors ((pre ++ [ans]) ++ l))
       (combine (map Z.of_nat (seq (List.length (pre ++ [ans])) (List.length l)))
                l)).
Proof.
  cbn [List.length seq map combine for_each_rendering].
  rewrite <- app_assoc, length_app, Nat.add_1_r. reflexivity.
Qed.

(** The loop from the answer number [length pre] on: it ends without an
    exception exactly when there is a colour and a column for every
    answer; it then has drawn every answer; and the exception it ends
    with otherwise is an [IndexError] for a colour or a [KeyError] for a
    column. *)
Lemma line_loop (data : Wide) (colors : list string) (l pre : list string) :
  List.length (w_values data) = List.length (w_answers data) ->
  (List.length pre <= List.length colors)%nat ->
  let loop :=
    for_each_rendering (line_series data colors (pre ++ l))
      (combine (map Z.of_nat (seq (List.length pre) (List.length l))) l) in
  (snd loop = Ok tt
   <-> (List.length pre + List.length l <= List.length colors)%nat
       /\ Forall (fun ans => In ans (w_answers data)) l)
  /\ (snd loop = Ok tt ->
      fst loop
      = List.concat (map (series_of data colors)
                       (combine (seq (List.length pre) (List.length l)) l)))
  /\ (forall e, snd loop = Raise e ->
        (e = IndexError /\ (List.length colors < List.length pre + List.length l)%nat)
        \/ exists ans, In ans l /\ ~ In ans (w_answers data) /\ e = KeyError ans).
Proof.
  intros Hvalues. revert pre. induction l as [|ans l IH]; intros pre Hpre loop.
  - subst loop. cbn. split; [|split].
    + split; [intros _; split; [lia | constructor] | reflexivity].
    + reflexivity.
    + discriminate.
  - subst loop. rewrite line_loop_cons, line_series_step.
    destruct (wide_column (w_answers data) (w_values data) ans) as [y|e0] eqn:Ey.
    + pose proof (wide_column_In _ _ _ _ Ey) as Hin.
      destruct (Nat.ltb_spec (List.length pre) (List.length colors)) as [Hlt|Hge].
      * specialize (IH (pre ++ [ans])).
        rewrite length_app, Nat.add_1_r in IH. cbn [List.length] in IH.
        specialize (IH ltac:(lia)). cbv zeta in IH.
        rewrite length_app, Nat.add_1_r. cbn [List.length].
        destruct (for_each_rendering _ _) as [cs r]. cbn [fst snd] in IH.
        cbn [bind_rendering fst snd]. destruct IH as [IH1 [IH2 IH3]].
        split; [|split].
        -- rewrite IH1. cbn [List.length]. split.
           ++ intros [H1 H2]. split; [lia | constructor; assumption].
           ++ intros [H1 H2]. inversion H2; subst. split; [lia | assumption].
        -- intros Hr. rewrite (IH2 Hr). reflexivity.
        -- intros e Hr. destruct (IH3 e Hr) as [[-> H1]|[x [Hx [Hnx ->]]]].
           ++ left. cbn [List.length]. split; [reflexivity | lia].
           ++ right. exists x. split; [right; exact Hx | auto].
      * cbn [bind_rendering fst snd]. split; [|split].
        -- split; [discriminate|]. cbn [List.length]. intros [H1 _]. lia.
        -- discriminate.
        -- intros e [= <-]. left. cbn [List.length]. split; [reflexivity | lia].
    + cbn [bind_rendering fst snd].
      assert (Hnin : ~ In ans (w_answers data)).
      { intros Hin. destruct (wide_column_Ok _ _ ans Hvalues Hin) as [y Hy].
        congruence. }
      split; [|split].
      * split; [discriminate|]. intros [_ H2]. inversion H2; subst. tauto.
      * discriminate.
      * intros e [= <-]. right. exists ans. split; [left; reflexivity|].
        split; [exact Hnin|]. exact (wide_column_exn _ _ _ _ Ey).
Qed.

Lemma question_data_columns `{Runtime} (polldata : DataFrame PollPlotRow)
    (question : string) (prop : bool) :
  let a := fst (question_data polldata question prop) in
  let data := snd (question_data polldata question prop) in
  List.length (w_values data) = List.length (w_answers data)
  /\ w_answers data = sort_rows _ String.leb a.
Proof.
  unfold question_data. cbn [fst snd]. unfold pivot_table. cbn [w_values w_answers].
  split; [apply length_map|].
  destruct prop; rewrite map_map; reflexivity.
Qed.



Lemma line_loop_short (data : Wide) (colors : list string) (l pre : list string) :
  List.length (w_values data) = List.length (w_answers data) ->
  (List.length pre <= List.length colors)%nat ->
  Forall (fun ans => In ans (w_answers data)) l ->
  (List.length colors < List.length pre + List.length l)%nat ->
  for_each_rendering (line_series data colors (pre ++ l))
    (combine (map Z.of_nat (seq (List.length pre) (List.length l))) l)
  = (List.concat
       (map (series_of data colors)
          (combine (seq (List.length pre) (List.length colors - List.length pre)) l)),
     Raise IndexError).
Proof.
  intros Hvalues. revert pre.
  induction l as [|ans l IH]; intros pre Hpre HF Hlen.
  - simpl in Hlen. lia.
  - inversion HF as [|? ? Hans HF']; subst.
    rewrite line_loop_cons, line_series_step.
    destruct (wide_column_Ok _ _ ans Hvalues Hans) as [y ->].
    destruct (Nat.ltb_spec (List.length pre) (List.length colors)) as [Hlt|Hge].
    + rewrite (IH (pre ++ [ans]));
        rewrite ?length_app, ?Nat.add_1_r; cbn [List.length] in *; try lia;
        [|exact HF'].
      cbn [bind_rendering].
      replace (List.length colors - List.length pre)%nat
        with (S (List.length colors - S (List.length pre))) by lia.
      reflexivity.
    + replace (List.length colors - List.length pre)%nat with 0%nat by lia.
      reflexivity.
Qed.

Lemma series_of_firstn (data : Wide) (colors : list string) (n : nat)
    (l : list (nat * string)) :
  Forall (fun kans => (fst kans < n)%nat) l ->
  map (series_of data (firstn n colors)) l = map (series_of data colors) l.
Proof.
  intros HF. apply map_ext_in. intros [k ans] Hin.
  rewrite Forall_forall in HF. specialize (HF _ Hin). cbn [fst] in HF.
  unfold series_of. cbn [fst snd].
  assert (E : nth k (firstn n colors) EmptyString = nth k colors EmptyString).
  { rewrite <- (firstn_skipn n colors) at 2.
    destruct (Nat.lt_ge_cases k (List.length (firstn n colors))) as [Hk|Hk].
    - rewrite app_nth1 by exact Hk. reflexivity.
    - rewrite (nth_overflow (firstn n colors)) by exact Hk.
      rewrite length_firstn in Hk.
      rewrite nth_overflow; [reflexivity|].
      rewrite length_app, length_firstn, length_skipn. lia. }
  rewrite E. reflexivity.
Qed.

Lemma combine_seq_lt {A : Type} (k n : nat) (l : list A) :
  Forall (fun kx => (fst kx < k + n)%nat) (combine (seq k n) l).
Proof.
  apply Forall_forall. intros [i x] Hin. apply in_combine_l in Hin.
  apply in_seq in Hin. cbn [fst]. lia.
Qed.

(** X21: without a given order of the answers, the line plot draws every
    answer seen for the question when the palette has a colour for each;
    with more answers than colours it ends with an [IndexError], the figure
    made and the answers that have a colour drawn. *)
Theorem plot_question_bokeh_palette `{Runtime} (polldata : DataFrame PollPlotRow)
    (question : string) (prop : bool) :
  sort_rows_permutes ->
  let a := fst (question_data polldata question prop) in
  let data := snd (question_data polldata question prop) in
  plot_question_bokeh polldata question prop None
  = if (List.length a <=? List.length Set2_8)%nat
    then (figure (w_date_str data) question
          :: List.concat (map (series_of data Set2_8)
                            (combine (seq 0 (List.length a)) a)),
          Ok tt)
    else (figure (w_date_str data) question
          :: List.concat (map (series_of data Set2_8)
                            (combine (seq 0 (List.length Set2_8)) a)),
          Raise IndexError).
Proof.
  intros Hperm a data.
  pose proof (plot_question_bokeh_loop polldata question prop None) as Hplot.
  cbv zeta in Hplot. cbn [plotted_answers] in Hplot. fold a data in Hplot.
  destruct (question_data_columns polldata question prop) as [Hvalues Hanswers].
  fold a data in Hvalues, Hanswers.
  assert (HF : Forall (fun ans => In ans (w_answers data)) a).
  { apply Forall_forall. intros ans Ha. rewrite Hanswers.
    apply (Permutation_in ans (Hperm _ _ _) Ha). }
  rewrite Hplot. clear Hplot. unfold call, bind_rendering at 1.
  unfold enumerate.
  destruct (Nat.leb_spec (List.length a) (List.length Set2_8)) as [Hle|Hgt].
  - pose proof (line_loop data (firstn (List.length a) Set2_8) a [] Hvalues
                  ltac:(simpl; lia)) as Hloop.
    cbv zeta in Hloop. cbn [app List.length Nat.add] in Hloop.
    destruct (for_each_rendering _ _) as [cs r]. cbn [fst snd] in Hloop.
    destruct Hloop as [H1 [H2 _]].
    assert (Hr : r = Ok tt).
    { apply H1. rewrite length_firstn. split; [lia | exact HF]. }
    rewrite (H2 Hr), Hr. cbn [app].
    rewrite series_of_firstn by (apply (combine_seq_lt 0)). reflexivity.
  - rewrite firstn_all2 by lia.
    pose proof (line_loop_short data Set2_8 a [] Hvalues ltac:(simpl; lia) HF
                  ltac:(simpl; lia)) as Hloop.
    cbn [app List.length] in Hloop. rewrite Nat.sub_0_r in Hloop.
    rewrite Hloop. reflexivity.
Qed.

Lemma plot_question_bokeh_palette_witness :
  exists y,
    @plot_question_bokeh Example.runtime Example.plot_table "Q" true None
    = ([figure ["01.03."] "Q";
        fig_line ["01.03."] y "#66c2a5" "A"; fig_scatter ["01.03."] y "#66c2a5";
        fig_line ["01.03."] y "#fc8d62" "B"; fig_scatter ["01.03."] y "#fc8d62"],
       Ok tt).
Proof.
  eexists.
  exact (@plot_question_bokeh_palette Example.runtime Example.plot_table "Q" true
           example_sort_permutes).
Defined.

(** ** The columns of a plot *)

Lemma wide_column_values (answers : list string) (values : list (list float))
    (ans : string) (y : list float) :
  wide_column answers values ans = Ok y -> In y values.
Proof.
  revert values. induction answers as [|a answers IH]; intros [|v values]; simpl;
    try discriminate.
  destruct (String.eqb a ans); [intros [= <-]; auto|].
  intros E. right. exact (IH _ E).
Qed.

Lemma question_data_rectangular `{Runtime} (polldata : DataFrame PollPlotRow)
    (question : string) (prop : bool) :
  let data := snd (question_data polldata question prop) in
  Forall (fun column => List.length column = List.length (w_date_str data))
         (w_values data).
Proof.
  unfold question_data. cbn [snd]. unfold pivot_table.
  cbn [w_values w_date_str]. apply Forall_forall. intros column Hc.
  apply in_map_iff in Hc. destruct Hc as [a [<- _]]. apply length_map.
Qed.

(** X22: the pivot table has a value for every answer at every date: the
    bars of the stacked bar plot, and the line and the markers of every
    answer of a line plot that ends without an exception, have as many
    values as there are dates on the axis. *)
Theorem plots_are_rectangular `{Runtime} (polldata : DataFrame PollPlotRow)
    (question : string) (prop : bool) (answer_sort : option (list string)) :
  Forall rectangular
    (fst (plot_question_stacked_bokeh polldata question prop answer_sort))
  /\ (snd (plot_question_bokeh polldata question prop answer_sort) = Ok tt ->
      Forall rectangular
        (fst (plot_question_bokeh polldata question prop answer_sort))).
Proof.
  pose proof (question_data_rectangular polldata question prop) as Hrect.
  cbv zeta in Hrect. split.
  - pose proof (stacked_plot_closed_form polldata question prop answer_sort) as Hs.
    cbv zeta in Hs. rewrite Hs. clear Hs.
    destruct (covers answer_sort _); cbn [fst]; [|constructor].
    repeat constructor. exact Hrect.
  - pose proof (plot_question_bokeh_loop polldata question prop answer_sort)
      as Hplot.
    cbv zeta in Hplot. rewrite Hplot. clear Hplot.
    destruct (question_data_columns polldata question prop) as [Hvalues _].
    set (a := fst (question_data polldata question prop)) in *.
    set (data := snd (question_data polldata question prop)) in *.
    set (shown := plotted_answers answer_sort a).
    set (colors := firstn (List.length a) Set2_8).
    pose proof (line_loop data colors shown [] Hvalues ltac:(simpl; lia)) as Hloop.
    cbv zeta in Hloop. cbn [app List.length Nat.add] in Hloop.
    change (combine (map Z.of_nat (seq 0 (List.length shown))) shown)
      with (enumerate shown) in Hloop.
    unfold call, bind_rendering at 1.
    destruct (for_each_rendering _ (enumerate shown)) as [cs r].
    cbn [fst snd app] in *. destruct Hloop as [H1 [H2 _]].
    intros Hr. rewrite (H2 Hr). constructor; [exact I|].
    destruct (proj1 H1 Hr) as [_ HF].
    apply Forall_concat, Forall_map, Forall_forall. intros [k ans] Hin.
    apply in_combine_r in Hin. rewrite Forall_forall in HF.
    destruct (wide_column_Ok _ _ ans Hvalues (HF ans Hin)) as [y Hy].
    pose proof (wide_column_values _ _ _ _ Hy) as Hyin.
    rewrite Forall_forall in Hrect. specialize (Hrect y Hyin).
    unfold series_of, column_of. cbn [fst snd]. rewrite Hy.
    repeat constructor; exact Hrect.
Qed.

Lemma plots_are_rectangular_witness :
  Forall rectangular
    (fst (@plot_question_bokeh Example.runtime Example.plot_table "Q" true None)).
Proof.
  apply (@plots_are_rectangular Example.runtime Example.plot_table "Q" true None).
  reflexivity.
Defined.

(** ** The attendance plot *)




Lemma attendance_short_legend (perf_report : DataFrame MeetingRecord)
    (questions : bool) (title : string) (legend : list string) :
  (List.length legend < List.length (attendance_series questions))%nat ->
  plot_attendance_bokeh perf_report questions title legend
  = ([attendance_figure (map mr_date_str (rows perf_report)) title]
     ++ List.concat
          (map (fun kf => series_calls perf_report legend (fst kf) (snd kf))
               (combine (seq 0 (List.length legend))
                        (attendance_series questions))),
     Raise IndexError).
Proof.
  destruct questions; simpl; intros Hlen.
  - destruct legend as [|l0 [|l1 [|l2 legend]]]; simpl in Hlen; try lia;
      reflexivity.
  - destruct legend as [|l0 [|l1 legend]]; simpl in Hlen; try lia;
      reflexivity.
Qed.

(** X24: with a legend that has fewer labels than there are series, the
    attendance plot ends with an [IndexError], and only after the figure
    has been made and the series that have a label have been drawn: the
    layout is never reached. *)
Theorem plot_attendance_bokeh_short_legend (perf_report : DataFrame MeetingRecord)
    (questions : bool) (title : string) (legend : list string) :
  (List.length legend < List.length (attendance_series questions))%nat ->
  plot_attendance_bokeh perf_report questions title legend
  = ([attendance_figure (map mr_date_str (rows perf_report)) title]
     ++ List.concat
          (map (fun kf => series_calls perf_report legend (fst kf) (snd kf))
               (combine (seq 0 (List.length legend))
                        (attendance_series questions))),
     Raise IndexError).
Proof. apply attendance_short_legend. Qed.

Lemma plot_attendance_bokeh_short_legend_witness :
  plot_attendance_bokeh (mkDataFrame performance_columns []) true
    default_title ["Registered"; "Attended"]
  = ([attendance_figure [] "Meeting Attendance";
      attendance_line [] [] "#e41a1c" "Registered";
      attendance_scatter [] [] "#e41a1c";
      attendance_line [] [] "#377eb8" "Attended";
      attendance_scatter [] [] "#377eb8"],
     Raise IndexError).
Proof.
  apply (plot_attendance_bokeh_short_legend
           (mkDataFrame performance_columns []) true default_title
           ["Registered"; "Attended"]).
  simpl. lia.
Defined.

(** ** The range of the counts in the attendance plot *)



